(** * AgentEvolver backend: training-job orchestration

    A shallow embedding of the orchestration code of
    [agentevolver/backend]:

    - [evolution_service.py]: the regular expression that scrapes progress
      lines, the pump loop of [run_evolution], [EvolutionService.stop] and
      [generate_yaml_config];
    - [webhook_service.py]: [WebhookService.send_event];
    - [agent_evolver_shim.py]: [main] and [run_fallback_simulation];
    - [server.py]: the shared [log_queue], the [/api/start], [/api/stop],
      [/api/integration/telemetry], [/api/integration/job],
      [/agent/interact] and [/agent/feedback] handlers and the [/ws/logs]
      forwarding loop;
    - [agent_core.py]: the memory of [ContextManager], the feedback buffer
      of [ModelTrainer] and [CoreAgentSystem.reason], with
      [database.add_history_item].

    Text is modelled as [string] over 8-bit characters; the child process is
    taken to print ASCII, on which [bytes.decode('utf-8')] is the identity.
    Python floats are IEEE binary64 numbers, that is Rocq's primitive
    floats.  Integers are unbounded, as in Python. *)

From Stdlib Require Import ZArith NArith Lia Bool String Ascii List.
From Stdlib Require Import DecimalString DecimalPos DecimalN DecimalZ.
From Stdlib Require Import Floats.
From stdpp Require Import base option list gmap strings.

Set Warnings "-inexact-float".
Arguments String.append !s1 s2 : simpl nomatch.

(** ** Text *)

Module Text.

(** Character classes of Python's [re] on ASCII text: [\d], [\s] and the
    [.] that matches everything but a newline. *)
Definition is_digit (c : ascii) : bool :=
  let n := nat_of_ascii c in (48 <=? n)%nat && (n <=? 57)%nat.

Definition is_space (c : ascii) : bool :=
  let n := nat_of_ascii c in
  ((9 <=? n)%nat && (n <=? 13)%nat) || ((28 <=? n)%nat && (n <=? 32)%nat).

Definition is_dot (c : ascii) : bool := negb (Ascii.eqb c "010"%char).

(** The class [[\d\.]]. *)
Definition is_numchar (c : ascii) : bool := is_digit c || Ascii.eqb c "."%char.

Fixpoint all_chars (p : ascii -> bool) (s : string) : bool :=
  match s with
  | EmptyString => true
  | String c s' => p c && all_chars p s'
  end.

Fixpoint count_chars (p : ascii -> bool) (s : string) : nat :=
  match s with
  | EmptyString => 0
  | String c s' => (if p c then 1 else 0) + count_chars p s'
  end.

(** [s.startswith(l)], returning what follows [l]. *)
Fixpoint drop_prefix (l s : string) : option string :=
  match l, s with
  | EmptyString, _ => Some s
  | String a l', String c s' => if Ascii.eqb a c then drop_prefix l' s' else None
  | String _ _, EmptyString => None
  end.

Definition startswith (l s : string) : bool :=
  match drop_prefix l s with Some _ => true | None => false end.

(** [l in s]. *)
Fixpoint contains (l s : string) : bool :=
  startswith l s ||
  match s with
  | EmptyString => false
  | String _ s' => contains l s'
  end.

(** [s.find(l)]: the position of the first occurrence. *)
Fixpoint find (l s : string) : option nat :=
  if startswith l s then Some 0
  else match s with
       | EmptyString => None
       | String _ s' => match find l s' with Some n => Some (S n) | None => None end
       end.

(** [s.replace(l, "")] for a non-empty [l]: occurrences are removed from
    left to right, without overlap. *)
Fixpoint remove_all_fuel (fuel : nat) (l s : string) : string :=
  match fuel with
  | O => s
  | S fuel' =>
      match drop_prefix l s with
      | Some s' => remove_all_fuel fuel' l s'
      | None =>
          match s with
          | EmptyString => EmptyString
          | String c s' => String c (remove_all_fuel fuel' l s')
          end
      end
  end.

Definition remove_all (l s : string) : string :=
  remove_all_fuel (S (String.length s)) l s.

(** [s.strip()]. *)
Fixpoint lstrip (s : string) : string :=
  match s with
  | String c s' => if is_space c then lstrip s' else s
  | EmptyString => EmptyString
  end.

Fixpoint rstrip (s : string) : string :=
  match s with
  | EmptyString => EmptyString
  | String c s' =>
      match rstrip s' with
      | EmptyString => if is_space c then EmptyString else String c EmptyString
      | r => String c r
      end
  end.

Definition strip (s : string) : string := rstrip (lstrip s).

(** [s.split("\n")]. *)
Fixpoint split_lines (s : string) : list string :=
  match s with
  | EmptyString => [EmptyString]
  | String c s' =>
      if Ascii.eqb c "010"%char then EmptyString :: split_lines s'
      else match split_lines s' with
           | l :: ls => String c l :: ls
           | [] => [String c EmptyString]
           end
  end.

(** [str(n)] for an integer, and [int(s)] on a string of decimal digits. *)
Definition dec_N (n : N) : string := NilEmpty.string_of_uint (N.to_uint n).

Definition dec_Z (z : Z) : string :=
  match z with
  | Zneg p => String "-"%char (dec_N (Npos p))
  | _ => dec_N (Z.to_N z)
  end.

Definition int_of_digits (s : string) : option N :=
  match s with
  | EmptyString => None
  | _ => match NilEmpty.uint_of_string s with
         | Some d => Some (N.of_uint d)
         | None => None
         end
  end.

(** Characters other than [a]. *)
Definition not_char (a c : ascii) : bool := negb (Ascii.eqb a c).

(** Characters other than [a] and the newline. *)
Definition plain (a c : ascii) : bool := negb (Ascii.eqb a c) && is_dot c.

(** A non-empty string of digits and dots. *)
Definition numeral (s : string) : bool :=
  negb (String.eqb s "") && all_chars is_numchar s.

(** A property of every suffix of a string, the string included. *)
Fixpoint all_tails (P : string -> Prop) (s : string) : Prop :=
  P s /\ match s with
         | EmptyString => True
         | String _ s' => all_tails P s'
         end.

(** Characters other than whitespace. *)
Definition nonspace (c : ascii) : bool := negb (is_space c).


(** The double quote, for building JSON-like text. *)
Definition dquote : string := String (ascii_of_nat 34) EmptyString.
Definition squote : string := String (ascii_of_nat 39) EmptyString.

End Text.

(** ** Regular expressions

    The fragment of Python's [re] that [metric_pattern] uses: literals,
    greedy [c*] over a character class, and capturing groups [(c+)].  The
    matcher is the backtracking one of [re]: a repetition first takes as
    many characters as it can and gives them back one by one while the rest
    of the pattern fails; [search] tries the start positions from left to
    right. *)

Module Re.
Import Text.

Inductive item : Type :=
| Lit (l : string)
| Star (cls : ascii -> bool)
| Group (cls : ascii -> bool).

Definition regex := list item.

Fixpoint repeat_greedy {A : Type} (cls : ascii -> bool) (s : string)
    (k : string -> string -> option A) : option A :=
  match s with
  | String c s' =>
      if cls c then
        match repeat_greedy cls s' (fun t r => k (String c t) r) with
        | Some x => Some x
        | None => k EmptyString s
        end
      else k EmptyString s
  | EmptyString => k EmptyString s
  end.

Fixpoint match_here (re : regex) (s : string) : option (list string) :=
  match re with
  | [] => Some []
  | Lit l :: re' =>
      match drop_prefix l s with
      | Some s' => match_here re' s'
      | None => None
      end
  | Star cls :: re' => repeat_greedy cls s (fun _ r => match_here re' r)
  | Group cls :: re' =>
      repeat_greedy cls s
        (fun t r =>
           match t with
           | EmptyString => None
           | _ => match match_here re' r with
                  | Some gs => Some (t :: gs)
                  | None => None
                  end
           end)
  end.

(** [re.search]: the groups of the leftmost match. *)
Fixpoint search (re : regex) (s : string) : option (list string) :=
  match match_here re s with
  | Some gs => Some gs
  | None =>
      match s with
      | String _ s' => search re s'
      | EmptyString => None
      end
  end.

(** The next character, if any, is outside the class. *)
Definition stops (cls : ascii -> bool) (r : string) : Prop :=
  match r with
  | EmptyString => True
  | String c _ => cls c = false
  end.


End Re.

(** ** The metric line of [evolution_service.py] *)

Module Metric.
Import Text Re.

(** [re.compile(r"Generation\s*\[(\d+)/(\d+)\]:.*Avg Reward:\s*([\d\.]+).*Best Reward:\s*([\d\.]+)")] *)
Definition metric_pattern : regex :=
  [ Lit "Generation"; Star is_space; Lit "["; Group is_digit; Lit "/";
    Group is_digit; Lit "]:"; Star is_dot; Lit "Avg Reward:"; Star is_space;
    Group is_numchar; Star is_dot; Lit "Best Reward:"; Star is_space;
    Group is_numchar ].

(** [match.groups()] of [metric_pattern.search(decoded_line)]. *)
Definition metric_groups (line : string) : option (string * string * string * string) :=
  match search metric_pattern line with
  | Some [gen; total_gen; avg_rew; best_rew] => Some (gen, total_gen, avg_rew, best_rew)
  | _ => None
  end.

(** The line template of the spec, after the example in the source
    ([Generation [1/5]: Avg Reward: 0.45, Best Reward: 0.8]), with the text
    around it. *)
Definition template_line (pre gen total_gen avg_rew best_rew post : string) : string :=
  pre +:+ "Generation [" +:+ gen +:+ "/" +:+ total_gen +:+ "]: Avg Reward: " +:+
  avg_rew +:+ ", Best Reward: " +:+ best_rew +:+ post.

(** On a string of digits and dots, [float(s)] succeeds exactly when there
    is at least one digit and at most one dot; otherwise it raises
    [ValueError]. *)
Definition float_syntax (s : string) : bool :=
  all_chars is_numchar s &&
  (1 <=? count_chars is_digit s)%nat &&
  (count_chars (Ascii.eqb "."%char) s <=? 1)%nat.

(** What follows [Avg Reward:] in the pattern. *)
Definition after_avg : regex :=
  [ Star is_space; Group is_numchar; Star is_dot; Lit "Best Reward:";
    Star is_space; Group is_numchar ].

(** What follows [Best Reward:] in the pattern. *)
Definition after_best : regex := [ Star is_space; Group is_numchar ].

End Metric.

(** ** Values, exceptions and the Python runtime *)

(** JSON-like Python values: what [json.dumps] is given and what a request
    body holds.  Dictionaries keep their insertion order. *)
#[warnings="-register-all"]
Inductive json : Type :=
| JNull
| JBool (b : bool)
| JInt (z : Z)
| JFloat (f : float)
| JStr (s : string)
| JList (l : list json)
| JObj (o : list (string * json)).

(** Two functions of the Python runtime are taken as given: the decimal to
    binary64 conversion behind [float(s)], on well-formed decimals, and
    [json.dumps]. *)
Class PyRuntime : Type := {
  float_of_decimal : string -> float;
  json_dumps : json -> string
}.

Inductive exn : Type :=
| HTTPException (status_code : Z) (detail : string)
| ValueError (msg : string)
| ClientError (msg : string).

(** [str(e)] *)
Definition exn_str (e : exn) : string :=
  match e with
  | HTTPException _ detail => detail
  | ValueError msg => msg
  | ClientError msg => msg
  end.

Inductive result (A : Type) : Type :=
| Return (a : A)
| Raise (e : exn).
Arguments Return {A} a.
Arguments Raise {A} e.

(** ** The server's state *)

(** A [subprocess.Popen] handle: [returncode] is what [poll()] answers,
    [None] while the child is alive. *)
Record popen : Type := Popen { returncode : option Z }.

(** The fields of [TrainingConfig] that the orchestration code reads. *)
Record TrainingConfig : Type := {
  model_name : string;
  api_key : option string;
  external_api_url : option string;
  external_api_token : option string
}.

Inductive log_level : Type := DEBUG | INFO | WARNING | ERROR.

Definition level_no (l : log_level) : Z :=
  match l with DEBUG => 10 | INFO => 20 | WARNING => 30 | ERROR => 40 end.

Record log_record : Type := LogRecord {
  log_name : string;
  log_lvl : log_level;
  log_msg : string
}.

(** A [session.post(url, json=body, headers=headers, timeout=5)]. *)
Record http_post : Type := HttpPost {
  post_url : string;
  post_headers : list (string * string);
  post_body : json
}.

(** What the network answers to a POST: a response with its status and
    what [await resp.text()] gives, or a failure (refused connection,
    timeout, ...). *)
Inductive net_outcome : Type :=
| Response (status : Z) (text : result string)
| NetFailure (msg : string).

(** What [websocket.send_json] sends in the [/ws/logs] loop. *)
Record ws_frame : Type := WsFrame {
  timestamp : string;
  level : string;
  message : string;
  id : string
}.

(** One frame sent: the connection, the queue item taken for it, and the
    frame. *)
Record delivery : Type := Delivery {
  to_conn : nat;
  item : string;
  frame : ws_frame
}.

(** Work handed to the event loop by a handler. *)
Inductive task : Type :=
| SendEventTask (url : option string) (secret : option string)
    (event_type : string) (payload : list (string * json))
| ProcessRunnerTask (config_data : option TrainingConfig).

Record server : Type := Server {
  process : option popen;               (* evolution_service.process *)
  log_queue : list string;              (* the asyncio.Queue, oldest first *)
  current_training_config : option TrainingConfig;  (* database row *)
  integration_service_key : option string;  (* of the system_settings row *)
  sockets : list nat;                   (* accepted /ws/logs connections *)
  deliveries : list delivery;           (* frames sent, oldest first *)
  outbox : list http_post;              (* POSTs attempted *)
  logs : list log_record;               (* records emitted by logging *)
  tasks : list task                     (* scheduled, not yet run *)
}.

Definition initial_server : server :=
  Server None [] None None [] [] [] [] [].

Definition set_process (p : option popen) (s : server) : server :=
  Server p (log_queue s) (current_training_config s)
    (integration_service_key s) (sockets s) (deliveries s) (outbox s)
    (logs s) (tasks s).
Definition set_log_queue (q : list string) (s : server) : server :=
  Server (process s) q (current_training_config s)
    (integration_service_key s) (sockets s) (deliveries s) (outbox s)
    (logs s) (tasks s).
Definition set_outbox (o : list http_post) (s : server) : server :=
  Server (process s) (log_queue s) (current_training_config s)
    (integration_service_key s) (sockets s) (deliveries s) o
    (logs s) (tasks s).
Definition set_logs (l : list log_record) (s : server) : server :=
  Server (process s) (log_queue s) (current_training_config s)
    (integration_service_key s) (sockets s) (deliveries s) (outbox s)
    l (tasks s).
Definition set_tasks (t : list task) (s : server) : server :=
  Server (process s) (log_queue s) (current_training_config s)
    (integration_service_key s) (sockets s) (deliveries s) (outbox s)
    (logs s) t.

(** Handlers run in a state and exception monad. *)
Definition M (A : Type) : Type := server -> result A * server.

Definition ret {A : Type} (a : A) : M A := fun s => (Return a, s).
Definition raise {A : Type} (e : exn) : M A := fun s => (Raise e, s).
Definition bind {A B : Type} (m : M A) (k : A -> M B) : M B :=
  fun s =>
    match m s with
    | (Return a, s') => k a s'
    | (Raise e, s') => (Raise e, s')
    end.
(** [try: body except Exception as e: handler(e)] *)
Definition try_except {A : Type} (body : M A) (handler : exn -> M A) : M A :=
  fun s =>
    match body s with
    | (Return a, s') => (Return a, s')
    | (Raise e, s') => handler e s'
    end.
Definition modify (f : server -> server) : M unit := fun s => (Return tt, f s).
Definition gets {A : Type} (f : server -> A) : M A := fun s => (Return (f s), s).

Declare Scope py_scope.
Delimit Scope py_scope with py.
Notation "x <- m ;; k" := (bind m (fun x => k))
  (at level 20, m at level 99, k at level 200, only parsing) : py_scope.
Notation "m ;; k" := (bind m (fun _ => k))
  (at level 100, k at level 200, only parsing, right associativity) : py_scope.
Open Scope py_scope.

Definition exec {A : Type} (m : M A) (s : server) : server := snd (m s).
Definition eval {A : Type} (m : M A) (s : server) : result A := fst (m s).

(** [await log_queue.put(line)]: the queue is unbounded, [put] never
    waits. *)
Definition queue_put (line : string) : M unit :=
  modify (fun s => set_log_queue (log_queue s ++ [line]) s).

(** [logging.basicConfig(level=logging.INFO)] in [server.py]: a record
    below [INFO] is dropped. *)
Definition logger_log (name : string) (lvl : log_level) (msg : string) : M unit :=
  modify (fun s =>
    if (level_no INFO <=? level_no lvl)%Z
    then set_logs (logs s ++ [LogRecord name lvl msg]) s
    else s).

(** A Python value is true in a condition: for an optional string, when it
    is there and not empty. *)
Definition truthy (o : option string) : bool :=
  match o with
  | Some s => negb (String.eqb s "")
  | None => false
  end.

(** ** [webhook_service.py] *)

Module WebhookService.

(** [session.post]: the attempt is made, and the network answers.  [net n]
    is what the network does to the attempt number [n]. *)
Definition session_post (net : nat -> net_outcome) (rq : http_post)
    : M (Z * result string) :=
  fun s =>
    let s' := set_outbox (outbox s ++ [rq]) s in
    match net (length (outbox s)) with
    | Response status text => (Return (status, text), s')
    | NetFailure msg => (Raise (ClientError msg), s')
    end.

(** [payload.get("timestamp")] *)
Fixpoint dict_get (k : string) (d : list (string * json)) : option json :=
  match d with
  | [] => None
  | (k', v) :: d' => if String.eqb k k' then Some v else dict_get k d'
  end.

Definition logger : string := "WebhookService".

Definition send_event (net : nat -> net_outcome) (url secret : option string)
    (event_type : string) (payload : list (string * json)) : M unit :=
  if negb (truthy url) then ret tt
  else
    let url := default "" url in
    let headers :=
      [ ("Content-Type", "application/json");
        ("X-Agent-Signature", if truthy secret then default "" secret else "");
        ("X-Event-Type", event_type) ] in
    let body :=
      JObj [ ("event", JStr event_type);
             ("timestamp", default JNull (dict_get "timestamp" payload));
             ("data", JObj payload) ] in
    try_except
      (resp <- session_post net (HttpPost url headers body);;
       let '(status, text) := resp in
       if (400 <=? status)%Z then
         match text with
         | Return body_text =>
             logger_log logger WARNING
               ("Webhook failed " +:+ Text.dec_Z status +:+ ": " +:+ body_text)
         | Raise e => raise e
         end
       else
         logger_log logger DEBUG
           ("Webhook sent to " +:+ url +:+ ": " +:+ event_type))
      (fun e => logger_log logger ERROR ("Failed to send webhook: " +:+ exn_str e)).

(** The POST that [send_event] makes. *)
Definition event_post (url secret : option string) (event_type : string)
    (payload : list (string * json)) : http_post :=
  HttpPost (default "" url)
    [ ("Content-Type", "application/json");
      ("X-Agent-Signature", if truthy secret then default "" secret else "");
      ("X-Event-Type", event_type) ]
    (JObj [ ("event", JStr event_type);
            ("timestamp", default JNull (dict_get "timestamp" payload));
            ("data", JObj payload) ]).

(** What reaches the log for an outcome of the POST. *)
Definition logged (outcome : net_outcome) : list log_record :=
  match outcome with
  | Response status (Return body_text) =>
      if (400 <=? status)%Z then
        [ LogRecord logger WARNING
            ("Webhook failed " +:+ Text.dec_Z status +:+ ": " +:+ body_text) ]
      else []
  | Response status (Raise e) =>
      if (400 <=? status)%Z then
        [ LogRecord logger ERROR ("Failed to send webhook: " +:+ exn_str e) ]
      else []
  | NetFailure msg =>
      [ LogRecord logger ERROR ("Failed to send webhook: " +:+ msg) ]
  end.

End WebhookService.

(** ** [evolution_service.py] *)

(** What a child process does, as the pump loop sees it: the successive
    results of [stdout.readline()] until the stream has ended and the child
    has exited (an empty result is a read at the end of the stream while
    the child is still alive), then its exit code. *)
Record child_run : Type := ChildRun {
  readlines : list string;
  exit_code : Z
}.

Module EvolutionService.
Import Text Metric.

Section WithRuntime.
Context `{PyRuntime}.

(** [float(s)] on a captured group. *)
Definition float_of_group (s : string) : result float :=
  if float_syntax s then Return (float_of_decimal s)
  else Raise (ValueError
         ("could not convert string to float: " +:+ squote +:+ s +:+ squote)).

(** [int(s)] on a captured group. *)
Definition int_of_group (s : string) : result Z :=
  match int_of_digits s with
  | Some n => Return (Z.of_N n)
  | None => Raise (ValueError
         ("invalid literal for int() with base 10: " +:+ squote +:+ s +:+ squote))
  end.

(** The dictionary given to [json.dumps] for a matched line. *)
Definition metric_payload (gen avg_rew best_rew : string) : result json :=
  match int_of_group gen with
  | Raise e => Raise e
  | Return g =>
      let step := (g * 10)%Z in
      match float_of_group avg_rew with
      | Raise e => Raise e
      | Return reward =>
          match float_of_group best_rew with
          | Raise e => Raise e
          | Return success_rate =>
              Return (JObj [ ("step", JInt step);
                             ("reward", JFloat reward);
                             ("success_rate", JFloat success_rate);
                             ("loss", JFloat (1.0 - reward)%float) ])
          end
      end
  end.

(** The spec's [ProgressRecord] and [MetricParser.parse]: the groups of one
    line, converted as the pump loop converts them.  The loop itself never
    converts [total_gen]; here it is read like [gen]. *)
Record ProgressRecord : Type := {
  generation : Z;
  totalGenerations : Z;
  averageReward : float;
  bestReward : float
}.

Inductive parse_result : Type :=
| NoMatch
| Match (r : ProgressRecord)
| ParseError (e : exn).

Definition parse (line : string) : parse_result :=
  match metric_groups line with
  | None => NoMatch
  | Some (gen, total_gen, avg_rew, best_rew) =>
      match int_of_group gen, int_of_group total_gen,
            float_of_group avg_rew, float_of_group best_rew with
      | Return g, Return t, Return a, Return b => Match (Build_ProgressRecord g t a b)
      | Raise e, _, _, _ => ParseError e
      | _, Raise e, _, _ => ParseError e
      | _, _, Raise e, _ => ParseError e
      | _, _, _, Raise e => ParseError e
      end
  end.

(** The payload that the pump loop builds from a record. *)
Definition payload_of (r : ProgressRecord) : json :=
  JObj [ ("step", JInt (generation r * 10));
         ("reward", JFloat (averageReward r));
         ("success_rate", JFloat (bestReward r));
         ("loss", JFloat (1.0 - averageReward r)%float) ].

Definition lift {A : Type} (r : result A) : M A := fun s => (r, s).

(** The body of the [while True] loop for one [readline()] result.  The
    generator hands each value it yields to [yield], the body of the
    consumer's [async for]. *)
Definition pump_line (yield : string -> M unit) (line : string) : M unit :=
  if String.eqb line "" then ret tt
  else
    let decoded_line := strip line in
    yield ("[STDOUT] " +:+ decoded_line);;
    match metric_groups decoded_line with
    | Some (gen, total_gen, avg_rew, best_rew) =>
        metric_payload <- lift (metric_payload gen avg_rew best_rew);;
        yield ("[METRIC_JSON] " +:+ json_dumps metric_payload)
    | None => ret tt
    end.

Fixpoint pump_loop (yield : string -> M unit) (lines : list string) : M unit :=
  match lines with
  | [] => ret tt
  | line :: rest => pump_line yield line;; pump_loop yield rest
  end.

Definition run_evolution (child : child_run) (yield : string -> M unit) : M unit :=
  modify (set_process (Some (Popen None)));;
  pump_loop yield (readlines child);;
  modify (set_process (Some (Popen (Some (exit_code child)))));;
  let return_code := exit_code child in
  if (return_code =? 0)%Z then
    yield "[SYSTEM] Evolution process completed successfully.";;
    yield "[SYSTEM] Best agent saved to workspace/outputs/best_agent.pt"
  else
    yield ("[ERROR] Evolution process failed with exit code " +:+ dec_Z return_code).

(** The values that [run_evolution] yields for one [readline()] result, for
    the whole stream and for a whole run, with the exception that ends the
    generator if one is raised. *)
Definition line_yields (line : string) : list string * option exn :=
  if String.eqb line "" then ([], None)
  else
    let decoded_line := strip line in
    let raw := "[STDOUT] " +:+ decoded_line in
    match metric_groups decoded_line with
    | Some (gen, total_gen, avg_rew, best_rew) =>
        match metric_payload gen avg_rew best_rew with
        | Return p => ([raw; "[METRIC_JSON] " +:+ json_dumps p], None)
        | Raise e => ([raw], Some e)
        end
    | None => ([raw], None)
    end.

Fixpoint pump_yields (lines : list string) : list string * option exn :=
  match lines with
  | [] => ([], None)
  | line :: rest =>
      match line_yields line with
      | (ys, Some e) => (ys, Some e)
      | (ys, None) => let '(zs, r) := pump_yields rest in (ys ++ zs, r)
      end
  end.

Definition final_yields (return_code : Z) : list string :=
  if (return_code =? 0)%Z then
    [ "[SYSTEM] Evolution process completed successfully.";
      "[SYSTEM] Best agent saved to workspace/outputs/best_agent.pt" ]
  else
    [ "[ERROR] Evolution process failed with exit code " +:+ dec_Z return_code ].

Definition run_yields (child : child_run) : list string * option exn :=
  match pump_yields (readlines child) with
  | (ys, Some e) => (ys, Some e)
  | (ys, None) => (ys ++ final_yields (exit_code child), None)
  end.

End WithRuntime.

(** [EvolutionService.stop].  [terminate()] does nothing to a child that
    has exited.  A live child either exits on SIGTERM within the five
    seconds of [wait] ([sigterm_exits]) or is killed. *)
Definition stop (sigterm_exits : bool) : M unit :=
  modify (fun s =>
    match process s with
    | Some (Popen None) =>
        set_process (Some (Popen (Some (if sigterm_exits then -15 else -9)%Z))) s
    | _ => s
    end).

End EvolutionService.

(** ** [server.py] *)

(** The body of a [POST /api/integration/telemetry]. *)
Record ExternalTelemetry : Type := {
  step : Z;
  reward : float;
  metrics : gmap string json;
  log_message : option string
}.

(** The body of a [POST /api/integration/job]. *)
Record ExternalJobRequest : Type := {
  task_id : string;
  config_overrides : gmap string json
}.

Module Server.
Import Text.

(** [evolution_service.process and evolution_service.process.poll() is None] *)
Definition running (p : option popen) : bool :=
  match p with
  | Some (Popen None) => true
  | _ => false
  end.

(** The spec's [RunState], read off the process handle. *)
Inductive RunState : Type :=
| NotStarted
| Running
| Completed
| Failed (code : Z).

Definition run_state (s : server) : RunState :=
  match process s with
  | None => NotStarted
  | Some (Popen None) => Running
  | Some (Popen (Some 0%Z)) => Completed
  | Some (Popen (Some c)) => Failed c
  end.

Definition add_task (t : task) : M unit :=
  modify (fun s => set_tasks (tasks s ++ [t]) s).

(** [config_data.get(key)] on [database.load_config(...) or {}]. *)
Definition config_get (f : TrainingConfig -> option string)
    (config_data : option TrainingConfig) : option string :=
  match config_data with
  | Some c => f c
  | None => None
  end.

(** [config_data.get("external_api_token", "")]: the default serves only
    when the key is missing. *)
Definition config_token (config_data : option TrainingConfig) : option string :=
  match config_data with
  | Some c => external_api_token c
  | None => Some ""
  end.

Definition logger : string := "AgentEvolverServer".

(** [verify_service_key] *)
Definition verify_service_key (x_service_key : option string) : M (option string) :=
  expected_key <- gets integration_service_key;;
  if truthy expected_key &&
     negb (bool_decide (x_service_key = expected_key))
  then raise (HTTPException 401 "Invalid Service Key")
  else ret x_service_key.

Section WithRuntime.
Context `{PyRuntime}.

(** The [process_runner] closure of [start_training]; [now] is what
    [datetime.now().isoformat()] answers. *)
Definition on_log_line (net : nat -> net_outcome) (now : string)
    (config_data : option TrainingConfig) (log_line : string) : M unit :=
  queue_put log_line;;
  if contains "Evolution process completed" log_line &&
     truthy (config_get external_api_url config_data)
  then
    WebhookService.send_event net
      (config_get external_api_url config_data)
      (config_token config_data)
      "TRAINING_COMPLETE"
      [ ("status", JStr "success"); ("timestamp", JStr now) ]
  else ret tt.

Definition process_runner (net : nat -> net_outcome) (now : string)
    (config_data : option TrainingConfig) (child : child_run) : M unit :=
  try_except
    (EvolutionService.run_evolution child (on_log_line net now config_data))
    (fun e =>
       queue_put ("[ERROR] Exception in runner: " +:+ exn_str e);;
       logger_log logger ERROR (exn_str e)).

End WithRuntime.

(** [POST /api/start] *)
Definition start_training (now : string) : M json :=
  p <- gets process;;
  if running p then raise (HTTPException 400 "Training already running")
  else
    config_data <- gets current_training_config;;
    (match config_data with
     | Some c =>
         if truthy (external_api_url c) then
           add_task (SendEventTask (external_api_url c) (external_api_token c)
                       "TRAINING_STARTED"
                       [ ("model", JStr (model_name c)); ("timestamp", JStr now) ])
         else ret tt
     | None => ret tt
     end);;
    add_task (ProcessRunnerTask config_data);;
    ret (JObj [ ("status", JStr "started");
                ("engine", JStr "AgentEvolver Adapter") ]).

(** [POST /api/stop] *)
Definition stop_training (sigterm_exits : bool) : M json :=
  p <- gets process;;
  match p with
  | Some _ =>
      EvolutionService.stop sigterm_exits;;
      queue_put "[SYSTEM] Process terminated by user.";;
      ret (JObj [ ("status", JStr "stopped") ])
  | None => ret (JObj [ ("status", JStr "no_process_running") ])
  end.

(** [POST /api/integration/job], after [verify_service_key]. *)
Definition trigger_job (request : ExternalJobRequest) : M json :=
  p <- gets process;;
  if running p then raise (HTTPException 409 "Busy")
  else
    queue_put ("[SYSTEM] External Job Triggered: " +:+ task_id request);;
    ret (JObj [ ("status", JStr "queued"); ("job_id", JStr (task_id request)) ]).

Section WithRuntime.
Context `{PyRuntime}.

(** [POST /api/integration/telemetry], after [verify_service_key]. *)
Definition ingest_telemetry (data : ExternalTelemetry) : M json :=
  (if truthy (log_message data)
   then queue_put ("[EXTERNAL] " +:+ default "" (log_message data))
   else ret tt);;
  let metric_payload :=
    json_dumps
      (JObj [ ("step", JInt (step data));
              ("reward", JFloat (reward data));
              ("success_rate", default (JFloat 0.0) (metrics data !! "success_rate"));
              ("loss", default (JFloat 0.0) (metrics data !! "loss")) ]) in
  queue_put ("[METRIC_JSON] " +:+ metric_payload);;
  ret (JObj [ ("status", JStr "accepted") ]).

(** The endpoint with its dependency: the request is accepted when
    [verify_service_key] does not raise. *)
Definition telemetry_endpoint (x_service_key : option string)
    (data : ExternalTelemetry) : M json :=
  verify_service_key x_service_key;;
  ingest_telemetry data.

End WithRuntime.

(** [POST /api/integration/job] with its dependency. *)
Definition job_endpoint (x_service_key : option string)
    (request : ExternalJobRequest) : M json :=
  verify_service_key x_service_key;;
  trigger_job request.

(** What [verify_service_key] raises, and what an accepted [start_training]
    answers and schedules. *)
Definition unauthorized : exn := HTTPException 401 "Invalid Service Key".

Definition started : json :=
  JObj [ ("status", JStr "started"); ("engine", JStr "AgentEvolver Adapter") ].

Definition start_tasks (now : string) (config_data : option TrainingConfig) : list task :=
  match config_data with
  | Some c =>
      if truthy (external_api_url c) then
        [ SendEventTask (external_api_url c) (external_api_token c) "TRAINING_STARTED"
            [ ("model", JStr (model_name c)); ("timestamp", JStr now) ] ]
      else []
  | None => []
  end ++ [ ProcessRunnerTask config_data ].

(** *** The live log channel, [/ws/logs] *)

(** The frame that the loop builds for a queue item; [rid] is
    [os.urandom(4).hex()]. *)
Definition frame_of (line rid : string) : ws_frame :=
  if startswith "[METRIC_JSON]" line then
    let json_str := strip (remove_all "[METRIC_JSON]" line) in
    WsFrame "now" "METRIC" ("[METRIC] " +:+ json_str) rid
  else
    WsFrame "now" "INFO" line rid.










End Server.

(** ** What a run publishes

    Auxiliary definitions for stating what the runner does to the server. *)

Module Trace.
Import Text Server WebhookService.

(** A server to which lines were published, POSTs were made and records
    were logged. *)
Definition grow (ys : list string) (ps : list http_post) (lg : list log_record)
    (s : server) : server :=
  set_logs (logs s ++ lg)
    (set_outbox (outbox s ++ ps) (set_log_queue (log_queue s ++ ys) s)).

(** A consumer that publishes each line it is handed, makes the POSTs [P]
    of that line, and returns. *)
Definition consumes (Y : string -> M unit) (P : string -> list http_post) : Prop :=
  forall l s, exists lg, Y l s = (Return tt, grow [l] (P l) lg s).

Definition completed_phrase : string := "Evolution process completed".

(** The POSTs that [process_runner] makes for a line. *)
Definition posts_for (now : string) (config_data : option TrainingConfig)
    (log_line : string) : list http_post :=
  if contains completed_phrase log_line &&
     truthy (config_get external_api_url config_data)
  then [ event_post (config_get external_api_url config_data)
           (config_token config_data) "TRAINING_COMPLETE"
           [ ("status", JStr "success"); ("timestamp", JStr now) ] ]
  else [].

Definition result_of (e : option exn) : result unit :=
  match e with
  | None => Return tt
  | Some e => Raise e
  end.

(** What the runner adds to the queue when the generator ends: nothing, or
    the notice of the [except] clause. *)
Definition runner_notice (e : option exn) : list string :=
  match e with
  | None => []
  | Some e => [ "[ERROR] Exception in runner: " +:+ exn_str e ]
  end.

Definition failure_notice (return_code : Z) : string :=
  "[ERROR] Evolution process failed with exit code " +:+ dec_Z return_code.


(** The raw log of a line read from the child. *)
Definition raw_log (line : string) : string := "[STDOUT] " +:+ strip line.

Definition nonempty (line : string) : bool := negb (String.eqb line "").

(** The POST that announces the end of a run. *)
Definition completion_post (now : string) (config_data : option TrainingConfig) : http_post :=
  event_post (config_get external_api_url config_data) (config_token config_data)
    "TRAINING_COMPLETE" [ ("status", JStr "success"); ("timestamp", JStr now) ].

End Trace.

(** ** [agent_evolver_shim.py]: the fallback simulator *)

Module Shim.
Import Text.

(** The YAML configuration, as [generate_yaml_config] lays it out: a
    missing key is [None].  The values read here are integers and a path. *)
Record evolution_section : Type := {
  generations : option Z;
  population_size : option Z
}.

Record training_section : Type := {
  output_dir : option string
}.

Record config : Type := {
  evolution : option evolution_section;
  training : option training_section
}.

(** What the simulator does to the outside; [time.sleep] is left out. *)
Inductive effect : Type :=
| Print (text : string)
| MakeDirs (path : string)
| WriteFile (path content : string).

Definition nl : string := String "010"%char EmptyString.

(** [min(a, b)]: the first argument unless the second is smaller. *)
Definition pymin (a b : float) : float := if (b <? a)%float then b else a.

(** [random.uniform(a, b)], from the result [r] of [random.random()]. *)
Definition uniform (a b r : float) : float := (a + (b - a) * r)%float.

(** [n / d] rounded to the nearest integer, ties to even, for [0 <= n] and
    [0 < d]. *)
Definition round_half_even (n d : Z) : Z :=
  let q := (n / d)%Z in
  match (2 * (n mod d) ?= d)%Z with
  | Lt => q
  | Gt => (q + 1)%Z
  | Eq => if Z.even q then q else (q + 1)%Z
  end.

Definition pad4 (n : N) : string :=
  let s := dec_N n in
  match String.length s with
  | 1 => "000" +:+ s
  | 2 => "00" +:+ s
  | 3 => "0" +:+ s
  | _ => s
  end.

(** [f"{x:.4f}"]: the exact value of the double, rounded to four decimals. *)
Definition format_4f (x : float) : string :=
  match Prim2SF x with
  | S754_nan => "nan"
  | S754_infinity s => if s then "-inf" else "inf"
  | S754_zero s => (if s then "-" else "") +:+ "0.0000"
  | S754_finite s m e =>
      let scaled :=
        match e with
        | Zneg p => round_half_even (Zpos m * 10000) (2 ^ Zpos p)
        | _ => (Zpos m * 10000 * 2 ^ e)%Z
        end in
      (if s then "-" else "") +:+
      dec_N (Z.to_N (scaled / 10000)) +:+ "." +:+ pad4 (Z.to_N (scaled mod 10000))
  end.

(** [os.path.join(a, b)] for a relative [b]. *)
Definition path_join (a b : string) : string :=
  match a with
  | EmptyString => b
  | _ =>
      match String.get (String.length a - 1) a with
      | Some "/"%char => a +:+ b
      | _ => a +:+ "/" +:+ b
      end
  end.

Definition agent_line (pop_size : Z) (current_best r : float) (i : nat) : string :=
  let score := pymin 0.99 (current_best + uniform (- 0.1) 0.15 r) in
  "Evaluating Agent " +:+ dec_Z (Z.of_nat i) +:+ "/" +:+ dec_Z pop_size +:+
  "... Score: " +:+ format_4f score.

Definition avg_reward (current_best : float) : float :=
  pymin 0.95 (current_best + 0.05).

Definition best_reward (current_best : float) : float :=
  pymin 0.99 (current_best + 0.1).

Definition generation_line (g gens : Z) (current_best : float) : string :=
  "Generation [" +:+ dec_Z g +:+ "/" +:+ dec_Z gens +:+ "]: Avg Reward: " +:+
  format_4f (avg_reward current_best) +:+ ", Best Reward: " +:+
  format_4f (best_reward current_best).

(** The [for g in range(1, gens + 1)] loop with [n] rounds to go; [rnd k]
    is the result of the call number [k] of [random.random()], and [calls]
    counts the calls made so far. *)
Fixpoint generations_loop (n : nat) (g gens pop_size : Z)
    (current_best : float) (rnd : nat -> float) (calls : nat) : list effect :=
  match n with
  | O => []
  | S n' =>
      let pop := Z.to_nat pop_size in
      Print (nl +:+ "--- Starting Generation " +:+ dec_Z g +:+ " ---") ::
      map (fun i => Print (agent_line pop_size current_best (rnd (calls + i - 1)%nat) i))
          (seq 1 pop) ++
      Print (generation_line g gens current_best) ::
      generations_loop n' (g + 1) gens pop_size (best_reward current_best) rnd
        (calls + pop)
  end.

Definition config_generations (c : config) : Z :=
  match evolution c with
  | Some e => default 5%Z (generations e)
  | None => 5%Z
  end.

Definition config_population_size (c : config) : Z :=
  match evolution c with
  | Some e => default 10%Z (population_size e)
  | None => 10%Z
  end.

Definition config_output_dir (c : config) : string :=
  match training c with
  | Some t => default "outputs" (output_dir t)
  | None => "outputs"
  end.

(** [run_fallback_simulation]: what it does, and the exception it ends
    with if any.  [os.makedirs] raises on the empty path; the file system
    is otherwise taken to accept the directory and the file. *)
Definition run_fallback_simulation (c : config) (rnd : nat -> float)
    : list effect * option string :=
  let gens := config_generations c in
  let pop_size := config_population_size c in
  let head :=
    [ Print "--- ModelScope AgentEvolver (SIMULATION) ---";
      Print ("[INFO] Initializing population of " +:+ dec_Z pop_size +:+ " agents...") ]
    ++ generations_loop (Z.to_nat gens) 1 gens pop_size 0.2 rnd 0
    ++ [ Print (nl ++ "[INFO] Optimization Finished.") ] in
  let output_dir := config_output_dir c in
  match output_dir with
  | EmptyString => (head, Some "FileNotFoundError")
  | _ =>
      (head ++
       [ MakeDirs output_dir;
         WriteFile (path_join output_dir "best_agent.pt") "mock_checkpoint_data";
         Print ("[INFO] Saved best agent to " +:+ output_dir +:+ "/best_agent.pt") ],
       None)
  end.

(** The values that [current_best] takes: the loop starts from [0.2], adds
    [0.1] a round and stays at [0.99] once it is there. *)
Definition currents : list float :=
  Eval vm_compute in map (fun i => Nat.iter i best_reward 0.2%float) (seq 0 9).

(** The groups of the lines that the loop prints for the pattern, round by
    round. *)
Fixpoint expected_groups (n : nat) (g gens : Z) (current_best : float)
    : list (string * string * string * string) :=
  match n with
  | O => []
  | S n' =>
      (dec_Z g, dec_Z gens, format_4f (avg_reward current_best),
       format_4f (best_reward current_best))
      :: expected_groups n' (g + 1) gens (best_reward current_best)
  end.


(** The lines that reach the parent's [readline]: each [print] writes its
    text and a newline. *)
Definition stdout_lines (effects : list effect) : list string :=
  flat_map (fun e => match e with Print t => split_lines t | _ => [] end) effects.

(** The groups of the printed lines that the pattern matches. *)
Definition matches (effects : list effect) : list (string * string * string * string) :=
  omap Metric.metric_groups (stdout_lines effects).


(** The rewards that the progress lines report, round by round, as
    printed: the average and the best. *)
Definition reward_table : list (string * string) :=
  [ ("0.2500", "0.3000"); ("0.3500", "0.4000"); ("0.4500", "0.5000");
    ("0.5500", "0.6000"); ("0.6500", "0.7000"); ("0.7500", "0.8000");
    ("0.8500", "0.9000") ].

(** The rewards of the round number [k + 1]. *)
Definition rewards_of_round (k : nat) : string * string :=
  nth k reward_table ("0.9500", "0.9900").

End Shim.

(** ** [evolution_service.py]: the configuration handed to the child *)

Module ConfigTranslator.
Import Text.

(** [config.get(key, default)] on the dashboard's configuration. *)
Definition get_or (config : gmap string json) (key : string) (dflt : json) : json :=
  default dflt (config !! key).

(** The [evolver_config] dictionary of [generate_yaml_config]. *)
Definition evolver_config (workspace_dir : string) (config : gmap string json) : json :=
  JObj [ ("task", get_or config "environment" (JStr "AppWorld"));
         ("model",
          JObj [ ("model_name", get_or config "model_name" (JStr "Qwen-7B"));
                 ("api_key", get_or config "api_key" (JStr ""));
                 ("base_url", get_or config "llm_base_url" (JStr "")) ]);
         ("evolution",
          JObj [ ("population_size", get_or config "population_size" (JInt 10));
                 ("generations", get_or config "generations" (JInt 5));
                 ("mutation_rate", get_or config "mutation_rate" (JFloat 0.1));
                 ("crossover_rate", get_or config "crossover_rate" (JFloat 0.5));
                 ("strategy", get_or config "evolution_strategy" (JStr "genetic")) ]);
         ("training",
          JObj [ ("batch_size", get_or config "batch_size" (JInt 32));
                 ("learning_rate", get_or config "learning_rate" (JFloat 0.0001));
                 ("epochs", get_or config "epochs" (JInt 10));
                 ("output_dir", JStr (Shim.path_join workspace_dir "outputs")) ]) ].

(** The file that [generate_yaml_config] writes: [yaml.dump] of the
    dictionary, kept here as the document it denotes. *)
Record yaml_file : Type := YamlFile {
  yaml_path : string;
  yaml_doc : json
}.

(** [generate_yaml_config]: the file written; its path is the value
    returned. *)
Definition generate_yaml_config (workspace_dir : string)
    (config : gmap string json) : yaml_file :=
  YamlFile (Shim.path_join workspace_dir "config.yaml")
    (evolver_config workspace_dir config).

End ConfigTranslator.

(** ** [agent_evolver_shim.py]: [main] *)

Module ShimMain.
Import Text Shim.

(** [d.get(key)] on a mapping of a YAML document. *)
Fixpoint obj_get (key : string) (o : list (string * json)) : option json :=
  match o with
  | [] => None
  | (k, v) :: rest => if String.eqb k key then Some v else obj_get key rest
  end.

(** The simulator's reading of the document that [yaml.safe_load] returns,
    as a [config]: that record holds integers and a path, and a document
    with another kind of value in their place has none. *)
Definition int_field (key : string) (o : list (string * json)) : option (option Z) :=
  match obj_get key o with
  | None => Some None
  | Some (JInt z) => Some (Some z)
  | Some _ => None
  end.

Definition str_field (key : string) (o : list (string * json)) : option (option string) :=
  match obj_get key o with
  | None => Some None
  | Some (JStr s) => Some (Some s)
  | Some _ => None
  end.

Definition section {A : Type} (key : string) (read : list (string * json) -> option A)
    (doc : list (string * json)) : option (option A) :=
  match obj_get key doc with
  | None => Some None
  | Some (JObj o) =>
      match read o with
      | Some a => Some (Some a)
      | None => None
      end
  | Some _ => None
  end.

Definition read_evolution (o : list (string * json)) : option evolution_section :=
  match int_field "generations" o, int_field "population_size" o with
  | Some g, Some p => Some {| generations := g; population_size := p |}
  | _, _ => None
  end.

Definition read_training (o : list (string * json)) : option training_section :=
  match str_field "output_dir" o with
  | Some d => Some {| output_dir := d |}
  | None => None
  end.

Definition of_yaml (doc : json) : option config :=
  match doc with
  | JObj top =>
      match section "evolution" read_evolution top,
            section "training" read_training top with
      | Some e, Some t => Some {| evolution := e; training := t |}
      | _, _ => None
      end
  | _ => None
  end.

(** What the [try] block around the library does: its effects, and the
    exception that ends it, if any. *)
Inductive lib_exn : Type :=
| ImportError
| LibraryError (msg : string).

Record library_run : Type := LibraryRun {
  lib_effects : list effect;
  lib_raised : option lib_exn
}.

(** The library is not installed: [import agent_evolver] raises. *)
Definition missing : library_run := LibraryRun [] (Some ImportError).

(** How the process ends: an exit code, or an exception that nothing
    catches. *)
Inductive exit : Type :=
| Exit (code : Z)
| Uncaught (exc : string).

Definition fallback (c : config) (rnd : nat -> float) : list effect * exit :=
  let '(effects, raised) := run_fallback_simulation c rnd in
  (effects, match raised with None => Exit 0 | Some exc => Uncaught exc end).

(** [main]: [loaded] is the configuration read from [config_path], or the
    text of the exception that reading it raised. *)
Definition main (config_path : string) (loaded : string + config)
    (lib : library_run) (rnd : nat -> float) : list effect * exit :=
  let banner := Print ("[SHIM] Starting AgentEvolver Shim with config: " +:+ config_path) in
  match loaded with
  | inl e => ([ banner; Print ("[ERROR] Failed to load YAML config: " +:+ e) ], Exit 1)
  | inr c =>
      match lib_raised lib with
      | None => (banner :: lib_effects lib, Exit 0)
      | Some ImportError =>
          let '(sim, x) := fallback c rnd in
          (banner :: lib_effects lib ++
           [ Print "[WARNING] 'agent_evolver' library not found or structure mismatch.";
             Print "[WARNING] Running in Fallback/Simulation mode to keep Dashboard active." ]
           ++ sim, x)
      | Some (LibraryError e) =>
          let '(sim, x) := fallback c rnd in
          (banner :: lib_effects lib ++
           [ Print ("[ERROR] Critical error in AgentEvolver execution: " +:+ e);
             Print "[SHIM] Switching to simulation due to crash." ]
           ++ sim, x)
      end
  end.

(** The lines that the parent reads from a child that printed [effects]. *)
Definition lines_of (effects : list effect) : list string :=
  map (fun l => l +:+ nl) (stdout_lines effects).

(** The child as the pump loop sees it, when the process ends with an exit
    code. *)
Definition child_of (out : list effect * exit) : option child_run :=
  match snd out with
  | Exit code => Some (ChildRun (lines_of (fst out)) code)
  | Uncaught _ => None
  end.

Section WithRuntime.
Context `{PyRuntime}.

(** The metric that the pump loop derives from the progress line of round
    [g], printed when [current_best] is [cb]. *)
Definition round_metric (g : Z) (cb : float) : string :=
  "[METRIC_JSON] " +:+
  json_dumps
    (JObj [ ("step", JInt (g * 10));
            ("reward", JFloat (float_of_decimal (format_4f (avg_reward cb))));
            ("success_rate", JFloat (float_of_decimal (format_4f (best_reward cb))));
            ("loss", JFloat (1.0 - float_of_decimal (format_4f (avg_reward cb)))%float) ]).

Fixpoint round_metrics (n : nat) (g : Z) (cb : float) : list string :=
  match n with
  | O => []
  | S n' => round_metric g cb :: round_metrics n' (g + 1) (best_reward cb)
  end.

(** The metrics among what the pump yields for [lines], when it reads them
    all. *)
Definition pumped (lines : list string) : option (list string) :=
  match EvolutionService.pump_yields lines with
  | (ys, None) => Some (List.filter (startswith "[METRIC_JSON]") ys)
  | (_, Some _) => None
  end.

End WithRuntime.

End ShimMain.

(** ** [agent_core.py] *)

(** [str(v)], as an f-string formats a value, is taken as given. *)
Class PyFormat : Type := {
  py_str : json -> string
}.

Module AgentCore.
Import Text ShimMain.

(** [s.lower()] on ASCII text. *)
Definition lower_char (c : ascii) : ascii :=
  let n := nat_of_ascii c in
  if (65 <=? n)%nat && (n <=? 90)%nat then ascii_of_nat (n + 32) else c.

Fixpoint lower (s : string) : string :=
  match s with
  | EmptyString => EmptyString
  | String c s' => String (lower_char c) (lower s')
  end.

(** [s.split()]: the maximal runs of characters other than whitespace. *)
Fixpoint split (s : string) : list string :=
  match s with
  | EmptyString => []
  | String c s' =>
      if is_space c then split s'
      else
        match s' with
        | EmptyString => [ String c EmptyString ]
        | String c' _ =>
            if is_space c' then String c EmptyString :: split s'
            else
              match split s' with
              | w :: ws => String c w :: ws
              | [] => [ String c EmptyString ]
              end
        end
  end.

(** An entry of [ContextManager.short_term_memory]. *)
Record entry : Type := Entry {
  entry_timestamp : string;
  prompt : string;
  completion : string;
  success : bool
}.

(** A row of the [history] table, without its [id]: rows are kept in the
    order of their insertion, which is the order of their ids. *)
Record history_row : Type := HistoryRow {
  row_timestamp : string;
  row_prompt : string;
  row_completion : string;
  row_success : bool;
  row_meta : string
}.

(** [CoreAgentSystem], with the table and the files it writes to. *)
Record agent : Type := Agent {
  short_term_memory : list entry;
  history : list history_row;         (* database table *)
  collection_buffer : list json;
  dataset : list string;              (* lines appended to the dataset file *)
  printed : list string               (* lines printed *)
}.

Definition initial_agent : agent := Agent [] [] [] [] [].

Section WithRuntime.
Context `{PyRuntime}.

(** [database.add_history_item]; [now] is [datetime.now().isoformat()]. *)
Definition add_history_item (now prompt completion : string) (success : bool)
    (meta : json) (a : agent) : agent :=
  Agent (short_term_memory a)
    (history a ++ [ HistoryRow now prompt completion success (json_dumps meta) ])
    (collection_buffer a) (dataset a) (printed a).

(** [ContextManager.embed_interaction]; [now] and [now'] are the two clock
    readings. *)
Definition embed_interaction (now now' user_input system_response : string)
    (success : bool) (a : agent) : agent :=
  let entry := Entry now user_input system_response success in
  let memory := short_term_memory a ++ [ entry ] in
  let memory := if (10 <? length memory)%nat then tail memory else memory in
  add_history_item now' user_input system_response success
    (JObj [ ("source", JStr "agent_core") ])
    (Agent memory (history a) (collection_buffer a) (dataset a) (printed a)).

(** [ModelTrainer.trigger_optimization_job] *)
Definition trigger_optimization_job (a : agent) : agent :=
  Agent (short_term_memory a) (history a) []
    (dataset a)
    (printed a ++
     [ "[Self-Training] Threshold reached. Starting background fine-tuning on " +:+
       dec_Z (Z.of_nat (length (collection_buffer a))) +:+ " new examples..." ]).

(** [ModelTrainer.collect_feedback] *)
Definition collect_feedback (prompt action : string) (rating : Z) (a : agent) : agent :=
  if (0 <? rating)%Z then
    let data :=
      JObj [ ("messages",
              JList [ JObj [ ("role", JStr "user"); ("content", JStr prompt) ];
                      JObj [ ("role", JStr "assistant"); ("content", JStr action) ] ]) ] in
    let a' :=
      Agent (short_term_memory a) (history a) (collection_buffer a ++ [ data ])
        (dataset a ++ [ json_dumps data +:+ Shim.nl ]) (printed a) in
    if (10 <=? length (collection_buffer a'))%nat then trigger_optimization_job a'
    else a'
  else a.

End WithRuntime.

(** The line that [retrieve_context] gives for an entry. *)
Definition recent_action (item : entry) : string :=
  "Recent Action: " +:+ completion item +:+ " (Result: " +:+
  (if success item then "Success" else "Fail") +:+ ")".

(** [any(word in item['prompt'].lower() for word in query.lower().split())] *)
Definition relevant (query : string) (item : entry) : bool :=
  existsb (fun word => contains word (lower (prompt item))) (split (lower query)).

(** [ContextManager.retrieve_context] *)
Definition retrieve_context (query : string) (a : agent) : list string :=
  take 3 (map recent_action (List.filter (relevant query) (rev (short_term_memory a)))).

(** The view that a navigation request names: each test that holds
    overwrites the target. *)
Definition target_of (lower_q : string) : string :=
  let target := "dashboard" in
  let target := if contains "config" lower_q then "config" else target in
  let target := if contains "log" lower_q then "logs" else target in
  let target := if contains "chat" lower_q then "chat" else target in
  let target := if contains "memory" lower_q then "memory" else target in
  let target := if contains "train" lower_q then "autotrain" else target in
  target.

(** What [reason] returns, or the [AttributeError] it raises. *)
Inductive outcome (A : Type) : Type :=
| Ok (a : A)
| AttributeError (msg : string).
Arguments Ok {A} a.
Arguments AttributeError {A} msg.

(** [type(v).__name__] *)
Definition type_name (v : json) : string :=
  match v with
  | JNull => "NoneType"
  | JBool _ => "bool"
  | JInt _ => "int"
  | JFloat _ => "float"
  | JStr _ => "str"
  | JList _ => "list"
  | JObj _ => "dict"
  end.

Definition no_get (v : json) : string :=
  squote +:+ type_name v +:+ squote +:+ " object has no attribute " +:+
  squote +:+ "get" +:+ squote.

Definition general_chat : string :=
  "I am the AgentEvolver Core. I have read access to your file system and write access to the application state. How can I intervene?".

Section WithFormat.
Context `{PyRuntime} `{PyFormat}.

(** [app_state.get('activeConfig', {}).get('model_name')] *)
Definition active_model_name (app_state : gmap string json) : outcome json :=
  match app_state !! "activeConfig" with
  | None => Ok JNull
  | Some (JObj o) => Ok (default JNull (obj_get "model_name" o))
  | Some v => AttributeError (no_get v)
  end.

Definition reply (thoughts : list string) (response_text : string) (action : json) : json :=
  JObj [ ("thought_process", JList (map JStr thoughts));
         ("response_text", JStr response_text);
         ("action", action) ].

(** [CoreAgentSystem.reason] *)
Definition reason (now now' user_query : string) (app_state : gmap string json)
    (a : agent) : outcome json * agent :=
  let relevant_history := retrieve_context user_query a in
  let thoughts :=
    [ "Observing state: User is on " +:+
        py_str (default JNull (app_state !! "currentView")) +:+ ".";
      "Analyzing Intent: " +:+ squote +:+ user_query +:+ squote ] in
  let thoughts :=
    match relevant_history with
    | [] => thoughts
    | _ => thoughts ++
           [ "Recall: Found " +:+ dec_Z (Z.of_nat (length relevant_history)) +:+
             " relevant past interactions." ]
    end in
  let lower_q := lower user_query in
  let finish thoughts response_text action :=
    (Ok (reply thoughts response_text action),
     embed_interaction now now' user_query response_text true a) in
  if contains "navigate" lower_q || contains "go to" lower_q then
    let target := target_of lower_q in
    finish (thoughts ++ [ "Decision: User wants to change view to " +:+ target +:+ "." ])
      ("Navigating to " +:+ target +:+ "...")
      (JObj [ ("tool", JStr "navigationTool");
              ("parameters", JObj [ ("route", JStr target) ]);
              ("reasoning", JStr "User explicitly requested navigation.") ])
  else if contains "train" lower_q && contains "start" lower_q then
    finish (thoughts ++ [ "Decision: Initiating training sequence via tool." ])
      "Launching training subprocess..."
      (JObj [ ("tool", JStr "terminalTool");
              ("parameters", JObj [ ("command", JStr "python launcher.py --conf default") ]);
              ("reasoning", JStr "User requested training start.") ])
  else if contains "analyze" lower_q || contains "think" lower_q then
    match active_model_name app_state with
    | Ok name =>
        finish (thoughts ++ [ "Action: Performing deep state analysis." ])
          ("I've analyzed the current configuration for " +:+ py_str name +:+
           ". The learning rate seems optimal.")
          JNull
    | AttributeError msg => (AttributeError msg, a)
    end
  else
    finish (thoughts ++ [ "Decision: General chat response." ]) general_chat JNull.

(** [POST /agent/interact]: the answer, the agent, and the server that
    logged. *)
Definition agent_interact (now now' query : string) (context_snapshot : gmap string json)
    (a : agent) : M json * agent :=
  match reason now now' query context_snapshot a with
  | (Ok response, a') => (ret response, a')
  | (AttributeError msg, a') =>
      (logger_log Server.logger ERROR ("Agent Logic Error: " +:+ msg);;
       raise (HTTPException 500 "The Agent Brain encountered an error."),
       a')
  end.

(** [POST /agent/feedback] *)
Definition agent_feedback (prompt action : string) (rating : Z) (a : agent)
    : M json * agent :=
  (logger_log Server.logger INFO
     ("Received Agent Feedback | Rating: " +:+ dec_Z rating);;
   ret (JObj [ ("status", JStr "feedback_recorded") ]),
   collect_feedback prompt action rating a).

End WithFormat.


(** The target by precedence: the last test that holds wins. *)
Definition target_by_precedence (lower_q : string) : string :=
  if contains "train" lower_q then "autotrain"
  else if contains "memory" lower_q then "memory"
  else if contains "chat" lower_q then "chat"
  else if contains "log" lower_q then "logs"
  else if contains "config" lower_q then "config"
  else "dashboard".

(** The action of a navigation. *)
Definition navigation (target : string) : json :=
  JObj [ ("tool", JStr "navigationTool");
         ("parameters", JObj [ ("route", JStr target) ]);
         ("reasoning", JStr "User explicitly requested navigation.") ].

(** *** Sessions

    One call of [embed_interaction] with its arguments, and a sequence of
    such calls; the same for [collect_feedback]. *)

Record interaction : Type := Interaction {
  clock : string;
  clock' : string;
  user_input : string;
  system_response : string;
  succeeded : bool
}.

Definition entry_of (i : interaction) : entry :=
  Entry (clock i) (user_input i) (system_response i) (succeeded i).

Definition feedback : Type := string * string * Z.

Definition positive (f : feedback) : bool := (0 <? snd f)%Z.

(** The last [n] elements of a list. *)
Definition last_n {A : Type} (n : nat) (l : list A) : list A :=
  drop (length l - n) l.

Section Sessions.
Context `{PyRuntime}.

Definition row_of (i : interaction) : history_row :=
  HistoryRow (clock' i) (user_input i) (system_response i) (succeeded i)
    (json_dumps (JObj [ ("source", JStr "agent_core") ])).

Definition embed (a : agent) (i : interaction) : agent :=
  embed_interaction (clock i) (clock' i) (user_input i) (system_response i)
    (succeeded i) a.

Definition embed_all (session : list interaction) (a : agent) : agent :=
  fold_left embed session a.

Definition collect (a : agent) (f : feedback) : agent :=
  let '(prompt, action, rating) := f in collect_feedback prompt action rating a.

Definition collect_all (session : list feedback) (a : agent) : agent :=
  fold_left collect session a.

End Sessions.

End AgentCore.

(** ** A runtime to run the model on examples

    Decimals are converted by a correctly rounded division; [json_dumps]
    prints a float with four decimals, where Python prints the shortest
    decimal that reads back as the same double. *)

Module Example.
Import Text.

(** The digits of a decimal without its dot, and how many follow the dot. *)
Fixpoint decimal_parts (s : string) (seen_dot : bool) : string * nat :=
  match s with
  | EmptyString => (EmptyString, 0)
  | String c s' =>
      if Ascii.eqb c "."%char then decimal_parts s' true
      else
        let '(ds, k) := decimal_parts s' seen_dot in
        (String c ds, if seen_dot then S k else k)
  end.

Definition float_of_decimal (s : string) : float :=
  let '(ds, k) := decimal_parts s false in
  match int_of_digits ds with
  | Some (Npos p) =>
      SF2Prim (SFdiv prec emax (S754_finite false p 0)
                 (S754_finite false (Nat.iter k (Pos.mul 10) 1%positive) 0))
  | _ => 0%float
  end.

Fixpoint json_dumps (j : json) : string :=
  match j with
  | JNull => "null"
  | JBool b => if b then "true" else "false"
  | JInt z => dec_Z z
  | JFloat f => Shim.format_4f f
  | JStr s => dquote +:+ s +:+ dquote
  | JList l =>
      "[" +:+
      (fix items (l : list json) : string :=
         match l with
         | [] => ""
         | [x] => json_dumps x
         | x :: r => json_dumps x +:+ ", " +:+ items r
         end) l +:+ "]"
  | JObj o =>
      "{" +:+
      (fix members (o : list (string * json)) : string :=
         match o with
         | [] => ""
         | [(k, v)] => dquote +:+ k +:+ dquote +:+ ": " +:+ json_dumps v
         | (k, v) :: r =>
             dquote +:+ k +:+ dquote +:+ ": " +:+ json_dumps v +:+ ", " +:+ members r
         end) o +:+ "}"
  end.

#[export] Instance runtime : PyRuntime :=
  Build_PyRuntime float_of_decimal json_dumps.

(** [str] of the values that the examples format: a string is itself and
    [None] is spelled out. *)
Definition py_str (v : json) : string :=
  match v with
  | JStr s => s
  | JNull => "None"
  | JBool b => if b then "True" else "False"
  | v => json_dumps v
  end.

#[export] Instance format : PyFormat := Build_PyFormat py_str.

End Example.

(** ** Sample inputs *)

Module Samples.
Import Text Metric Server.

Definition sample_line : string :=
  template_line "[INFO] " "3" "5" "0.45" "0.8" " (elapsed 2s)".

(** A server whose run is in progress. *)
Definition busy_server : server := set_process (Some (Popen None)) initial_server.

Definition hooked : option TrainingConfig :=
  Some {| model_name := "Qwen2.5-7B"; api_key := None;
          external_api_url := Some "http://app/hook";
          external_api_token := Some "secret" |}.

Definition crashed : child_run :=
  ChildRun [ "Generation [1/2]: Avg Reward: 0.25, Best Reward: 0.3" +:+ Shim.nl;
             "Traceback (most recent call last):" +:+ Shim.nl ] 1.

(** The request of the spec's scenario, on a server that expects a key. *)
Definition keyed_server : server :=
  Server None [] None (Some "k3y") [] [] [] [] [].

Definition sample_telemetry (log_message : option string) : ExternalTelemetry :=
  {| step := 40; reward := 0.8;
     metrics := <["success_rate" := JFloat 0.9]> (<["loss" := JFloat 0.2]> ∅);
     log_message := log_message |}.

Definition sample_metric : string :=
  "[METRIC_JSON] {" +:+ dquote +:+ "step" +:+ dquote +:+ ": 40, " +:+
  dquote +:+ "reward" +:+ dquote +:+ ": 0.8000, " +:+
  dquote +:+ "success_rate" +:+ dquote +:+ ": 0.9000, " +:+
  dquote +:+ "loss" +:+ dquote +:+ ": 0.2000}".


(** A run of two rounds of three agents, as the translator lays it out. *)
Definition two_rounds : Shim.config :=
  {| Shim.evolution :=
       Some {| Shim.generations := Some 2%Z; Shim.population_size := Some 3%Z |};
     Shim.training := Some {| Shim.output_dir := Some "workspace/outputs" |} |}.

(** A session of [n] questions, and one of [n] ratings, every other one
    good. *)
Definition chatty (n : nat) : list AgentCore.interaction :=
  map (fun k => AgentCore.Interaction "t" "t" ("question " +:+ dec_Z (Z.of_nat k))
                  "answer" true)
      (seq 0 n).

Definition praise (n : nat) : list AgentCore.feedback :=
  map (fun k => ("prompt", "action", if Nat.even k then 1%Z else (-1)%Z)) (seq 0 n).

End Samples.

(** * Properties *)

(** ** Facts about lists *)

Module ListFacts.

Lemma filter_none {A : Type} (f : A -> bool) (l : list A) :
  (forall x, In x l -> f x = false) -> List.filter f l = [].
Proof.
  induction l as [|x l IH]; intros Hl; [reflexivity|]. simpl.
  rewrite (Hl x) by now left. apply IH. intros y Hy. apply Hl. now right.
Qed.

Lemma flat_map_none {A B : Type} (f : A -> list B) (l : list A) :
  (forall x, In x l -> f x = []) -> flat_map f l = [].
Proof.
  induction l as [|x l IH]; intros Hl; [reflexivity|]. simpl.
  rewrite (Hl x) by now left. apply IH. intros y Hy. apply Hl. now right.
Qed.



End ListFacts.

(** ** Facts about text *)

Module TextFacts.
Import Text.

Lemma append_nil_r (s : string) : s +:+ "" = s.
Proof. induction s as [|c s IH]; simpl; [reflexivity | now rewrite IH]. Qed.

Lemma append_assoc (a b c : string) : (a +:+ b) +:+ c = a +:+ (b +:+ c).
Proof. induction a as [|x a IH]; simpl; [reflexivity | now rewrite IH]. Qed.

Lemma drop_prefix_app (l s : string) : drop_prefix l (l +:+ s) = Some s.
Proof.
  induction l as [|a l IH]; simpl; [reflexivity|].
  now rewrite Ascii.eqb_refl.
Qed.

Lemma drop_prefix_inv (l s r : string) : drop_prefix l s = Some r -> s = l +:+ r.
Proof.
  revert s; induction l as [|a l IH]; intros s; simpl.
  - now intros [= ->].
  - destruct s as [|c s]; [discriminate|].
    destruct (Ascii.eqb_spec a c) as [->|]; [|discriminate].
    intros Hd; now rewrite (IH _ Hd).
Qed.

Lemma startswith_app (l s : string) : startswith l (l +:+ s) = true.
Proof. unfold startswith; now rewrite drop_prefix_app. Qed.

Lemma contains_startswith (l s : string) : startswith l s = true -> contains l s = true.
Proof. destruct s; simpl; intros ->; reflexivity. Qed.

Lemma contains_app_r (l u s : string) : contains l s = true -> contains l (u +:+ s) = true.
Proof.
  induction u as [|c u IH]; simpl; [trivial|].
  intros Hs; rewrite (IH Hs); apply orb_true_r.
Qed.

Lemma contains_tail (l : string) (c : ascii) (s : string) :
  contains l (String c s) = false -> contains l s = false.
Proof. simpl; intros Hc; now apply orb_false_elim in Hc. Qed.

Lemma contains_false_startswith (l s : string) :
  contains l s = false -> startswith l s = false.
Proof. destruct s; simpl; intros Hc; now apply orb_false_elim in Hc. Qed.

Lemma all_tails_here (P : string -> Prop) (s : string) : all_tails P s -> P s.
Proof. destruct s; simpl; tauto. Qed.

Lemma all_tails_suffix (P : string -> Prop) (u r : string) :
  all_tails P (u +:+ r) -> P r.
Proof.
  induction u as [|c u IH]; simpl.
  - apply all_tails_here.
  - intros [_ Ht]; auto.
Qed.

Lemma all_tails_app (P : string -> Prop) (q : ascii -> bool) (w y : string) :
  (forall c x, q c = true -> P (String c x)) ->
  all_chars q w = true -> all_tails P y -> all_tails P (w +:+ y).
Proof.
  intros Hq; induction w as [|c w IH]; simpl; [trivial|].
  intros Hw Hy; apply andb_prop in Hw as [Hc Hw]; auto.
Qed.

Lemma all_tails_impl (P Q : string -> Prop) (s : string) :
  (forall x, P x -> Q x) -> all_tails P s -> all_tails Q s.
Proof.
  intros HPQ; induction s as [|c s IH]; simpl; intros [Hp Ht]; auto.
Qed.

Lemma contains_false_tails (l s : string) :
  contains l s = false -> all_tails (fun x => contains l x = false) s.
Proof.
  induction s as [|c s IH]; intros Hc; simpl; split; trivial.
  apply IH; exact (contains_tail _ _ _ Hc).
Qed.

Lemma all_chars_impl (p q : ascii -> bool) (s : string) :
  (forall c, p c = true -> q c = true) -> all_chars p s = true -> all_chars q s = true.
Proof.
  intros Hpq; induction s as [|c s IH]; simpl; [trivial|].
  intros Hs; apply andb_prop in Hs as [Hc Hs].
  now rewrite (Hpq _ Hc), IH.
Qed.

(** The first occurrence of [l] in [pre +:+ s] is at the end of [pre]:
    [l] starts no earlier. *)
Lemma find_first (l pre s : string) :
  find l (pre +:+ s) = Some (String.length pre) ->
  forall u v, pre = u +:+ v -> v <> "" -> startswith l (v +:+ s) = false.
Proof.
  induction pre as [|c pre IH]; intros Hf u v Hp Hv.
  - destruct u, v; simpl in Hp; congruence.
  - simpl in Hf.
    destruct (startswith l (String c (pre +:+ s))) eqn:Hsw; [discriminate|].
    destruct (find l (pre +:+ s)) as [n|] eqn:Hn; [|discriminate].
    injection Hf as ->.
    destruct u as [|c' u]; simpl in Hp.
    + subst v; exact Hsw.
    + injection Hp as -> ->. now apply (IH eq_refl u v).
Qed.

Lemma all_chars_app (p : ascii -> bool) (a b : string) :
  all_chars p (a +:+ b) = all_chars p a && all_chars p b.
Proof.
  induction a as [|c a IH]; simpl; [reflexivity|].
  now rewrite IH, andb_assoc.
Qed.

Lemma contains_head_absent (a : ascii) (l x : string) :
  all_chars (fun c => negb (Ascii.eqb a c)) x = true ->
  contains (String a l) x = false.
Proof.
  induction x as [|c x IH]; simpl; [reflexivity|].
  intros Hx. apply andb_prop in Hx as [Hc Hx].
  unfold startswith; simpl. destruct (Ascii.eqb a c); [discriminate|]. auto.
Qed.

End TextFacts.

(** ** Facts about the matcher *)

Module ReFacts.
Import Text Re TextFacts.

Section Greedy.
Context {A : Type}.
Implicit Types (k : string -> string -> option A) (cls : ascii -> bool).

(** A repetition that succeeds has split its input: the characters taken
    are in the class, and the continuation accepts. *)
Lemma repeat_greedy_sound cls s k x :
  repeat_greedy cls s k = Some x ->
  exists t r, s = t +:+ r /\ all_chars cls t = true /\ k t r = Some x.
Proof.
  revert k; induction s as [|c s IH]; intros k; simpl.
  - intros Hk; now exists "", "".
  - destruct (cls c) eqn:Hc.
    + destruct (repeat_greedy cls s _) as [y|] eqn:Hr.
      * intros [= ->]. apply IH in Hr as (t & r & -> & Ht & Hk).
        exists (String c t), r; simpl; now rewrite Hc, Ht.
      * intros Hk; now exists "", (String c s).
    + intros Hk; now exists "", (String c s).
Qed.

(** When the continuation refuses every longer take, the repetition takes
    nothing. *)
Lemma repeat_greedy_none_taken cls r k :
  (forall u r', u <> "" -> r = u +:+ r' -> k u r' = None) ->
  repeat_greedy cls r k = k "" r.
Proof.
  revert k; induction r as [|c r IH]; intros k Hk; simpl; [reflexivity|].
  destruct (cls c); [|reflexivity].
  rewrite IH.
  - now rewrite (Hk (String c "") r).
  - intros u r' Hu ->; now apply Hk.
Qed.

(** The take [t] is chosen when the continuation accepts it and refuses
    every longer one. *)
Lemma repeat_greedy_take cls t r k x :
  all_chars cls t = true ->
  k t r = Some x ->
  (forall u r', u <> "" -> r = u +:+ r' -> k (t +:+ u) r' = None) ->
  repeat_greedy cls (t +:+ r) k = Some x.
Proof.
  revert k; induction t as [|c t IH]; intros k Ht Hk Hlonger; simpl.
  - rewrite repeat_greedy_none_taken; auto.
  - simpl in Ht; apply andb_prop in Ht as [-> Ht].
    now rewrite (IH (fun u r0 => k (String c u) r0)).
Qed.

(** The longest take is chosen when the continuation accepts it. *)
Lemma repeat_greedy_longest cls t r k x :
  all_chars cls t = true -> stops cls r -> k t r = Some x ->
  repeat_greedy cls (t +:+ r) k = Some x.
Proof.
  revert k; induction t as [|c t IH]; intros k Ht Hr Hk; simpl.
  - destruct r as [|c r]; simpl in *; [assumption|]. now rewrite Hr.
  - simpl in Ht; apply andb_prop in Ht as [-> Ht].
    now rewrite (IH (fun u r0 => k (String c u) r0)).
Qed.

End Greedy.

(** A match consumes every literal of the pattern. *)
Lemma match_here_literal (re : regex) (s : string) (gs : list string) (l : string) :
  match_here re s = Some gs -> In (Lit l) re -> contains l s = true.
Proof.
  revert s gs; induction re as [|it re IH]; intros s gs Hm Hin; [destruct Hin|].
  destruct it as [l0|cls|cls]; simpl in Hm.
  - destruct (drop_prefix l0 s) as [s'|] eqn:Hd; [|discriminate].
    apply drop_prefix_inv in Hd as ->.
    destruct Hin as [[= ->]|Hin].
    + apply contains_startswith, startswith_app.
    + apply contains_app_r; eauto.
  - apply repeat_greedy_sound in Hm as (t & r & -> & _ & Hk).
    destruct Hin as [|Hin]; [discriminate|].
    apply contains_app_r; eauto.
  - apply repeat_greedy_sound in Hm as (t & r & -> & _ & Hk).
    destruct Hin as [|Hin]; [discriminate|].
    destruct t; [discriminate|].
    destruct (match_here re r) as [gs'|] eqn:Hr; [|discriminate].
    apply contains_app_r; eauto.
Qed.

Lemma search_literal (re : regex) (s : string) (gs : list string) (l : string) :
  search re s = Some gs -> In (Lit l) re -> contains l s = true.
Proof.
  intros Hs Hin; induction s as [|c s IH]; simpl in Hs.
  - destruct (match_here re "") eqn:Hm; [|discriminate].
    eapply match_here_literal; eauto.
  - destruct (match_here re (String c s)) eqn:Hm.
    + eapply match_here_literal; eauto.
    + change (String c s) with (String c "" +:+ s). apply contains_app_r; auto.
Qed.

(** A line without one of the pattern's literals has no match. *)
Lemma search_without_literal (re : regex) (s l : string) :
  In (Lit l) re -> contains l s = false -> search re s = None.
Proof.
  intros Hin Hc. destruct (search re s) as [gs|] eqn:Hs; [|reflexivity].
  rewrite (search_literal _ _ _ _ Hs Hin) in Hc; discriminate.
Qed.

(** [search] skips the positions at which the first literal does not
    start. *)
Lemma search_skip (l : string) (re : regex) (pre s : string) :
  (forall u v, pre = u +:+ v -> v <> "" -> startswith l (v +:+ s) = false) ->
  search (Lit l :: re) (pre +:+ s) = search (Lit l :: re) s.
Proof.
  induction pre as [|c pre IH]; intros Hpre; [reflexivity|].
  change (String c pre +:+ s) with (String c (pre +:+ s)).
  cbn [search match_here].
  specialize (Hpre "" (String c pre) eq_refl ltac:(discriminate)) as Hsw.
  unfold startswith in Hsw. simpl in Hsw.
  destruct (drop_prefix l (String c (pre +:+ s))); [discriminate|].
  apply IH. intros u v -> Hv. apply (Hpre (String c u) v); auto.
Qed.

Lemma search_here (re : regex) (s : string) (gs : list string) :
  match_here re s = Some gs -> search re s = Some gs.
Proof. intros Hm; destruct s; simpl; now rewrite Hm. Qed.

End ReFacts.

(** ** The metric pattern on template lines *)

Module MetricFacts.
Import Text Re Metric TextFacts ReFacts.

Lemma numchar_not (c x : ascii) :
  is_numchar x = false -> is_numchar c = true -> Ascii.eqb x c = false.
Proof.
  intros Hx Hc. destruct (Ascii.eqb_spec x c) as [->|]; [congruence | reflexivity].
Qed.

Lemma digit_numchar (c : ascii) : is_digit c = true -> is_numchar c = true.
Proof. unfold is_numchar; now intros ->. Qed.

Lemma lit_mismatch (l : string) (re : regex) (a c : ascii) (l' x : string) :
  l = String a l' -> Ascii.eqb a c = false ->
  match_here (Lit l :: re) (String c x) = None.
Proof. intros -> Hac; simpl; now rewrite Hac. Qed.

(** The tail of the match, from the best reward on. *)
Lemma match_best (b post : string) :
  b <> "" -> all_chars is_numchar b = true -> stops is_numchar post ->
  match_here after_best (" " +:+ b +:+ post) = Some [b].
Proof.
  intros Hb Hnum Hpost. unfold after_best. cbn [match_here].
  apply (repeat_greedy_longest is_space " " (b +:+ post)); [reflexivity | |].
  - destruct b as [|c b]; [congruence|]. simpl in *.
    apply andb_prop in Hnum as [Hc _].
    destruct (is_space c) eqn:Hs; [|reflexivity].
    exfalso. revert Hc Hs.
    destruct c as [[] [] [] [] [] [] [] []]; vm_compute; congruence.
  - apply repeat_greedy_longest; auto.
    destruct b; [congruence | reflexivity].
Qed.

(** No suffix of a text without [Best Reward:] matches from that literal
    on. *)
Lemma no_best_in (re : regex) (post : string) :
  contains "Best Reward:" post = false ->
  all_tails (fun x => match_here (Lit "Best Reward:" :: re) x = None) post.
Proof.
  intros Hc. apply contains_false_tails in Hc.
  eapply all_tails_impl; [|exact Hc]. intros x Hx; cbv beta in Hx.
  apply contains_false_startswith in Hx. unfold startswith in Hx.
  cbn [match_here]. now destruct (drop_prefix "Best Reward:" x).
Qed.

Lemma no_avg_in (post : string) :
  contains "Best Reward:" post = false ->
  all_tails (fun x => match_here (Lit "Avg Reward:" :: after_avg) x = None) post.
Proof.
  intros Hc. apply contains_false_tails in Hc.
  eapply all_tails_impl; [|exact Hc]. intros x Hx; cbv beta in Hx.
  destruct (match_here (Lit "Avg Reward:" :: after_avg) x) as [gs|] eqn:Hm; [|reflexivity].
  rewrite (match_here_literal _ _ _ "Best Reward:" Hm) in Hx; [discriminate|].
  unfold after_avg; simpl; tauto.
Qed.

Lemma numchar_not_char (a : ascii) :
  is_numchar a = false -> forall c, is_numchar c = true -> not_char a c = true.
Proof. intros Ha c Hc; unfold not_char; now rewrite (numchar_not c a). Qed.

Lemma lit_tails (a : ascii) (l' : string) (re : regex) (w y : string) :
  all_chars (not_char a) w = true ->
  all_tails (fun x => match_here (Lit (String a l') :: re) x = None) y ->
  all_tails (fun x => match_here (Lit (String a l') :: re) x = None) (w +:+ y).
Proof.
  apply all_tails_app. intros c x Hc.
  apply (lit_mismatch _ _ a c l'); [reflexivity|].
  unfold not_char in Hc. now destruct (Ascii.eqb a c).
Qed.

(** From the average reward on. *)
Lemma match_avg (a b post : string) :
  a <> "" -> all_chars is_numchar a = true ->
  b <> "" -> all_chars is_numchar b = true ->
  stops is_numchar post -> contains "Best Reward:" post = false ->
  match_here after_avg (" " +:+ a +:+ ", Best Reward: " +:+ b +:+ post) = Some [a; b].
Proof.
  intros Ha Hna Hb Hnb Hpost Hc. unfold after_avg. cbn [match_here].
  apply (repeat_greedy_longest is_space " "); [reflexivity | |].
  { destruct a as [|c a]; [congruence|]. simpl in *.
    apply andb_prop in Hna as [Hc' _].
    destruct (is_space c) eqn:Hs; [|reflexivity].
    exfalso. revert Hc' Hs.
    destruct c as [[] [] [] [] [] [] [] []]; vm_compute; congruence. }
  apply repeat_greedy_longest; [assumption | reflexivity |].
  destruct a as [|c a]; [congruence|].
  change (", Best Reward: " +:+ b +:+ post)
    with (", " +:+ ("Best Reward:" +:+ " " +:+ b +:+ post)).
  rewrite (repeat_greedy_take is_dot ", " _ _ [b]); [reflexivity | reflexivity | |].
  - cbn [match_here]. rewrite drop_prefix_app.
    now apply (match_best b post).
  - intros u r' Hu Hr.
    change (match_here (Lit "Best Reward:" :: after_best) r' = None).
    assert (Ht : all_tails
      (fun x => match_here (Lit "Best Reward:" :: after_best) x = None)
      ("est Reward: " +:+ b +:+ post)).
    { apply lit_tails; [reflexivity|].
      apply lit_tails; [|now apply no_best_in].
      eapply all_chars_impl; [|exact Hnb]. now apply numchar_not_char. }
    destruct u as [|cu u]; [congruence|].
    simpl in Hr. injection Hr as _ Hr.
    match type of Ht with all_tails ?P _ => apply (all_tails_suffix P u r') end.
    rewrite <- Hr. exact Ht.
Qed.

(** The pattern on a template line, from its first character. *)
Lemma match_template (gs Gs a b post : string) :
  gs <> "" -> all_chars is_digit gs = true ->
  Gs <> "" -> all_chars is_digit Gs = true ->
  a <> "" -> all_chars is_numchar a = true ->
  b <> "" -> all_chars is_numchar b = true ->
  stops is_numchar post -> contains "Best Reward:" post = false ->
  match_here metric_pattern (template_line "" gs Gs a b post) = Some [gs; Gs; a; b].
Proof.
  intros Hgs Hdg HGs HdG Ha Hna Hb Hnb Hpost Hc.
  unfold template_line, metric_pattern.
  change ("" +:+ "Generation [" +:+ gs +:+ "/" +:+ Gs +:+ "]: Avg Reward: " +:+
          a +:+ ", Best Reward: " +:+ b +:+ post)
    with ("Generation" +:+ " " +:+ "[" +:+ gs +:+ "/" +:+ Gs +:+ "]:" +:+ " " +:+
          "Avg Reward:" +:+ " " +:+ a +:+ ", Best Reward: " +:+ b +:+ post).
  cbn [match_here]. rewrite drop_prefix_app.
  apply (repeat_greedy_longest is_space " "); [reflexivity | reflexivity |].
  rewrite drop_prefix_app.
  apply repeat_greedy_longest; [assumption | reflexivity |].
  destruct gs as [|cg gs']; [congruence|]. rewrite drop_prefix_app.
  rewrite (repeat_greedy_longest is_digit Gs _ _ [Gs; a; b]);
    [reflexivity | assumption | reflexivity |].
  destruct Gs as [|cG Gs']; [congruence|]. rewrite drop_prefix_app.
  rewrite (repeat_greedy_take is_dot " " _ _ [a; b]); [reflexivity | reflexivity | |].
  - change (match_here (Lit "Avg Reward:" :: after_avg)
              ("Avg Reward:" +:+ " " +:+ a +:+ ", Best Reward: " +:+ b +:+ post)
            = Some [a; b]).
    cbn [match_here]. rewrite drop_prefix_app. now apply match_avg.
  - intros u r' Hu Hr.
    change (match_here (Lit "Avg Reward:" :: after_avg) r' = None).
    assert (Ht : all_tails
      (fun x => match_here (Lit "Avg Reward:" :: after_avg) x = None)
      ("vg Reward: " +:+ a +:+ ", Best Reward: " +:+ b +:+ post)).
    { apply lit_tails; [reflexivity|].
      apply lit_tails; [eapply all_chars_impl; [|exact Hna]; now apply numchar_not_char|].
      apply lit_tails; [reflexivity|].
      apply lit_tails; [eapply all_chars_impl; [|exact Hnb]; now apply numchar_not_char|].
      now apply no_avg_in. }
    destruct u as [|cu u]; [congruence|].
    simpl in Hr. injection Hr as _ Hr.
    match type of Ht with all_tails ?P _ => apply (all_tails_suffix P u r') end.
    rewrite <- Hr. exact Ht.
Qed.

Lemma template_line_pre (pre gs Gs a b post : string) :
  template_line pre gs Gs a b post = pre +:+ template_line "" gs Gs a b post.
Proof. reflexivity. Qed.

(** The groups of a template line whose [Generation] marker is the first of
    the line and whose trailing text neither prolongs the last number nor
    holds a further [Best Reward:] marker. *)
Lemma metric_groups_template (pre gs Gs a b post : string) :
  gs <> "" -> all_chars is_digit gs = true ->
  Gs <> "" -> all_chars is_digit Gs = true ->
  a <> "" -> all_chars is_numchar a = true ->
  b <> "" -> all_chars is_numchar b = true ->
  find "Generation" (template_line pre gs Gs a b post) = Some (String.length pre) ->
  stops is_numchar post -> contains "Best Reward:" post = false ->
  metric_groups (template_line pre gs Gs a b post) = Some (gs, Gs, a, b).
Proof.
  intros Hgs Hdg HGs HdG Ha Hna Hb Hnb Hfind Hpost Hc.
  unfold metric_groups. rewrite template_line_pre in Hfind |- *.
  unfold metric_pattern at 1.
  rewrite (search_skip "Generation" _ pre);
    [|exact (find_first _ _ _ Hfind)].
  fold metric_pattern.
  now rewrite (search_here _ _ [gs; Gs; a; b]) by now apply match_template.
Qed.

Lemma metric_groups_without (line l : string) :
  In (Lit l) metric_pattern -> contains l line = false -> metric_groups line = None.
Proof.
  intros Hin Hc. unfold metric_groups.
  now rewrite (search_without_literal _ _ l Hin Hc).
Qed.

End MetricFacts.

(** ** Decimal text *)

Module DecimalFacts.
Import Text Metric TextFacts.




Lemma string_of_uint_digits (d : Decimal.uint) :
  all_chars is_digit (NilEmpty.string_of_uint d) = true.
Proof. induction d; simpl; auto. Qed.

Lemma string_of_uint_nonempty (d : Decimal.uint) :
  d <> Decimal.Nil -> NilEmpty.string_of_uint d <> "".
Proof. destruct d; simpl; congruence. Qed.

Lemma to_uint_nonnil (n : N) : N.to_uint n <> Decimal.Nil.
Proof.
  destruct n as [|p]; simpl; [discriminate|].
  apply DecimalPos.Unsigned.to_uint_nonnil.
Qed.

Lemma dec_N_digits (n : N) : all_chars is_digit (dec_N n) = true.
Proof. apply string_of_uint_digits. Qed.

Lemma dec_N_nonempty (n : N) : dec_N n <> "".
Proof. apply string_of_uint_nonempty, to_uint_nonnil. Qed.

(** [int(str(n)) == n] *)
Lemma int_of_dec_N (n : N) : int_of_digits (dec_N n) = Some n.
Proof.
  unfold int_of_digits.
  destruct (dec_N n) as [|c s] eqn:Hd; [now apply dec_N_nonempty in Hd|].
  rewrite <- Hd. unfold dec_N.
  now rewrite NilEmpty.usu, DecimalN.Unsigned.of_to.
Qed.

Lemma dec_Z_nonneg (z : Z) : (0 <= z)%Z -> dec_Z z = dec_N (Z.to_N z).
Proof. destruct z; simpl; [reflexivity | reflexivity | lia]. Qed.


Lemma digit_not (a c : ascii) : is_digit a = false -> is_digit c = true -> negb (Ascii.eqb a c) = true.
Proof.
  intros Ha Hc. destruct (Ascii.eqb_spec a c) as [->|]; [congruence | reflexivity].
Qed.

Lemma dec_Z_chars (p : ascii -> bool) (z : Z) :
  (forall c, is_digit c = true -> p c = true) -> p "-"%char = true ->
  all_chars p (dec_Z z) = true.
Proof.
  intros Hd Hm.
  assert (HN : forall n, all_chars p (dec_N n) = true).
  { intros n. eapply all_chars_impl; [exact Hd|].
    apply dec_N_digits. }
  destruct z as [|q|q]; unfold dec_Z; [apply HN | apply HN|].
  cbn [all_chars]. now rewrite Hm, HN.
Qed.

End DecimalFacts.

(** ** The parser ([C2], [C7]) *)

Module ParserProperties.
Import Text Re Metric TextFacts ReFacts MetricFacts DecimalFacts EvolutionService Samples.

Section WithRuntime.
Context `{PyRuntime}.



(** C7.  For a line that parses to the record [(g, G, avg, best)], the pump
    loop hands its consumer the raw log and then the payload with
    [step = g * 10], [reward = avg], [success_rate = best] and
    [loss = 1.0 - avg]. *)
Theorem metric_payload_fields (yield : string -> M unit) (line : string) (r : ProgressRecord) :
  line <> "" ->
  parse (strip line) = Match r ->
  pump_line yield line =
    (yield ("[STDOUT] " +:+ strip line);;
     yield ("[METRIC_JSON] " +:+
            json_dumps
              (JObj [ ("step", JInt (generation r * 10));
                      ("reward", JFloat (averageReward r));
                      ("success_rate", JFloat (bestReward r));
                      ("loss", JFloat (1.0 - averageReward r)%float) ]))).
Proof.
  intros Hne Hp. unfold pump_line.
  destruct (String.eqb_spec line "") as [|_]; [contradiction|].
  unfold parse in Hp. unfold metric_payload.
  destruct (metric_groups (strip line)) as [[[[gen total] avg] best]|]; [|discriminate].
  destruct (int_of_group gen) as [g|e]; [|discriminate].
  destruct (int_of_group total) as [t|e]; [|discriminate].
  destruct (float_of_group avg) as [a|e]; [|discriminate].
  destruct (float_of_group best) as [b|e]; [|discriminate].
  injection Hp as <-. reflexivity.
Qed.

End WithRuntime.


Lemma metric_payload_fields_witness :
  pump_line (H := Example.runtime) queue_put (sample_line +:+ Shim.nl) =
    (queue_put "[STDOUT] [INFO] Generation [3/5]: Avg Reward: 0.45, Best Reward: 0.8 (elapsed 2s)";;
     queue_put ("[METRIC_JSON] " +:+
                Example.json_dumps
                  (JObj [ ("step", JInt 30);
                          ("reward", JFloat (Example.float_of_decimal "0.45"));
                          ("success_rate", JFloat (Example.float_of_decimal "0.8"));
                          ("loss", JFloat (1.0 - Example.float_of_decimal "0.45")%float) ]))).
Proof.
  apply (metric_payload_fields (H := Example.runtime) queue_put
           (sample_line +:+ Shim.nl)
           {| generation := 3; totalGenerations := 5;
              averageReward := Example.float_of_decimal "0.45";
              bestReward := Example.float_of_decimal "0.8" |});
    [discriminate | reflexivity].
Defined.


End ParserProperties.

(** ** The event bus ([C1]) *)

Module BusProperties.
Import Server ListFacts.









End BusProperties.

(** ** Start and stop ([C3], [C5]) *)

Module LifecycleProperties.
Import Server Samples.

(** C5.  While a run is in progress, [start_training] is refused with
    "Training already running" (400) and [trigger_job] with "Busy" (409), and
    neither touches the state: the process handle, the queue, the scheduled
    tasks and every other field are as before. *)
Theorem start_while_running (now : string) (request : ExternalJobRequest) (s : server) :
  running (process s) = true ->
  start_training now s = (Raise (HTTPException 400 "Training already running"), s) /\
  trigger_job request s = (Raise (HTTPException 409 "Busy"), s).
Proof.
  intros Hrun. unfold start_training, trigger_job, bind, gets.
  now rewrite Hrun.
Qed.

Lemma start_while_running_witness :
  start_training "2026-01-01T00:00:00" busy_server =
    (Raise (HTTPException 400 "Training already running"), busy_server) /\
  trigger_job {| task_id := "job-1"; config_overrides := ∅ |} busy_server =
    (Raise (HTTPException 409 "Busy"), busy_server).
Proof.
  apply (start_while_running "2026-01-01T00:00:00"
           {| task_id := "job-1"; config_overrides := ∅ |} busy_server).
  reflexivity.
Defined.

(** C3, on the code.  Once a process has been started, [stop_training]
    answers "stopped" every time: [stop] leaves the handle in place, so the
    second call finds it, answers "stopped" again and publishes a second
    notice; "no_process_running" is only answered before any start. *)
Theorem stop_twice (sigterm_exits sigterm_exits' : bool) (s : server) (p : popen) :
  process s = Some p ->
  eval (stop_training sigterm_exits) s = Return (JObj [ ("status", JStr "stopped") ]) /\
  eval (stop_training sigterm_exits') (exec (stop_training sigterm_exits) s) =
    Return (JObj [ ("status", JStr "stopped") ]) /\
  log_queue (exec (stop_training sigterm_exits') (exec (stop_training sigterm_exits) s)) =
    log_queue s ++ [ "[SYSTEM] Process terminated by user.";
                     "[SYSTEM] Process terminated by user." ].
Proof.
  intros Hp. destruct s as [pr q c k so d o l t]; simpl in Hp; subst pr.
  destruct p as [[rc|]]; unfold eval, exec; simpl;
    now rewrite <- app_assoc.
Qed.

Lemma stop_twice_witness :
  eval (stop_training true) busy_server = Return (JObj [ ("status", JStr "stopped") ]) /\
  eval (stop_training true) (exec (stop_training true) busy_server) =
    Return (JObj [ ("status", JStr "stopped") ]) /\
  log_queue (exec (stop_training true) (exec (stop_training true) busy_server)) =
    log_queue busy_server ++ [ "[SYSTEM] Process terminated by user.";
                               "[SYSTEM] Process terminated by user." ].
Proof. apply (stop_twice true true busy_server (Popen None)). reflexivity. Defined.

(** Before any start, there is nothing to stop. *)
Lemma stop_before_start (sigterm_exits : bool) :
  stop_training sigterm_exits initial_server =
    (Return (JObj [ ("status", JStr "no_process_running") ]), initial_server).
Proof. reflexivity. Qed.

End LifecycleProperties.

(** ** The webhook ([C8]) *)

Module WebhookProperties.
Import Text WebhookService.

Lemma set_logs_nil (s : server) : set_logs (logs s ++ []) s = s.
Proof. destruct s; unfold set_logs; simpl. now rewrite app_nil_r. Qed.

(** With a URL, [send_event] makes one POST, logs by its outcome, and
    returns. *)
Lemma send_event_post (net : nat -> net_outcome) (url secret : option string)
    (event_type : string) (payload : list (string * json)) (s : server) :
  truthy url = true ->
  send_event net url secret event_type payload s =
    (Return tt,
     set_logs (logs s ++ logged (net (length (outbox s))))
       (set_outbox (outbox s ++ [event_post url secret event_type payload]) s)).
Proof.
  intros Hurl. unfold send_event, event_post. rewrite Hurl.
  change (negb true) with false. cbv iota zeta.
  { unfold try_except, bind, session_post, logged. cbv beta zeta.
    destruct (net (length (outbox s))) as [status [text|e]|msg]; simpl.
    - destruct (400 <=? status)%Z; unfold logger_log, modify; simpl; [reflexivity|].
      now rewrite <- (set_logs_nil (set_outbox _ s)) at 1.
    - destruct (400 <=? status)%Z; unfold logger_log, modify, raise; simpl; [reflexivity|].
      now rewrite <- (set_logs_nil (set_outbox _ s)) at 1.
    - reflexivity. }
Qed.

(** C8, as amended.  Without a URL (missing or empty) [send_event] returns
    at once: no POST, no log record, no exception.  With a URL it makes
    exactly one POST and returns normally whatever the outcome, leaving
    every field of the server but the outbox and the log as it was; a
    response with status 400 or more is logged as a warning (as an error if
    its body cannot be read), a network failure as an error, and a response
    with a status below 400 leaves no record. *)
Theorem send_event_best_effort (net : nat -> net_outcome) (url secret : option string)
    (event_type : string) (payload : list (string * json)) (s : server) :
  (truthy url = false ->
     send_event net url secret event_type payload s = (Return tt, s)) /\
  (truthy url = true ->
     exists rq,
       send_event net url secret event_type payload s =
         (Return tt,
          set_logs (logs s ++ logged (net (length (outbox s))))
            (set_outbox (outbox s ++ [rq]) s)) /\
       post_url rq = default "" url).
Proof.
  split; intros Hurl.
  - unfold send_event. now rewrite Hurl.
  - eexists; split; [exact (send_event_post net url secret event_type payload s Hurl)|].
    reflexivity.
Qed.

Lemma send_event_best_effort_witness :
  (exists rq,
     send_event (fun _ => NetFailure "Connection refused") (Some "http://app/hook")
       None "TRAINING_STARTED" [] initial_server =
       (Return tt,
        set_logs [ LogRecord logger ERROR "Failed to send webhook: Connection refused" ]
          (set_outbox [rq] initial_server)) /\
     post_url rq = "http://app/hook") /\
  send_event (fun _ => NetFailure "Connection refused") (Some "")
    None "TRAINING_STARTED" [] initial_server = (Return tt, initial_server).
Proof.
  split.
  - exact (proj2 (send_event_best_effort (fun _ => NetFailure "Connection refused")
                    (Some "http://app/hook") None "TRAINING_STARTED" []
                    initial_server) eq_refl).
  - exact (proj1 (send_event_best_effort (fun _ => NetFailure "Connection refused")
                    (Some "") None "TRAINING_STARTED" [] initial_server) eq_refl).
Defined.

(** A response that is not a 2xx but below 400, here a 304, is not logged:
    the POST is made, and the log stays empty. *)
Lemma send_event_counterexample :
  let s := exec (send_event (fun _ => Response 304 (Return "")) (Some "http://app/hook")
                   (Some "secret") "TRAINING_COMPLETE" []) initial_server in
  length (outbox s) = 1 /\ logs s = [].
Proof. split; reflexivity. Qed.

End WebhookProperties.

(** ** The runner ([C4], [C6]) *)

Module RunnerProperties.
Import Text Metric EvolutionService Server WebhookService Trace Samples.
Import ListFacts TextFacts DecimalFacts WebhookProperties.

Lemma grow_nil (s : server) : grow [] [] [] s = s.
Proof. destruct s; unfold grow; simpl. now rewrite !app_nil_r. Qed.

Lemma grow_grow ys ps lg ys' ps' lg' (s : server) :
  grow ys' ps' lg' (grow ys ps lg s) = grow (ys ++ ys') (ps ++ ps') (lg ++ lg') s.
Proof. destruct s; unfold grow; simpl. now rewrite !app_assoc. Qed.

Lemma queue_put_grow (l : string) (s : server) :
  queue_put l s = (Return tt, grow [l] [] [] s).
Proof. destruct s; unfold queue_put, modify, grow; simpl. now rewrite !app_nil_r. Qed.

Lemma logger_error_grow (name msg : string) (s : server) :
  logger_log name ERROR msg s = (Return tt, grow [] [] [LogRecord name ERROR msg] s).
Proof. destruct s; unfold logger_log, modify, grow; simpl. now rewrite !app_nil_r. Qed.

Section WithRuntime.
Context `{PyRuntime}.

Lemma on_log_line_consumes (net : nat -> net_outcome) (now : string)
    (config_data : option TrainingConfig) :
  consumes (on_log_line net now config_data) (posts_for now config_data).
Proof.
  intros l s. unfold on_log_line, posts_for, bind. rewrite queue_put_grow.
  fold completed_phrase.
  destruct (contains completed_phrase l &&
            truthy (config_get external_api_url config_data)) eqn:Hc.
  - apply andb_prop in Hc as [_ Hurl]. rewrite (send_event_post _ _ _ _ _ _ Hurl).
    exists (logged (net (length (outbox s)))).
    unfold grow; destruct s; simpl. rewrite !app_nil_r. reflexivity.
  - exists []. reflexivity.
Qed.

Section Consumer.
Variables (Y : string -> M unit) (P : string -> list http_post).
Hypothesis HY : consumes Y P.

Lemma pump_line_spec (line : string) (s : server) :
  exists lg,
    pump_line Y line s =
      (result_of (snd (line_yields line)),
       grow (fst (line_yields line)) (flat_map P (fst (line_yields line))) lg s).
Proof.
  unfold pump_line, line_yields.
  destruct (String.eqb line "").
  { exists []. cbn [fst snd flat_map result_of]. now rewrite grow_nil. }
  unfold bind. destruct (HY ("[STDOUT] " +:+ strip line) s) as [lg1 ->].
  destruct (metric_groups (strip line)) as [[[[gen total] avg] best]|].
  - unfold lift. destruct (metric_payload gen avg best) as [p|e];
      cbn [fst snd flat_map result_of].
    + match goal with |- context [Y ?l ?st] => destruct (HY l st) as [lg2 ->] end.
      rewrite grow_grow, (app_nil_r (P _)). eauto.
    + rewrite app_nil_r. eauto.
  - cbn [fst snd flat_map result_of]. rewrite app_nil_r. eauto.
Qed.

Lemma pump_loop_spec (lines : list string) (s : server) :
  exists lg,
    pump_loop Y lines s =
      (result_of (snd (pump_yields lines)),
       grow (fst (pump_yields lines)) (flat_map P (fst (pump_yields lines))) lg s).
Proof.
  revert s; induction lines as [|line rest IH]; intros s.
  { exists []. cbn [pump_loop pump_yields fst snd flat_map result_of].
    unfold ret. now rewrite grow_nil. }
  cbn [pump_loop pump_yields]. unfold bind.
  destruct (pump_line_spec line s) as [lg1 ->].
  destruct (line_yields line) as [ys [e|]]; cbn [fst snd result_of]; [eauto|].
  destruct (IH (grow ys (flat_map P ys) lg1 s)) as [lg2 ->].
  destruct (pump_yields rest) as [zs r]; cbn [fst snd].
  rewrite grow_grow, flat_map_app. eauto.
Qed.

(** The generator publishes what it yields, in order, and ends with the
    state of the child in the handle. *)
Lemma run_evolution_spec (child : child_run) (s : server) :
  exists lg,
    run_evolution child Y s =
      (result_of (snd (run_yields child)),
       grow (fst (run_yields child)) (flat_map P (fst (run_yields child))) lg
         (set_process
            (Some (Popen (match snd (run_yields child) with
                          | None => Some (exit_code child)
                          | Some _ => None
                          end))) s)).
Proof.
  unfold run_evolution, run_yields, bind, modify.
  destruct (pump_loop_spec (readlines child) (set_process (Some (Popen None)) s))
    as [lg1 ->].
  destruct (pump_yields (readlines child)) as [ys [e|]]; simpl; [eauto|].
  unfold final_yields. destruct (exit_code child =? 0)%Z.
  - destruct (HY "[SYSTEM] Evolution process completed successfully."
      (set_process (Some (Popen (Some (exit_code child))))
         (grow ys (flat_map P ys) lg1 (set_process (Some (Popen None)) s))))
      as [lg2 ->].
    match goal with |- context [Y ?l ?st] => destruct (HY l st) as [lg3 ->] end.
    rewrite flat_map_app. simpl. rewrite app_nil_r.
    eexists. f_equal. destruct s; unfold grow; simpl.
    rewrite <- !app_assoc. simpl. reflexivity.
  - match goal with |- context [Y ?l ?st] => destruct (HY l st) as [lg2 ->] end.
    rewrite flat_map_app. simpl. rewrite app_nil_r.
    eexists. f_equal. destruct s; unfold grow; simpl.
    rewrite <- !app_assoc. simpl. reflexivity.
Qed.

End Consumer.

Lemma process_runner_spec (net : nat -> net_outcome) (now : string)
    (config_data : option TrainingConfig) (child : child_run) (s : server) :
  exists lg,
    process_runner net now config_data child s =
      (Return tt,
       grow (fst (run_yields child) ++ runner_notice (snd (run_yields child)))
         (flat_map (posts_for now config_data) (fst (run_yields child))) lg
         (set_process
            (Some (Popen (match snd (run_yields child) with
                          | None => Some (exit_code child)
                          | Some _ => None
                          end))) s)).
Proof.
  unfold process_runner, try_except.
  destruct (run_evolution_spec _ _ (on_log_line_consumes net now config_data) child s)
    as [lg ->].
  destruct (snd (run_yields child)) as [e|]; cbn [result_of runner_notice].
  - unfold bind. rewrite queue_put_grow, logger_error_grow, !grow_grow.
    rewrite !app_nil_r. eauto.
  - rewrite app_nil_r. eauto.
Qed.

(** *** The shape of what the pump yields *)

Lemma line_yields_cases (line : string) :
  line_yields line = ([], None) \/
  (exists e, line_yields line = (["[STDOUT] " +:+ strip line], e)) \/
  (exists gen total avg best p,
     metric_groups (strip line) = Some (gen, total, avg, best) /\
     metric_payload gen avg best = Return p /\
     line_yields line =
       (["[STDOUT] " +:+ strip line; "[METRIC_JSON] " +:+ json_dumps p], None)).
Proof.
  unfold line_yields. destruct (String.eqb line ""); [now left|]. right.
  destruct (metric_groups (strip line)) as [[[[gen total] avg] best]|]; [|left; eauto].
  destruct (metric_payload gen avg best) as [p|e] eqn:Hp; [|left; eauto].
  right. exists gen, total, avg, best, p. auto.
Qed.

Lemma pump_yields_cons (line : string) (rest : list string) :
  (exists e, snd (line_yields line) = Some e /\
             pump_yields (line :: rest) = (fst (line_yields line), Some e)) \/
  (snd (line_yields line) = None /\
   pump_yields (line :: rest) =
     (fst (line_yields line) ++ fst (pump_yields rest), snd (pump_yields rest))).
Proof.
  cbn [pump_yields]. destruct (line_yields line) as [ys [e|]]; cbn [fst snd].
  - left; eauto.
  - right. now destruct (pump_yields rest).
Qed.

(** Every value the pump yields is a raw log or a metric. *)
Lemma pump_yields_tagged (lines : list string) (y : string) :
  In y (fst (pump_yields lines)) ->
  startswith "[STDOUT] " y = true \/ startswith "[METRIC_JSON] " y = true.
Proof.
  induction lines as [|line rest IH]; [intros []|].
  assert (Hline : In y (fst (line_yields line)) ->
    startswith "[STDOUT] " y = true \/ startswith "[METRIC_JSON] " y = true).
  { destruct (line_yields_cases line)
      as [-> | [[e ->] | (gen & total & avg & best & p & _ & _ & ->)]]; cbn [fst].
    - intros [].
    - intros [<-|[]]. left; apply TextFacts.startswith_app.
    - intros [<-|[<-|[]]]; [left | right]; apply TextFacts.startswith_app. }
  destruct (pump_yields_cons line rest) as [(e & _ & ->) | (_ & ->)]; cbn [fst].
  - exact Hline.
  - intros Hin. apply in_app_or in Hin as [Hin|Hin]; auto.
Qed.


End WithRuntime.

(** *** The final notice *)

Lemma failure_notice_no_completed (return_code : Z) :
  contains completed_phrase (failure_notice return_code) = false.
Proof.
  unfold failure_notice, completed_phrase.
  assert (Hz : contains "Evolution process completed" (dec_Z return_code) = false).
  { apply contains_head_absent, dec_Z_chars; [|reflexivity].
    intros c. now apply digit_not. }
  cbn. unfold startswith. cbn. exact Hz.
Qed.

Lemma tagged_not_error (y : string) :
  startswith "[STDOUT] " y = true \/ startswith "[METRIC_JSON] " y = true ->
  startswith "[ERROR]" y = false.
Proof.
  unfold startswith. intros [Hy|Hy].
  - destruct (drop_prefix "[STDOUT] " y) as [r|] eqn:Hd; [|discriminate].
    apply TextFacts.drop_prefix_inv in Hd as ->. reflexivity.
  - destruct (drop_prefix "[METRIC_JSON] " y) as [r|] eqn:Hd; [|discriminate].
    apply TextFacts.drop_prefix_inv in Hd as ->. reflexivity.
Qed.

Section Claims.
Context `{PyRuntime}.

(** C4, as amended.  When the child exits with a non-zero code and the
    pump has read its whole output, the handle holds that code (the run
    has failed), the runner has published what the pump yielded and then
    one notice, the only one tagged [ERROR], which cites the exit code, and
    no POST announces the failure: the POSTs of the run are
    [TRAINING_COMPLETE] ones, one for each yielded line that holds
    "Evolution process completed" when a URL is configured, hence none when
    no line does. *)
Theorem failed_run (net : nat -> net_outcome) (now : string)
    (config_data : option TrainingConfig) (child : child_run) (s : server) :
  exit_code child <> 0%Z ->
  snd (pump_yields (readlines child)) = None ->
  run_state (exec (process_runner net now config_data child) s) =
    Failed (exit_code child) /\
  log_queue (exec (process_runner net now config_data child) s) =
    log_queue s ++ fst (pump_yields (readlines child)) ++
    [ "[ERROR] Evolution process failed with exit code " +:+ dec_Z (exit_code child) ] /\
  List.filter (startswith "[ERROR]")
    (fst (pump_yields (readlines child)) ++
     [ "[ERROR] Evolution process failed with exit code " +:+ dec_Z (exit_code child) ]) =
    [ "[ERROR] Evolution process failed with exit code " +:+ dec_Z (exit_code child) ] /\
  outbox (exec (process_runner net now config_data child) s) =
    outbox s ++ flat_map (posts_for now config_data) (fst (pump_yields (readlines child))) /\
  (forall p, In p (flat_map (posts_for now config_data)
                     (fst (pump_yields (readlines child)))) ->
     In ("X-Event-Type", "TRAINING_COMPLETE") (post_headers p)) /\
  ((forall y, In y (fst (pump_yields (readlines child))) ->
      contains "Evolution process completed" y = false) ->
   outbox (exec (process_runner net now config_data child) s) = outbox s).
Proof.
  intros Hrc Hpump.
  destruct (process_runner_spec net now config_data child s) as [lg Hrun].
  unfold exec. rewrite Hrun. cbn [snd].
  assert (Hy : run_yields child =
    (fst (pump_yields (readlines child)) ++ [failure_notice (exit_code child)], None)).
  { unfold run_yields, final_yields.
    destruct (pump_yields (readlines child)) as [ys e]; simpl in Hpump; subst e.
    destruct (Z.eqb_spec (exit_code child) 0); [contradiction | reflexivity]. }
  rewrite Hy. cbn [fst snd runner_notice].
  assert (Hposts : flat_map (posts_for now config_data)
      (fst (pump_yields (readlines child)) ++ [failure_notice (exit_code child)]) =
    flat_map (posts_for now config_data) (fst (pump_yields (readlines child)))).
  { rewrite flat_map_app. cbn [flat_map]. unfold posts_for at 2.
    rewrite failure_notice_no_completed. cbn. now rewrite app_nil_r. }
  rewrite Hposts.
  fold (failure_notice (exit_code child)).
  split; [|split; [|split; [|split; [|split]]]].
  - unfold run_state, grow; simpl. destruct (exit_code child); congruence.
  - unfold grow; simpl. now rewrite app_nil_r.
  - rewrite List.filter_app, filter_none; [reflexivity|].
    intros y Hin. apply tagged_not_error. eapply pump_yields_tagged; eauto.
  - reflexivity.
  - intros p Hin. apply in_flat_map in Hin as (y & _ & Hin).
    unfold posts_for in Hin.
    destruct (_ && _); [|destruct Hin]. destruct Hin as [<-|[]].
    simpl; tauto.
  - intros Hnone. unfold grow; simpl. rewrite flat_map_none; [apply app_nil_r|].
    intros y Hin. unfold posts_for, completed_phrase. now rewrite (Hnone y Hin).
Qed.


End Claims.

Lemma failed_run_witness :
  let s := exec (process_runner (H := Example.runtime) (fun _ => Response 200 (Return "ok"))
                   "2026-01-01T00:00:00" hooked crashed) initial_server in
  run_state s = Failed 1 /\
  log_queue s =
    [ "[STDOUT] Generation [1/2]: Avg Reward: 0.25, Best Reward: 0.3";
      "[METRIC_JSON] {" +:+ dquote +:+ "step" +:+ dquote +:+ ": 10, " +:+
         dquote +:+ "reward" +:+ dquote +:+ ": 0.2500, " +:+
         dquote +:+ "success_rate" +:+ dquote +:+ ": 0.3000, " +:+
         dquote +:+ "loss" +:+ dquote +:+ ": 0.7500}";
      "[STDOUT] Traceback (most recent call last):";
      "[ERROR] Evolution process failed with exit code 1" ] /\
  outbox s = [].
Proof.
  destruct (failed_run (H := Example.runtime) (fun _ => Response 200 (Return "ok"))
              "2026-01-01T00:00:00" hooked crashed initial_server
              ltac:(discriminate) eq_refl) as (Hstate & Hqueue & _ & Hout & _).
  split; [exact Hstate|]. split; [exact Hqueue | exact Hout].
Defined.

(** The claim of C4 as it stands fails: after a child that exits with code
    1, with a webhook URL configured, no POST has been made at all; and when
    a line makes [float] raise, the run ends on the notice of the exception,
    which cites no exit code. *)
Lemma failed_run_counterexample :
  outbox (exec (process_runner (H := Example.runtime) (fun _ => Response 200 (Return "ok"))
                  "2026-01-01T00:00:00" hooked crashed) initial_server) = [] /\
  log_queue (exec (process_runner (H := Example.runtime) (fun _ => Response 200 (Return "ok"))
                     "2026-01-01T00:00:00" hooked
                     (ChildRun [ "Generation [1/2]: Avg Reward: ., Best Reward: 1" +:+ Shim.nl ] 1))
               initial_server) =
    [ "[STDOUT] Generation [1/2]: Avg Reward: ., Best Reward: 1";
      "[ERROR] Exception in runner: could not convert string to float: '.'" ].
Proof. split; reflexivity. Qed.

End RunnerProperties.

(** ** Telemetry ingestion ([C10]) *)

Module TelemetryProperties.
Import Text Server Samples.

Section Claims.
Context `{PyRuntime}.

(** C10, as amended.  A telemetry request that [verify_service_key] lets
    through is answered "accepted" and publishes exactly one metric, whose
    payload has the four fields [step], [reward], [success_rate] and
    [loss]: [step] and [reward] as sent, the other two as found in
    [metrics], or [0.0] when the key is absent.  A raw [EXTERNAL] line is
    published before it exactly when [log_message] is present and not
    empty.  Nothing else changes. *)
Theorem telemetry_ingestion (x_service_key : option string)
    (data : ExternalTelemetry) (s : server) :
  eval (verify_service_key x_service_key) s = Return x_service_key ->
  telemetry_endpoint x_service_key data s =
    (Return (JObj [ ("status", JStr "accepted") ]),
     set_log_queue
       (log_queue s ++
        (match log_message data with
         | Some msg => if String.eqb msg "" then [] else [ "[EXTERNAL] " +:+ msg ]
         | None => []
         end) ++
        [ "[METRIC_JSON] " +:+
          json_dumps
            (JObj [ ("step", JInt (step data));
                    ("reward", JFloat (reward data));
                    ("success_rate",
                     default (JFloat 0.0) (metrics data !! "success_rate"));
                    ("loss", default (JFloat 0.0) (metrics data !! "loss")) ]) ])
       s).
Proof.
  unfold telemetry_endpoint, verify_service_key, eval, bind, gets, ingest_telemetry.
  destruct (truthy (integration_service_key s) && _); [discriminate|].
  intros _. unfold ret, truthy.
  destruct (log_message data) as [msg|]; [destruct (String.eqb msg "")|];
    unfold bind, ret, queue_put, modify; destruct s; simpl;
    rewrite <- ?app_assoc; reflexivity.
Qed.

End Claims.

Lemma telemetry_ingestion_witness :
  telemetry_endpoint (H := Example.runtime) (Some "k3y")
    (sample_telemetry (Some "epoch done")) keyed_server =
  (Return (JObj [ ("status", JStr "accepted") ]),
   set_log_queue [ "[EXTERNAL] epoch done"; sample_metric ] keyed_server).
Proof.
  exact (eq_trans
           (telemetry_ingestion (H := Example.runtime) (Some "k3y")
              (sample_telemetry (Some "epoch done")) keyed_server eq_refl)
           eq_refl).
Defined.

(** The claim of C10 as it stands fails on a request whose [log_message]
    is present and empty: only the metric is published. *)
Lemma telemetry_counterexample :
  log_message (sample_telemetry (Some "")) = Some "" /\
  log_queue (exec (telemetry_endpoint (H := Example.runtime) (Some "k3y")
                     (sample_telemetry (Some ""))) keyed_server) =
    [ sample_metric ].
Proof. split; reflexivity. Qed.

End TelemetryProperties.

(** ** The fallback simulator ([C9]) *)

Module ShimProperties.
Import Text Re Metric TextFacts ReFacts MetricFacts DecimalFacts Shim Samples.

Lemma split_lines_plain (s : string) :
  all_chars is_dot s = true -> split_lines s = [s].
Proof.
  induction s as [|c s IH]; simpl; [reflexivity|].
  intros Hs. apply andb_prop in Hs as [Hc Hs].
  unfold is_dot in Hc. destruct (Ascii.eqb c "010"); [discriminate|].
  now rewrite (IH Hs).
Qed.

(** A line without the first character of one of the pattern's literals,
    and without a newline, is one line that the pattern does not match. *)
Lemma plain_line (a : ascii) (l s : string) :
  In (Lit (String a l)) metric_pattern ->
  all_chars (plain a) s = true ->
  split_lines s = [s] /\ metric_groups s = None.
Proof.
  intros Hin Hs. split.
  - apply split_lines_plain. eapply all_chars_impl; [|exact Hs].
    intros c Hc. unfold plain in Hc. now apply andb_prop in Hc as [_ Hc].
  - apply (metric_groups_without _ _ Hin).
    apply contains_head_absent.
    eapply all_chars_impl; [|exact Hs].
    intros c Hc. unfold plain in Hc. now apply andb_prop in Hc as [Hc _].
Qed.

Lemma digit_plain (a c : ascii) :
  is_digit a = false -> is_digit c = true -> plain a c = true.
Proof.
  intros Ha Hc. unfold plain.
  rewrite (digit_not a c Ha Hc).
  revert Hc. destruct c as [[] [] [] [] [] [] [] []]; vm_compute; congruence.
Qed.

Lemma dec_N_plain (a : ascii) (n : N) :
  is_digit a = false -> all_chars (plain a) (dec_N n) = true.
Proof.
  intros Ha. eapply all_chars_impl; [|apply dec_N_digits].
  intros c. now apply digit_plain.
Qed.

Lemma dec_Z_plain (a : ascii) (z : Z) :
  is_digit a = false -> plain a "-" = true -> all_chars (plain a) (dec_Z z) = true.
Proof.
  intros Ha Hm. apply dec_Z_chars; [|exact Hm].
  intros c. now apply digit_plain.
Qed.

Lemma pad4_plain (a : ascii) (n : N) :
  is_digit a = false -> all_chars (plain a) (pad4 n) = true.
Proof.
  intros Ha. unfold pad4. pose proof (dec_N_plain a n Ha) as Hn.
  destruct (String.length (dec_N n)) as [|[|[|[|k]]]]; try exact Hn;
    rewrite all_chars_app, Hn, andb_true_r;
    cbn [all_chars]; rewrite !(digit_plain a "0" Ha eq_refl); reflexivity.
Qed.

(** [f"{x:.4f}"] never prints a [G] or a newline. *)
Lemma format_4f_plain (x : float) : all_chars (plain "G") (format_4f x) = true.
Proof.
  unfold format_4f. destruct (Prim2SF x) as [[]|[]| |[] m e]; try reflexivity;
    rewrite !all_chars_app, dec_N_plain, pad4_plain by reflexivity; reflexivity.
Qed.

Lemma numeral_spec (s : string) :
  numeral s = true -> s <> "" /\ all_chars is_numchar s = true.
Proof.
  unfold numeral. intros Hn. apply andb_prop in Hn as [Hne Hs].
  split; [|exact Hs]. intros ->. discriminate Hne.
Qed.

Lemma currents_start : In 0.2%float currents.
Proof. left; reflexivity. Qed.

Lemma currents_closed (cb : float) : In cb currents -> In (best_reward cb) currents.
Proof.
  unfold currents. intros Hin.
  repeat (destruct Hin as [<-|Hin];
          [vm_compute; repeat (first [left; reflexivity | right])|]).
  destruct Hin.
Qed.

Lemma currents_numeral (cb : float) :
  In cb currents ->
  numeral (format_4f (avg_reward cb)) = true /\
  numeral (format_4f (best_reward cb)) = true.
Proof.
  unfold currents. intros Hin.
  repeat (destruct Hin as [<-|Hin]; [split; vm_compute; reflexivity|]).
  destruct Hin.
Qed.

Lemma numchar_is_dot (c : ascii) : is_numchar c = true -> is_dot c = true.
Proof. destruct c as [[] [] [] [] [] [] [] []]; vm_compute; congruence. Qed.

Lemma digit_is_dot (c : ascii) : is_digit c = true -> is_dot c = true.
Proof. intros Hc. apply numchar_is_dot, digit_numchar, Hc. Qed.

(** The progress line of a round is one line, and the pattern reads its
    four groups. *)
Lemma generation_line_groups (g gens : Z) (cb : float) :
  (0 < g)%Z -> (0 < gens)%Z -> In cb currents ->
  split_lines (generation_line g gens cb) = [generation_line g gens cb] /\
  metric_groups (generation_line g gens cb) =
    Some (dec_Z g, dec_Z gens, format_4f (avg_reward cb), format_4f (best_reward cb)).
Proof.
  intros Hg Hgens Hcb.
  destruct (currents_numeral cb Hcb) as [Ha Hb].
  apply numeral_spec in Ha as [Hae Han], Hb as [Hbe Hbn].
  rewrite (dec_Z_nonneg g), (dec_Z_nonneg gens) by lia.
  unfold generation_line. rewrite (dec_Z_nonneg g), (dec_Z_nonneg gens) by lia.
  split.
  - apply split_lines_plain.
    rewrite !all_chars_app.
    rewrite (all_chars_impl _ _ _ digit_is_dot (dec_N_digits _)).
    rewrite (all_chars_impl _ _ _ digit_is_dot (dec_N_digits (Z.to_N gens))).
    rewrite (all_chars_impl _ _ _ numchar_is_dot Han).
    rewrite (all_chars_impl _ _ _ numchar_is_dot Hbn).
    reflexivity.
  - rewrite <- (append_nil_r (format_4f (best_reward cb))) at 1.
    apply (metric_groups_template ""
             (dec_N (Z.to_N g)) (dec_N (Z.to_N gens))
             (format_4f (avg_reward cb)) (format_4f (best_reward cb)) "");
      auto using dec_N_nonempty, dec_N_digits.
    exact I.
Qed.


Lemma matches_print (text : string) (rest : list effect) :
  matches (Print text :: rest) = omap metric_groups (split_lines text) ++ matches rest.
Proof. unfold matches, stdout_lines. cbn [flat_map]. apply omap_app. Qed.

Lemma omap_cons_none {A B : Type} (f : A -> option B) (x : A) (l : list A) :
  f x = None -> omap f (x :: l) = omap f l.
Proof. intros Hx. cbn. now rewrite Hx. Qed.

Lemma omap_cons_some {A B : Type} (f : A -> option B) (x : A) (y : B) (l : list A) :
  f x = Some y -> omap f (x :: l) = y :: omap f l.
Proof. intros Hx. cbn. now rewrite Hx. Qed.

Lemma matches_plain_print (a : ascii) (l text : string) (rest : list effect) :
  In (Lit (String a l)) metric_pattern ->
  all_chars (plain a) text = true -> matches (Print text :: rest) = matches rest.
Proof.
  intros Hin Ht. destruct (plain_line a l text Hin Ht) as [Hs Hm].
  now rewrite matches_print, Hs, (omap_cons_none _ _ _ Hm).
Qed.

Lemma matches_agents (pop_size : Z) (cb : float) (r : nat -> float) (ids : list nat)
    (rest : list effect) :
  matches (map (fun i => Print (agent_line pop_size cb (r i) i)) ids ++ rest) =
    matches rest.
Proof.
  induction ids as [|i ids IH]; [reflexivity|].
  cbn [map]. rewrite <- app_comm_cons.
  rewrite (matches_plain_print "G" "eneration"); [exact IH | simpl; tauto|].
  unfold agent_line. rewrite !all_chars_app.
  rewrite !dec_Z_plain, format_4f_plain by reflexivity. reflexivity.
Qed.

Lemma metric_groups_empty : metric_groups "" = None.
Proof. reflexivity. Qed.

(** The loop prints, for the pattern, one line a round. *)
Lemma generations_loop_matches (n : nat) (g gens pop_size : Z) (cb : float)
    (rnd : nat -> float) (calls : nat) :
  (0 < g)%Z -> (0 < gens)%Z -> In cb currents ->
  matches (generations_loop n g gens pop_size cb rnd calls) =
    expected_groups n g gens cb.
Proof.
  revert g cb calls; induction n as [|n IH]; intros g cb calls Hg Hgens Hcb;
    [reflexivity|].
  cbn [generations_loop expected_groups].
  rewrite matches_print.
  change (nl +:+ ?t) with (String "010" t). cbn [split_lines].
  rewrite Ascii.eqb_refl.
  destruct (plain_line "A" "vg Reward:"
              ("--- Starting Generation " +:+ dec_Z g +:+ " ---")) as [Hs Hm].
  { simpl; tauto. }
  { rewrite !all_chars_app, dec_Z_plain by reflexivity. reflexivity. }
  rewrite Hs, (omap_cons_none _ _ _ metric_groups_empty), (omap_cons_none _ _ _ Hm).
  cbn [omap list_omap app].
  rewrite (matches_agents pop_size cb (fun i => rnd (calls + i - 1)%nat)).
  destruct (generation_line_groups g gens cb Hg Hgens Hcb) as [Hs' Hm'].
  rewrite matches_print, Hs', (omap_cons_some _ _ _ _ Hm').
  cbn [omap list_omap app]. f_equal.
  apply IH; auto using currents_closed; lia.
Qed.






End ShimProperties.

(** ** What the pattern captures, and when the pump raises *)

Module GroupFacts.
Import Text Re Metric TextFacts ReFacts DecimalFacts.








End GroupFacts.

Module PumpProperties.
Import Text Re Metric TextFacts ReFacts DecimalFacts GroupFacts.
Import EvolutionService Trace Samples.



Section WithRuntime.
Context `{PyRuntime}.



End WithRuntime.


End PumpProperties.

(** ** What a whole run publishes *)

Module RunProperties.
Import Text Metric EvolutionService Server WebhookService Trace Samples.
Import ListFacts TextFacts DecimalFacts WebhookProperties RunnerProperties.

Section WithRuntime.
Context `{PyRuntime}.

Lemma line_yields_raw (line : string) :
  List.filter (startswith "[STDOUT] ") (fst (line_yields line)) =
    map raw_log (List.filter nonempty [line]).
Proof.
  unfold nonempty, raw_log.
  destruct (line_yields_cases line)
    as [Hl | [[e Hl] | (gen & total & avg & best & p & _ & _ & Hl)]].
  - rewrite Hl. unfold line_yields in Hl. cbn [List.filter].
    destruct (String.eqb line ""); [reflexivity|].
    destruct (metric_groups (strip line)) as [[[[? ?] ?] ?]|];
      [destruct (metric_payload _ _ _)|]; discriminate.
  - rewrite Hl. unfold line_yields in Hl. cbn [List.filter].
    destruct (String.eqb line ""); [discriminate|].
    cbn [fst List.filter negb map]. now rewrite startswith_app.
  - rewrite Hl. unfold line_yields in Hl. cbn [List.filter].
    destruct (String.eqb line ""); [discriminate|].
    cbn [fst List.filter negb map]. rewrite startswith_app.
    reflexivity.
Qed.

Lemma pump_yields_raw (lines : list string) :
  snd (pump_yields lines) = None ->
  List.filter (startswith "[STDOUT] ") (fst (pump_yields lines)) =
    map raw_log (List.filter nonempty lines).
Proof.
  induction lines as [|line rest IH]; [reflexivity|].
  destruct (pump_yields_cons line rest) as [(e & _ & ->) | (_ & ->)]; cbn [fst snd];
    [discriminate|].
  intros Hrest. rewrite List.filter_app, (IH Hrest), line_yields_raw.
  change (line :: rest) with ([line] ++ rest).
  now rewrite List.filter_app, map_app.
Qed.


(** A run whose output was read to its end yields the final notice. *)
Lemma run_yields_complete (child : child_run) :
  snd (pump_yields (readlines child)) = None ->
  run_yields child =
    (fst (pump_yields (readlines child)) ++ final_yields (exit_code child), None).
Proof.
  unfold run_yields. destruct (pump_yields (readlines child)) as [ys e].
  cbn [fst snd]. now intros ->.
Qed.


(** X3.  When the pump reads the child's output to its end, every read
    that is not empty is published as a raw log, [[STDOUT]] and the
    stripped line, once and in the order of the reads: among what the
    runner publishes, the raw logs are exactly those of the non-empty
    reads. *)
Theorem raw_logs_complete (net : nat -> net_outcome) (now : string)
    (config_data : option TrainingConfig) (child : child_run) (s : server) :
  snd (pump_yields (readlines child)) = None ->
  exists emitted,
    log_queue (exec (process_runner net now config_data child) s) =
      log_queue s ++ emitted /\
    List.filter (startswith "[STDOUT] ") emitted =
      map (fun line => "[STDOUT] " +:+ strip line)
        (List.filter (fun line => negb (String.eqb line "")) (readlines child)).
Proof.
  intros Hpump.
  destruct (process_runner_spec net now config_data child s) as [lg Hrun].
  eexists. split.
  { unfold exec. rewrite Hrun. reflexivity. }
  rewrite (run_yields_complete child Hpump). cbn [fst snd runner_notice].
  rewrite app_nil_r, List.filter_app, (pump_yields_raw _ Hpump).
  unfold final_yields.
  destruct (exit_code child =? 0)%Z; cbn [List.filter]; apply app_nil_r.
Qed.

(** X4.  When the child exits with code 0 and the pump has read its whole
    output, the run is completed and the runner has published what the
    pump yielded and then the two notices of success.  With a webhook URL
    configured it has made, after the POSTs of the yielded lines, one
    [TRAINING_COMPLETE] POST for the first notice, and without one no POST
    for it; so when nothing that the pump yielded holds "Evolution process
    completed", the run makes exactly one POST with a URL and none
    without. *)
Theorem successful_run (net : nat -> net_outcome) (now : string)
    (config_data : option TrainingConfig) (child : child_run) (s : server) :
  exit_code child = 0%Z ->
  snd (pump_yields (readlines child)) = None ->
  let s' := exec (process_runner net now config_data child) s in
  run_state s' = Completed /\
  log_queue s' =
    log_queue s ++ fst (pump_yields (readlines child)) ++
    [ "[SYSTEM] Evolution process completed successfully.";
      "[SYSTEM] Best agent saved to workspace/outputs/best_agent.pt" ] /\
  outbox s' =
    outbox s ++
    flat_map (posts_for now config_data) (fst (pump_yields (readlines child))) ++
    (if truthy (config_get external_api_url config_data)
     then [ completion_post now config_data ] else []) /\
  ((forall y, In y (fst (pump_yields (readlines child))) ->
      contains "Evolution process completed" y = false) ->
   outbox s' =
     outbox s ++
     (if truthy (config_get external_api_url config_data)
      then [ completion_post now config_data ] else [])).
Proof.
  intros Hrc Hpump s'. subst s'.
  destruct (process_runner_spec net now config_data child s) as [lg Hrun].
  unfold exec. rewrite Hrun. cbn [snd].
  rewrite (run_yields_complete child Hpump), Hrc.
  cbn [fst snd runner_notice final_yields Z.eqb].
  assert (Hposts : flat_map (posts_for now config_data)
      [ "[SYSTEM] Evolution process completed successfully.";
        "[SYSTEM] Best agent saved to workspace/outputs/best_agent.pt" ] =
    if truthy (config_get external_api_url config_data)
    then [ completion_post now config_data ] else []).
  { cbn [flat_map]. unfold posts_for, completed_phrase.
    change (contains "Evolution process completed"
              "[SYSTEM] Evolution process completed successfully.") with true.
    change (contains "Evolution process completed"
              "[SYSTEM] Best agent saved to workspace/outputs/best_agent.pt") with false.
    cbn [andb]. rewrite app_nil_r.
    destruct (truthy _); reflexivity. }
  rewrite flat_map_app, Hposts.
  split; [|split; [|split]].
  - reflexivity.
  - unfold grow; simpl. now rewrite app_nil_r.
  - reflexivity.
  - intros Hnone. unfold grow; simpl. rewrite flat_map_none; [reflexivity|].
    intros y Hin. unfold posts_for, completed_phrase. now rewrite (Hnone y Hin).
Qed.

(** X5.  Without a webhook URL in the configuration (none, or the empty
    string), the runner makes no POST, whatever the child prints and
    however it ends. *)
Theorem no_url_no_post (net : nat -> net_outcome) (now : string)
    (config_data : option TrainingConfig) (child : child_run) (s : server) :
  truthy (config_get external_api_url config_data) = false ->
  outbox (exec (process_runner net now config_data child) s) = outbox s.
Proof.
  intros Hurl.
  destruct (process_runner_spec net now config_data child s) as [lg Hrun].
  unfold exec. rewrite Hrun. cbn [snd]. unfold grow; simpl.
  rewrite flat_map_none; [apply app_nil_r|].
  intros y _. unfold posts_for. now rewrite Hurl, andb_false_r.
Qed.


End WithRuntime.

Lemma raw_logs_complete_witness :
  exists emitted,
    log_queue (exec (process_runner (H := Example.runtime)
                       (fun _ => Response 200 (Return "ok"))
                       "2026-01-01T00:00:00" hooked crashed) initial_server) =
      [] ++ emitted /\
    List.filter (startswith "[STDOUT] ") emitted =
      [ "[STDOUT] Generation [1/2]: Avg Reward: 0.25, Best Reward: 0.3";
        "[STDOUT] Traceback (most recent call last):" ].
Proof.
  apply (raw_logs_complete (H := Example.runtime) (fun _ => Response 200 (Return "ok"))
           "2026-01-01T00:00:00" hooked crashed initial_server).
  reflexivity.
Defined.

Lemma successful_run_witness :
  let s' := exec (process_runner (H := Example.runtime)
                    (fun _ => Response 200 (Return "ok")) "2026-01-01T00:00:00" hooked
                    (ChildRun [ "Generation [1/1]: Avg Reward: 0.25, Best Reward: 0.3" +:+ Shim.nl ] 0))
                 initial_server in
  run_state s' = Completed /\ length (log_queue s') = 4 /\
  outbox s' = [ completion_post "2026-01-01T00:00:00" hooked ].
Proof.
  destruct (successful_run (H := Example.runtime)
              (fun _ => Response 200 (Return "ok")) "2026-01-01T00:00:00" hooked
              (ChildRun [ "Generation [1/1]: Avg Reward: 0.25, Best Reward: 0.3" +:+ Shim.nl ] 0)
              initial_server eq_refl eq_refl) as (Hstate & Hqueue & Hout & _).
  split; [exact Hstate|]. split; [now rewrite Hqueue | exact Hout].
Defined.

Lemma no_url_no_post_witness :
  outbox (exec (process_runner (H := Example.runtime)
                  (fun _ => Response 200 (Return "ok")) "2026-01-01T00:00:00" None crashed)
            initial_server) = [].
Proof.
  apply (no_url_no_post (H := Example.runtime)
           (fun _ => Response 200 (Return "ok")) "2026-01-01T00:00:00" None crashed
           initial_server).
  reflexivity.
Defined.


End RunProperties.

(** ** The service key *)

Module AccessProperties.
Import Text Server Samples.

Lemma verify_cases (x : option string) (s : server) :
  (truthy (integration_service_key s) = true /\ x <> integration_service_key s /\
   verify_service_key x s = (Raise unauthorized, s)) \/
  ((truthy (integration_service_key s) = false \/ x = integration_service_key s) /\
   verify_service_key x s = (Return x, s)).
Proof.
  unfold verify_service_key, bind, gets.
  destruct (truthy (integration_service_key s)) eqn:Hk; cbn [andb].
  - destruct (bool_decide_reflect (x = integration_service_key s)) as [Heq|Hne]; cbn [negb].
    + right. split; [now right | reflexivity].
    + left. auto.
  - right. split; [now left | reflexivity].
Qed.

Section WithRuntime.
Context `{PyRuntime}.

Lemma ingest_telemetry_returns (data : ExternalTelemetry) (s : server) :
  eval (ingest_telemetry data) s = Return (JObj [ ("status", JStr "accepted") ]).
Proof.
  unfold ingest_telemetry, eval, bind. destruct (truthy (log_message data)); reflexivity.
Qed.

(** X7.  The two integration endpoints answer 401 "Invalid Service Key"
    exactly when a key is configured, and not empty, and the request's
    header is missing or differs from it: with no key configured every
    request passes, with or without a header.  A telemetry request is
    answered 401 or accepted, nothing else, and a request that either
    endpoint refuses (401, or 409 for a job) leaves the server as it was:
    nothing is published. *)
Theorem service_key_gate (x_service_key : option string) (data : ExternalTelemetry)
    (request : ExternalJobRequest) (s : server) :
  (eval (telemetry_endpoint x_service_key data) s = Raise unauthorized <->
   truthy (integration_service_key s) = true /\
   x_service_key <> integration_service_key s) /\
  (eval (job_endpoint x_service_key request) s = Raise unauthorized <->
   truthy (integration_service_key s) = true /\
   x_service_key <> integration_service_key s) /\
  (eval (telemetry_endpoint x_service_key data) s = Raise unauthorized \/
   eval (telemetry_endpoint x_service_key data) s =
     Return (JObj [ ("status", JStr "accepted") ])) /\
  (forall e, eval (telemetry_endpoint x_service_key data) s = Raise e ->
     exec (telemetry_endpoint x_service_key data) s = s) /\
  (forall e, eval (job_endpoint x_service_key request) s = Raise e ->
     exec (job_endpoint x_service_key request) s = s).
Proof.
  pose proof (ingest_telemetry_returns data s) as Hin.
  unfold telemetry_endpoint, job_endpoint, eval, exec, bind in *.
  destruct (verify_cases x_service_key s) as [(Hk & Hne & ->) | (Hok & ->)].
  - cbn [fst snd]. repeat split; auto.
  - cbn [fst snd].
    assert (Hno : ~ (truthy (integration_service_key s) = true /\
                     x_service_key <> integration_service_key s)).
    { intros [Hk Hne]. destruct Hok; congruence. }
    assert (Hjob : forall e, fst (trigger_job request s) = Raise e ->
                     e <> unauthorized /\ snd (trigger_job request s) = s).
    { unfold trigger_job, bind, gets. destruct (running (process s)); cbn.
      - intros e [= <-]. split; [discriminate | reflexivity].
      - discriminate. }
    destruct (ingest_telemetry data s) as [r s1]; cbn [fst snd] in *. subst r.
    split; [|split; [|split; [|split]]].
    + split; [discriminate | tauto].
    + split; [|tauto].
      destruct (trigger_job request s) as [[j|e] s2] eqn:Ht; cbn [fst snd];
        [discriminate|].
      intros [= ->]. now destruct (Hjob unauthorized eq_refl).
    + now right.
    + discriminate.
    + intros e He. destruct (trigger_job request s) as [[j|e'] s2] eqn:Ht;
        cbn [fst snd] in *; [discriminate|].
      now destruct (Hjob e' eq_refl).
Qed.

End WithRuntime.
End AccessProperties.

(** ** Starting again *)

Module RestartProperties.
Import Text EvolutionService Server Trace Samples RunnerProperties RunProperties.

(** An idle server accepts [start_training] and schedules the run. *)
Lemma start_training_idle (now : string) (s : server) :
  running (process s) = false ->
  start_training now s =
    (Return started,
     set_tasks (tasks s ++ start_tasks now (current_training_config s)) s).
Proof.
  intros Hrun. unfold start_training, bind, gets. rewrite Hrun.
  unfold start_tasks, add_task, modify, ret, started.
  destruct (current_training_config s) as [c|] eqn:Hc;
    [destruct (truthy (external_api_url c))|];
    destruct s; simpl in *; subst; rewrite <- ?app_assoc; reflexivity.
Qed.

(** X8.  [trigger_job] starts nothing: whether it answers "queued" or
    "Busy", the process handle, the scheduled tasks, the POSTs made and the
    stored configuration are as before, and the [config_overrides] of the
    request have no effect at all.  On an idle server it answers "queued"
    with the task's id and publishes one [[SYSTEM]] notice. *)
Theorem trigger_job_starts_nothing (request : ExternalJobRequest) (s : server) :
  let s' := exec (trigger_job request) s in
  process s' = process s /\ tasks s' = tasks s /\ outbox s' = outbox s /\
  current_training_config s' = current_training_config s /\
  (forall overrides,
     trigger_job {| task_id := task_id request; config_overrides := overrides |} s =
     trigger_job request s) /\
  (running (process s) = false ->
   eval (trigger_job request) s =
     Return (JObj [ ("status", JStr "queued"); ("job_id", JStr (task_id request)) ]) /\
   log_queue s' =
     log_queue s ++ [ "[SYSTEM] External Job Triggered: " +:+ task_id request ]).
Proof.
  unfold trigger_job, exec, eval, bind, gets.
  destruct (running (process s)); destruct s; cbn; repeat split; auto; discriminate.
Qed.


Section WithRuntime.
Context `{PyRuntime}.

(** X10.  Once the runner has read the child's output to its end, the
    handle holds the child's exit code, zero or not, and the next
    [start_training] is accepted. *)
Theorem restart_after_run (net : nat -> net_outcome) (now now' : string)
    (config_data : option TrainingConfig) (child : child_run) (s : server) :
  snd (pump_yields (readlines child)) = None ->
  let s1 := exec (process_runner net now config_data child) s in
  process s1 = Some (Popen (Some (exit_code child))) /\
  start_training now' s1 =
    (Return started,
     set_tasks (tasks s ++ start_tasks now' (current_training_config s)) s1).
Proof.
  intros Hpump s1.
  assert (H1 : process s1 = Some (Popen (Some (exit_code child))) /\
               tasks s1 = tasks s /\
               current_training_config s1 = current_training_config s).
  { subst s1. destruct (process_runner_spec net now config_data child s) as [lg Hrun].
    unfold exec. rewrite Hrun. rewrite (run_yields_complete child Hpump).
    destruct s; cbn. auto. }
  destruct H1 as (Hp & Ht & Hc). split; [exact Hp|].
  rewrite (start_training_idle now' s1); [now rewrite Ht, Hc|].
  now rewrite Hp.
Qed.

End WithRuntime.

Lemma restart_after_run_witness :
  let s1 := exec (process_runner (H := Example.runtime)
                    (fun _ => Response 200 (Return "ok")) "2026-01-01T00:00:00"
                    hooked crashed) initial_server in
  process s1 = Some (Popen (Some 1%Z)) /\
  start_training "2026-01-01T00:05:00" s1 =
    (Return started,
     set_tasks ([] ++ [ ProcessRunnerTask None ]) s1).
Proof.
  apply (restart_after_run (H := Example.runtime)
           (fun _ => Response 200 (Return "ok")) "2026-01-01T00:00:00"
           "2026-01-01T00:05:00" hooked crashed initial_server).
  reflexivity.
Defined.

End RestartProperties.

(** ** The frame of a metric *)

Module FrameProperties.
Import Text Server TextFacts Samples.

Lemma remove_all_fuel_absent (l s : string) (fuel : nat) :
  contains l s = false -> String.length s < fuel ->
  remove_all_fuel fuel l s = s.
Proof.
  revert fuel; induction s as [|c s IH]; intros fuel Hc Hf;
    (destruct fuel as [|fuel]; [simpl in Hf; lia|]); cbn [remove_all_fuel];
    pose proof (contains_false_startswith _ _ Hc) as Hs; unfold startswith in Hs.
  - now destruct (drop_prefix l "").
  - destruct (drop_prefix l (String c s)); [discriminate|].
    f_equal. apply IH; [|simpl in Hf; lia].
    cbn [contains] in Hc. now apply orb_false_elim in Hc as [_ ?].
Qed.

(** [(l + s).replace(l, "")] is [s] when [l] does not occur in [s]. *)
Lemma remove_all_prefix (l s : string) :
  l <> "" -> contains l s = false -> remove_all l (l +:+ s) = s.
Proof.
  intros Hl Hc. unfold remove_all. cbn [remove_all_fuel].
  rewrite drop_prefix_app. apply remove_all_fuel_absent; [exact Hc|].
  destruct l as [|a l]; [congruence|]. cbn [String.append String.length].
  clear. induction l as [|b l IH]; cbn [String.append String.length]; lia.
Qed.

(** X11.  A queue item made of [[METRIC_JSON]], a space and a payload in
    which the marker does not occur is sent to the client at level
    [METRIC], with the message [[METRIC]], a space and the payload
    stripped of surrounding whitespace. *)
Theorem metric_frame (payload rid : string) :
  contains "[METRIC_JSON]" payload = false ->
  frame_of ("[METRIC_JSON] " +:+ payload) rid =
    WsFrame "now" "METRIC" ("[METRIC] " +:+ strip payload) rid.
Proof.
  intros Hc. unfold frame_of.
  change ("[METRIC_JSON] " +:+ payload) with ("[METRIC_JSON]" +:+ (" " +:+ payload)).
  rewrite startswith_app, remove_all_prefix; [reflexivity | discriminate |].
  cbn [String.append contains]. rewrite Hc. reflexivity.
Qed.

Lemma metric_frame_witness :
  frame_of sample_metric "00c0ffee" =
    WsFrame "now" "METRIC"
      ("[METRIC] " +:+ strip (Example.json_dumps
         (JObj [ ("step", JInt 40); ("reward", JFloat 0.8);
                 ("success_rate", JFloat 0.9); ("loss", JFloat 0.2) ])))
      "00c0ffee".
Proof.
  apply (metric_frame
           (Example.json_dumps
              (JObj [ ("step", JInt 40); ("reward", JFloat 0.8);
                      ("success_rate", JFloat 0.9); ("loss", JFloat 0.2) ]))
           "00c0ffee").
  reflexivity.
Defined.

End FrameProperties.

(** ** The simulator under the runner *)

Module StripFacts.
Import Text TextFacts.

Lemma lstrip_chars (p : ascii -> bool) (s : string) :
  all_chars p s = true -> all_chars p (lstrip s) = true.
Proof.
  induction s as [|c s IH]; cbn [lstrip]; [trivial|].
  destruct (is_space c); [|trivial].
  cbn [all_chars]. intros Hs. apply andb_prop in Hs as [_ Hs]. auto.
Qed.

Lemma rstrip_chars (p : ascii -> bool) (s : string) :
  all_chars p s = true -> all_chars p (rstrip s) = true.
Proof.
  induction s as [|c s IH]; cbn [rstrip all_chars]; [trivial|].
  intros Hs. apply andb_prop in Hs as [Hc Hs]. specialize (IH Hs).
  destruct (rstrip s) as [|d r].
  - destruct (is_space c); cbn [all_chars]; [reflexivity | now rewrite Hc].
  - cbn [all_chars] in *. now rewrite Hc, IH.
Qed.

Lemma strip_chars (p : ascii -> bool) (s : string) :
  all_chars p s = true -> all_chars p (strip s) = true.
Proof. intros Hs. now apply rstrip_chars, lstrip_chars. Qed.

Lemma rstrip_newline (s : string) : rstrip (s +:+ Shim.nl) = rstrip s.
Proof.
  induction s as [|c s IH]; [reflexivity|].
  cbn [String.append rstrip]. now rewrite IH.
Qed.

Lemma rstrip_nonspace (b : string) :
  all_chars nonspace b = true -> rstrip b = b.
Proof.
  induction b as [|c b IH]; cbn [all_chars rstrip]; [trivial|].
  intros Hb. apply andb_prop in Hb as [Hc Hb]. rewrite (IH Hb).
  unfold nonspace in Hc. destruct (is_space c); [discriminate|].
  now destruct b.
Qed.

Lemma rstrip_keep (a b : string) :
  b <> "" -> all_chars nonspace b = true -> rstrip (a +:+ b) = a +:+ b.
Proof.
  intros Hne Hb. induction a as [|c a IH]; cbn [String.append rstrip].
  - now apply rstrip_nonspace.
  - rewrite IH. destruct (a +:+ b) eqn:Hab; [|reflexivity].
    destruct a; [cbn in Hab; congruence | discriminate].
Qed.

Lemma numchar_nonspace (c : ascii) : is_numchar c = true -> nonspace c = true.
Proof. destruct c as [[] [] [] [] [] [] [] []]; vm_compute; congruence. Qed.

End StripFacts.

Module SimulatedRun.
Import Text Re Metric TextFacts ReFacts MetricFacts DecimalFacts.
Import EvolutionService Server Trace Shim ConfigTranslator ShimMain Samples.
Import ShimProperties RunnerProperties RunProperties StripFacts.

Lemma plain_not_char (a : ascii) (s : string) :
  all_chars (plain a) s = true -> all_chars (fun c => negb (Ascii.eqb a c)) s = true.
Proof.
  apply all_chars_impl. intros c Hc. unfold plain in Hc.
  now apply andb_prop in Hc as [Hc _].
Qed.

Lemma currents_float_syntax (cb : float) :
  In cb currents ->
  float_syntax (format_4f (avg_reward cb)) = true /\
  float_syntax (format_4f (best_reward cb)) = true.
Proof.
  unfold currents. intros Hin.
  repeat (destruct Hin as [<-|Hin]; [split; vm_compute; reflexivity|]).
  destruct Hin.
Qed.

Section WithRuntime.
Context `{PyRuntime}.

(** A printed line without the first character of one of the pattern's
    literals is read as a raw log and nothing else. *)
Lemma quiet_line (a : ascii) (lit l : string) :
  In (Lit (String a lit)) metric_pattern ->
  all_chars (plain a) l = true ->
  line_yields (l +:+ nl) = (["[STDOUT] " +:+ strip (l +:+ nl)], None).
Proof.
  intros Hin Hl. unfold line_yields.
  assert (Hne : String.eqb (l +:+ nl) "" = false) by now destruct l.
  rewrite Hne.
  assert (Hm : metric_groups (strip (l +:+ nl)) = None).
  { apply (metric_groups_without _ _ Hin).
    apply contains_head_absent, strip_chars.
    rewrite all_chars_app, (plain_not_char _ _ Hl). cbn [nl all_chars].
    assert (Ha : plain a "010" = false) by (unfold plain; apply andb_false_r).
    destruct (Ascii.eqb_spec a "010") as [->|Hne']; [|reflexivity].
    exfalso. clear -Hin. cbn in Hin.
    repeat (destruct Hin as [Hin|Hin]; [discriminate Hin|]). exact Hin. }
  now rewrite Hm.
Qed.

Lemma strip_generation_line (g gens : Z) (cb : float) :
  In cb currents ->
  strip (generation_line g gens cb +:+ nl) = generation_line g gens cb.
Proof.
  intros Hcb. unfold strip.
  assert (Hl : lstrip (generation_line g gens cb +:+ nl) = generation_line g gens cb +:+ nl)
    by reflexivity.
  rewrite Hl, rstrip_newline. unfold generation_line.
  destruct (currents_numeral cb Hcb) as [_ Hb].
  apply numeral_spec in Hb as [Hbe Hbn].
  rewrite <- !append_assoc. apply rstrip_keep; [exact Hbe|].
  eapply all_chars_impl; [exact numchar_nonspace | exact Hbn].
Qed.

Lemma generation_line_yields (g gens : Z) (cb : float) :
  (0 < g)%Z -> (0 < gens)%Z -> In cb currents ->
  line_yields (generation_line g gens cb +:+ nl) =
    (["[STDOUT] " +:+ generation_line g gens cb; round_metric g cb], None).
Proof.
  intros Hg Hgens Hcb. unfold line_yields.
  assert (Hne : String.eqb (generation_line g gens cb +:+ nl) "" = false) by reflexivity.
  rewrite Hne, (strip_generation_line g gens cb Hcb).
  destruct (generation_line_groups g gens cb Hg Hgens Hcb) as [_ ->].
  destruct (currents_float_syntax cb Hcb) as [Ha Hb].
  unfold metric_payload, int_of_group, float_of_group.
  rewrite (dec_Z_nonneg g), int_of_dec_N, Ha, Hb by lia.
  rewrite Z2N.id by lia. reflexivity.
Qed.

Lemma pumped_nil : pumped [] = Some [].
Proof. reflexivity. Qed.

Lemma pumped_raw (line raw : string) (rest : list string) :
  line_yields line = (["[STDOUT] " +:+ raw], None) ->
  pumped (line :: rest) = pumped rest.
Proof.
  intros Hl. unfold pumped. cbn [pump_yields]. rewrite Hl.
  destruct (pump_yields rest) as [zs [e|]]; reflexivity.
Qed.

Lemma pumped_metric (line raw m : string) (rest : list string) :
  line_yields line = (["[STDOUT] " +:+ raw; "[METRIC_JSON] " +:+ m], None) ->
  pumped (line :: rest) = cons ("[METRIC_JSON] " +:+ m) <$> pumped rest.
Proof.
  intros Hl. unfold pumped. cbn [pump_yields]. rewrite Hl.
  destruct (pump_yields rest) as [zs [e|]]; reflexivity.
Qed.

Lemma lines_of_app (e1 e2 : list effect) : lines_of (e1 ++ e2) = lines_of e1 ++ lines_of e2.
Proof. unfold lines_of, stdout_lines. now rewrite flat_map_app, map_app. Qed.

Lemma lines_of_cons (e : effect) (rest : list effect) :
  lines_of (e :: rest) = lines_of [e] ++ lines_of rest.
Proof. apply (lines_of_app [e] rest). Qed.

Lemma lines_of_plain (a : ascii) (text : string) :
  all_chars (plain a) text = true -> lines_of [Print text] = [text +:+ nl].
Proof.
  intros Ht. unfold lines_of, stdout_lines. cbn [flat_map]. rewrite app_nil_r.
  rewrite split_lines_plain; [reflexivity|].
  eapply all_chars_impl; [|exact Ht].
  intros c Hc. unfold plain in Hc. now apply andb_prop in Hc as [_ Hc].
Qed.

(** A print of such a text adds no metric. *)
Lemma pumped_plain (a : ascii) (lit text : string) (rest : list string) :
  In (Lit (String a lit)) metric_pattern ->
  all_chars (plain a) text = true ->
  pumped (lines_of [Print text] ++ rest) = pumped rest.
Proof.
  intros Hin Ht. rewrite (lines_of_plain _ _ Ht). cbn [app].
  exact (pumped_raw _ _ _ (quiet_line _ _ _ Hin Ht)).
Qed.

Lemma pumped_other (e : effect) (rest : list string) :
  match e with Print _ => False | _ => True end ->
  pumped (lines_of [e] ++ rest) = pumped rest.
Proof. destruct e; [intros [] | reflexivity | reflexivity]. Qed.

Lemma pumped_agents (pop_size : Z) (cb : float) (r : nat -> float) (ids : list nat)
    (rest : list string) :
  pumped (lines_of (map (fun i => Print (agent_line pop_size cb (r i) i)) ids) ++ rest) =
    pumped rest.
Proof.
  induction ids as [|i ids IH]; [reflexivity|].
  cbn [map]. rewrite lines_of_cons, <- app_assoc.
  rewrite (pumped_plain "G" "eneration"); [exact IH | simpl; tauto|].
  unfold agent_line. rewrite !all_chars_app.
  rewrite !dec_Z_plain, format_4f_plain by reflexivity. reflexivity.
Qed.

Lemma blank_line_yields : line_yields nl = (["[STDOUT] " +:+ ""], None).
Proof. reflexivity. Qed.

(** The rounds of the simulator give one metric each. *)
Lemma pumped_generations (n : nat) (g gens pop_size : Z) (cb : float)
    (rnd : nat -> float) (calls : nat) (rest : list string) :
  (0 < g)%Z -> (0 < gens)%Z -> In cb currents ->
  pumped (lines_of (generations_loop n g gens pop_size cb rnd calls) ++ rest) =
    app (round_metrics n g cb) <$> pumped rest.
Proof.
  revert g cb calls; induction n as [|n IH]; intros g cb calls Hg Hgens Hcb.
  { cbn [generations_loop round_metrics]. cbn [lines_of stdout_lines flat_map map app].
    now destruct (pumped rest). }
  cbn [generations_loop round_metrics].
  rewrite lines_of_cons, <- app_assoc.
  assert (Hplain : all_chars (plain "A")
                     ("--- Starting Generation " +:+ dec_Z g +:+ " ---") = true).
  { rewrite !all_chars_app, dec_Z_plain by reflexivity. reflexivity. }
  assert (Hstart : lines_of [Print (nl +:+ "--- Starting Generation " +:+ dec_Z g +:+ " ---")] =
                   [nl; ("--- Starting Generation " +:+ dec_Z g +:+ " ---") +:+ nl]).
  { unfold lines_of, stdout_lines. cbn [flat_map]. rewrite app_nil_r.
    change (nl +:+ ?t) with (String "010" t). cbn [split_lines].
    rewrite Ascii.eqb_refl.
    destruct (plain_line "A" "vg Reward:"
                ("--- Starting Generation " +:+ dec_Z g +:+ " ---")) as [-> _];
      [simpl; tauto | exact Hplain | reflexivity]. }
  rewrite Hstart. cbn [app].
  rewrite (pumped_raw _ _ _ blank_line_yields).
  rewrite (pumped_raw _ _ _ (quiet_line "A" "vg Reward:" _ ltac:(simpl; tauto) Hplain)).
  rewrite lines_of_app, <- app_assoc.
  rewrite (pumped_agents pop_size cb (fun i => rnd (calls + i - 1)%nat)).
  rewrite lines_of_cons, <- app_assoc.
  assert (Hgl : lines_of [Print (generation_line g gens cb)] =
                [generation_line g gens cb +:+ nl]).
  { unfold lines_of, stdout_lines. cbn [flat_map]. rewrite app_nil_r.
    now destruct (generation_line_groups g gens cb Hg Hgens Hcb) as [-> _]. }
  rewrite Hgl. cbn [app].
  rewrite (pumped_metric _ _ _ _ (generation_line_yields g gens cb Hg Hgens Hcb)).
  rewrite IH; [|lia | exact Hgens | now apply currents_closed].
  now destruct (pumped rest).
Qed.

Lemma pumped_spec (lines ms : list string) :
  pumped lines = Some ms ->
  snd (pump_yields lines) = None /\
  List.filter (startswith "[METRIC_JSON]") (fst (pump_yields lines)) = ms.
Proof.
  unfold pumped. destruct (pump_yields lines) as [ys [e|]]; [discriminate|].
  now intros [= <-].
Qed.

Lemma round_metrics_length (n : nat) (g : Z) (cb : float) :
  length (round_metrics n g cb) = n.
Proof. revert g cb; induction n as [|n IH]; intros g cb; cbn; auto. Qed.

End WithRuntime.

(** What the simulator reads in the file that the translator wrote. *)
Lemma of_yaml_translated (workspace_dir : string) (d : gmap string json) (c : config) :
  of_yaml (yaml_doc (generate_yaml_config workspace_dir d)) = Some c ->
  (exists g p,
     evolution c = Some {| generations := Some g; population_size := Some p |} /\
     get_or d "generations" (JInt 5) = JInt g /\
     get_or d "population_size" (JInt 10) = JInt p) /\
  training c = Some {| output_dir := Some (path_join workspace_dir "outputs") |}.
Proof.
  unfold generate_yaml_config, evolver_config, of_yaml. cbn [yaml_doc].
  cbn [section obj_get String.eqb Ascii.eqb Bool.eqb read_evolution read_training
       int_field str_field].
  destruct (get_or d "generations" (JInt 5)) as [| | g | | | |]; try discriminate.
  destruct (get_or d "population_size" (JInt 10)) as [| | p | | | |]; try discriminate.
  intros [= <-]. cbn. split; [|reflexivity]. exists g, p. auto.
Qed.

(** X12.  What the simulator reads in the file that [generate_yaml_config]
    wrote for a dashboard configuration: the number of generations and the
    population size are those of the dashboard, or 5 and 10 when it leaves
    them out, and the output directory is always [outputs] under the
    workspace, whatever [output_dir] the dashboard holds: that key is never
    read.  The two numbers are read when each is an integer or absent. *)
Theorem translated_config (workspace_dir : string) (d : gmap string json) :
  (forall c, of_yaml (yaml_doc (generate_yaml_config workspace_dir d)) = Some c ->
     config_generations c =
       match d !! "generations" with Some (JInt g) => g | _ => 5%Z end /\
     config_population_size c =
       match d !! "population_size" with Some (JInt p) => p | _ => 10%Z end /\
     config_output_dir c = path_join workspace_dir "outputs") /\
  (is_Some (of_yaml (yaml_doc (generate_yaml_config workspace_dir d))) <->
   (d !! "generations" = None \/ exists g, d !! "generations" = Some (JInt g)) /\
   (d !! "population_size" = None \/ exists p, d !! "population_size" = Some (JInt p))) /\
  (forall v, generate_yaml_config workspace_dir (<["output_dir" := v]> d) =
             generate_yaml_config workspace_dir d).
Proof.
  split; [|split].
  - intros c Hc. apply of_yaml_translated in Hc as [(g & p & He & Hg & Hp) Ht].
    unfold config_generations, config_population_size, config_output_dir.
    rewrite He, Ht. cbn. unfold get_or in Hg, Hp.
    destruct (d !! "generations") as [[]|]; cbn in Hg; try discriminate;
      destruct (d !! "population_size") as [[]|]; cbn in Hp; try discriminate;
      repeat split; congruence.
  - unfold generate_yaml_config, evolver_config, of_yaml. cbn [yaml_doc].
    cbn [section obj_get String.eqb Ascii.eqb Bool.eqb read_evolution read_training
         int_field str_field].
    unfold get_or.
    destruct (d !! "generations") as [[]|]; cbn [default];
      destruct (d !! "population_size") as [[]|]; cbn [default];
      (split; [intros [c Hc]; try discriminate Hc; split; eauto
              | intros [[Hg|[g Hg]] [Hp|[p Hp]]]; try discriminate; eauto]).
  - intros v. unfold generate_yaml_config, evolver_config, get_or.
    now rewrite !lookup_insert_ne by discriminate.
Qed.

Section WithRuntime.
Context `{PyRuntime}.

(** X13.  The whole chain on the default workspace, when the library is
    not installed: the shim run on the file that [generate_yaml_config]
    wrote falls back to the simulator and exits with code 0 after writing
    [workspace/outputs/best_agent.pt], the path that the runner's notice of
    success names; the runner ends in the completed state, and what it
    publishes before the two notices of success holds one metric for each
    generation, in order, with [step] ten times the generation: as many
    metrics as the configured generations, none when that is zero or
    less. *)
Theorem simulated_run (net : nat -> net_outcome) (now : string)
    (config_data : option TrainingConfig) (d : gmap string json) (c : config)
    (rnd : nat -> float) (s : server) :
  of_yaml (yaml_doc (generate_yaml_config "workspace" d)) = Some c ->
  let out := main (yaml_path (generate_yaml_config "workspace" d)) (inr c) missing rnd in
  exists child,
    child_of out = Some child /\
    exit_code child = 0%Z /\
    In (WriteFile "workspace/outputs/best_agent.pt" "mock_checkpoint_data") (fst out) /\
    let s' := exec (process_runner net now config_data child) s in
    run_state s' = Completed /\
    exists emitted,
      log_queue s' =
        log_queue s ++ emitted ++
        [ "[SYSTEM] Evolution process completed successfully.";
          "[SYSTEM] Best agent saved to workspace/outputs/best_agent.pt" ] /\
      List.filter (startswith "[METRIC_JSON]") emitted =
        round_metrics (Z.to_nat (config_generations c)) 1 0.2 /\
      length (List.filter (startswith "[METRIC_JSON]") emitted) =
        Z.to_nat (config_generations c).
Proof.
  intros Hc out.
  destruct (of_yaml_translated _ _ _ Hc) as [(g & p & He & _ & _) Ht].
  assert (Hdir : config_output_dir c = "workspace/outputs").
  { unfold config_output_dir. now rewrite Ht. }
  assert (Hout : out =
    (Print "[SHIM] Starting AgentEvolver Shim with config: workspace/config.yaml" ::
     [ Print "[WARNING] 'agent_evolver' library not found or structure mismatch.";
       Print "[WARNING] Running in Fallback/Simulation mode to keep Dashboard active." ] ++
     ([ Print "--- ModelScope AgentEvolver (SIMULATION) ---";
        Print ("[INFO] Initializing population of " +:+
               dec_Z (config_population_size c) +:+ " agents...") ] ++
      generations_loop (Z.to_nat (config_generations c)) 1 (config_generations c)
        (config_population_size c) 0.2 rnd 0 ++
      [ Print (nl +:+ "[INFO] Optimization Finished.") ]) ++
     [ MakeDirs "workspace/outputs";
       WriteFile "workspace/outputs/best_agent.pt" "mock_checkpoint_data";
       Print "[INFO] Saved best agent to workspace/outputs/best_agent.pt" ],
     Exit 0)).
  { subst out. unfold main, missing, fallback, run_fallback_simulation.
    cbn [lib_raised lib_effects]. rewrite Hdir. reflexivity. }
  set (effects := fst out).
  assert (Hpumped : pumped (lines_of effects) =
            Some (round_metrics (Z.to_nat (config_generations c)) 1 0.2)).
  { subst effects. rewrite Hout. cbn [fst].
    rewrite lines_of_cons, (pumped_plain "G" "eneration"); [|simpl; tauto | reflexivity].
    cbn [app].
    rewrite lines_of_cons, (pumped_plain "B" "est Reward:"); [|simpl; tauto | reflexivity].
    rewrite lines_of_cons, (pumped_plain "B" "est Reward:"); [|simpl; tauto | reflexivity].
    rewrite <- !app_assoc. cbn [app].
    rewrite lines_of_cons, (pumped_plain "G" "eneration"); [|simpl; tauto | reflexivity].
    rewrite lines_of_cons, (pumped_plain "G" "eneration"); [|simpl; tauto|].
    2:{ rewrite !all_chars_app, dec_Z_plain by reflexivity. reflexivity. }
    rewrite lines_of_app.
    assert (Htail : pumped (lines_of
      [ Print (nl +:+ "[INFO] Optimization Finished.");
        MakeDirs "workspace/outputs";
        WriteFile "workspace/outputs/best_agent.pt" "mock_checkpoint_data";
        Print "[INFO] Saved best agent to workspace/outputs/best_agent.pt" ]) = Some [])
      by reflexivity.
    destruct (Z.to_nat (config_generations c)) as [|n] eqn:Hn.
    { exact Htail. }
    rewrite pumped_generations, Htail; [|lia | lia | apply currents_start].
    cbn. now rewrite app_nil_r. }
  apply pumped_spec in Hpumped as [Hpump Hmetrics].
  exists (ChildRun (lines_of effects) 0). split; [|split; [reflexivity|split]].
  - unfold child_of. fold effects. now rewrite Hout.
  - subst effects. rewrite Hout. cbn [fst]. right. apply in_or_app. right.
    apply in_or_app. right. cbn [In]. tauto.
  - intros s'. subst s'.
    destruct (process_runner_spec net now config_data
                (ChildRun (lines_of effects) 0) s) as [lg Hrun].
    unfold exec. rewrite Hrun. cbn [snd].
    rewrite (run_yields_complete (ChildRun (lines_of effects) 0) Hpump).
    cbn [fst snd runner_notice final_yields exit_code readlines Z.eqb].
    split; [reflexivity|].
    exists (fst (pump_yields (lines_of effects))). split; [|split].
    + unfold grow; simpl. now rewrite app_nil_r.
    + exact Hmetrics.
    + now rewrite Hmetrics, round_metrics_length.
Qed.

End WithRuntime.

Lemma simulated_run_witness :
  let d : gmap string json := <["generations" := JInt 2]> (<["population_size" := JInt 3]> ∅) in
  let out := main "workspace/config.yaml" (inr two_rounds) missing (fun _ => 0.5%float) in
  exists child,
    child_of out = Some child /\
    exit_code child = 0%Z /\
    In (WriteFile "workspace/outputs/best_agent.pt" "mock_checkpoint_data") (fst out) /\
    let s' := exec (process_runner (H := Example.runtime)
                      (fun _ => Response 200 (Return "ok")) "2026-01-01T00:00:00"
                      None child) initial_server in
    run_state s' = Completed /\
    exists emitted,
      log_queue s' =
        [] ++ emitted ++
        [ "[SYSTEM] Evolution process completed successfully.";
          "[SYSTEM] Best agent saved to workspace/outputs/best_agent.pt" ] /\
      List.filter (startswith "[METRIC_JSON]") emitted =
        round_metrics (H := Example.runtime) 2 1 0.2 /\
      length (List.filter (startswith "[METRIC_JSON]") emitted) = 2.
Proof.
  intros d.
  apply (simulated_run (H := Example.runtime) (fun _ => Response 200 (Return "ok"))
           "2026-01-01T00:00:00" None d two_rounds (fun _ => 0.5%float) initial_server).
  reflexivity.
Defined.

End SimulatedRun.

(** ** The rewards that the simulator reports *)

Module RewardProperties.
Import Text Metric Shim ShimProperties.

Lemma best_saturates (k : nat) : Nat.iter (k + 8) best_reward 0.2%float = 0.99%float.
Proof.
  induction k as [|k IH]; [vm_compute; reflexivity|].
  change (Nat.iter (S k + 8) best_reward 0.2%float)
    with (best_reward (Nat.iter (k + 8) best_reward 0.2%float)).
  rewrite IH. vm_compute. reflexivity.
Qed.

Lemma round_rewards (k : nat) :
  (format_4f (avg_reward (Nat.iter k best_reward 0.2%float)),
   format_4f (best_reward (Nat.iter k best_reward 0.2%float))) = rewards_of_round k.
Proof.
  do 8 (destruct k as [|k]; [vm_compute; reflexivity|]).
  replace (S (S (S (S (S (S (S (S k)))))))) with (k + 8) by lia.
  rewrite best_saturates. unfold rewards_of_round.
  replace (k + 8) with (S (S (S (S (S (S (S (S k)))))))) by lia. reflexivity.
Qed.

Lemma expected_groups_closed (n k : nat) (gens : Z) :
  expected_groups n (Z.of_nat (S k)) gens (Nat.iter k best_reward 0.2%float) =
    map (fun j => (dec_Z (Z.of_nat (S j)), dec_Z gens,
                   fst (rewards_of_round j), snd (rewards_of_round j)))
        (seq k n).
Proof.
  revert k; induction n as [|n IH]; intros k; [reflexivity|].
  cbn [expected_groups seq map]. rewrite <- (round_rewards k). cbn [fst snd].
  f_equal. replace (Z.of_nat (S k) + 1)%Z with (Z.of_nat (S (S k))) by lia.
  exact (IH (S k)).
Qed.

(** X14.  The progress lines of the simulator depend neither on the random
    draws nor on the population size: in a run of a positive number of
    generations, the line of round [g] carries [g], the total, and the
    rewards of a fixed table, from 0.2500 and 0.3000 in the first round up
    by 0.1 a round, and 0.9500 and 0.9900 from the eighth round on. *)
Theorem simulated_rewards (n : nat) (gens pop_size : Z) (rnd : nat -> float) (calls : nat) :
  (0 < gens)%Z ->
  matches (generations_loop n 1 gens pop_size 0.2 rnd calls) =
    map (fun k => (dec_Z (Z.of_nat (S k)), dec_Z gens,
                   fst (rewards_of_round k), snd (rewards_of_round k)))
        (seq 0 n).
Proof.
  intros Hgens.
  rewrite generations_loop_matches; [|lia | exact Hgens | apply currents_start].
  exact (expected_groups_closed n 0 gens).
Qed.

Lemma simulated_rewards_witness :
  matches (generations_loop 9 1 9 2 0.2 (fun _ => 0.25%float) 0) =
    [ ("1", "9", "0.2500", "0.3000"); ("2", "9", "0.3500", "0.4000");
      ("3", "9", "0.4500", "0.5000"); ("4", "9", "0.5500", "0.6000");
      ("5", "9", "0.6500", "0.7000"); ("6", "9", "0.7500", "0.8000");
      ("7", "9", "0.8500", "0.9000"); ("8", "9", "0.9500", "0.9900");
      ("9", "9", "0.9500", "0.9900") ].
Proof.
  apply (simulated_rewards 9 9 2 (fun _ => 0.25%float) 0). lia.
Defined.

End RewardProperties.

(** ** The agent's memory *)

Module MemoryProperties.
Import Text TextFacts AgentCore Samples.

Section WithRuntime.
Context `{PyRuntime}.

Lemma tail_drop {A : Type} (l : list A) : tail l = drop 1 l.
Proof. now destruct l. Qed.

Lemma last_n_short {A : Type} (n : nat) (l : list A) : length l <= n -> last_n n l = l.
Proof. intros Hl. unfold last_n. now replace (length l - n) with 0 by lia. Qed.

Lemma embed_memory (a : agent) (i : interaction) (all : list entry) :
  short_term_memory a = last_n 10 all ->
  short_term_memory (embed a i) = last_n 10 (all ++ [entry_of i]).
Proof.
  unfold embed, embed_interaction, add_history_item, last_n, entry_of.
  cbn [short_term_memory]. intros ->.
  rewrite !length_app, length_drop. cbn [length].
  destruct (Nat.ltb_spec 10 (length all - (length all - 10) + 1)) as [Hlt|Hge].
  - replace (length all + 1 - 10) with (length all - 10 + 1) by lia.
    rewrite tail_drop, <- (drop_app_le all) by lia.
    now rewrite drop_drop.
  - replace (length all + 1 - 10) with 0 by lia.
    replace (length all - 10) with 0 by lia. reflexivity.
Qed.

Lemma embed_history (a : agent) (i : interaction) :
  history (embed a i) = history a ++ [row_of i].
Proof. reflexivity. Qed.

Lemma embed_all_memory (session : list interaction) (a : agent) (all : list entry) :
  short_term_memory a = last_n 10 all ->
  short_term_memory (embed_all session a) = last_n 10 (all ++ map entry_of session).
Proof.
  unfold embed_all.
  revert a all; induction session as [|i session IH]; intros a all Ha; cbn [fold_left map].
  - now rewrite app_nil_r.
  - rewrite (IH (embed a i) (all ++ [entry_of i]) (embed_memory a i all Ha)).
    now rewrite <- app_assoc.
Qed.

Lemma embed_all_rest (session : list interaction) (a : agent) :
  history (embed_all session a) = history a ++ map row_of session /\
  collection_buffer (embed_all session a) = collection_buffer a /\
  dataset (embed_all session a) = dataset a /\
  printed (embed_all session a) = printed a.
Proof.
  unfold embed_all.
  revert a; induction session as [|i session IH]; intros a; cbn [fold_left map].
  - now rewrite app_nil_r.
  - destruct (IH (embed a i)) as (-> & -> & -> & ->).
    rewrite embed_history, <- app_assoc. auto.
Qed.

(** X15.  The short-term memory is a window on the last ten interactions:
    after any session, from a memory of at most ten entries, it holds the
    last ten of the entries it had and those of the session, in order, the
    oldest being dropped first; the history table keeps a row for every
    interaction. *)
Theorem memory_window (session : list interaction) (a : agent) :
  length (short_term_memory a) <= 10 ->
  short_term_memory (embed_all session a) =
    last_n 10 (short_term_memory a ++ map entry_of session) /\
  length (short_term_memory (embed_all session a)) =
    Nat.min 10 (length (short_term_memory a) + length session) /\
  history (embed_all session a) = history a ++ map row_of session.
Proof.
  intros Ha.
  assert (Hm := embed_all_memory session a (short_term_memory a)
                  (eq_sym (last_n_short 10 _ Ha))).
  split; [exact Hm|]. split; [|apply embed_all_rest].
  rewrite Hm. unfold last_n. rewrite length_drop, length_app, length_map. lia.
Qed.

End WithRuntime.

Lemma memory_window_witness :
  length (short_term_memory (embed_all (H := Example.runtime) (chatty 12) initial_agent)) = 10 /\
  map prompt (short_term_memory (embed_all (H := Example.runtime) (chatty 12) initial_agent)) =
    map (fun k => "question " +:+ dec_Z (Z.of_nat k)) (seq 2 10) /\
  length (history (embed_all (H := Example.runtime) (chatty 12) initial_agent)) = 12.
Proof.
  destruct (memory_window (H := Example.runtime) (chatty 12) initial_agent)
    as (Hm & Hl & Hh); [cbn; lia|].
  split; [exact Hl|]. split; [now rewrite Hm | now rewrite Hh].
Defined.

End MemoryProperties.

Module RecallProperties.
Import Text TextFacts AgentCore Samples.

Lemma startswith_cons (c : ascii) (w s : string) :
  startswith w s = true -> startswith (String c w) (String c s) = true.
Proof. unfold startswith. cbn [drop_prefix]. now rewrite Ascii.eqb_refl. Qed.

Lemma startswith_nil (s : string) : startswith "" s = true.
Proof. now destruct s. Qed.

Lemma contains_cons (l : string) (c : ascii) (s : string) :
  contains l s = true -> contains l (String c s) = true.
Proof. intros Hs. cbn [contains]. rewrite Hs. apply orb_true_r. Qed.

(** The words of a text are in the text, and the first one starts it when
    the text starts with no whitespace. *)
Lemma split_spec (s : string) :
  (forall w, In w (split s) -> contains w s = true) /\
  (forall c s', s = String c s' -> is_space c = false ->
     exists w ws, split s = w :: ws /\ startswith w s = true).
Proof.
  induction s as [|c s [IHin IHhd]]; [split; [intros w [] | discriminate]|].
  cbn [split]. destruct (is_space c) eqn:Hc.
  { split; [|intros ? ? [= <- <-]; congruence].
    intros w Hw. now apply contains_cons, IHin. }
  destruct s as [|c' s'].
  { split.
    - intros w [<-|[]]. apply contains_startswith, startswith_cons, startswith_nil.
    - intros ? ? _ _. exists (String c ""), []. split; [reflexivity|].
      apply startswith_cons, startswith_nil. }
  destruct (is_space c') eqn:Hc'.
  { split.
    - intros w [<-|Hw]; [|now apply contains_cons, IHin].
      apply contains_startswith, startswith_cons, startswith_nil.
    - intros ? ? _ _. eexists _, _. split; [reflexivity|].
      apply startswith_cons, startswith_nil. }
  destruct (IHhd c' s' eq_refl Hc') as (w0 & ws & Hs & Hw0).
  rewrite Hs in IHin |- *. split.
  - intros w [<-|Hw].
    + now apply contains_startswith, startswith_cons.
    + apply contains_cons, IHin. now right.
  - intros ? ? _ _. exists (String c w0), ws. split; [reflexivity|].
    now apply startswith_cons.
Qed.

Lemma split_blank (s : string) : split s = [] <-> all_chars is_space s = true.
Proof.
  induction s as [|c s IH]; [easy|].
  cbn [split all_chars]. destruct (is_space c) eqn:Hc; [exact IH|].
  split; [|discriminate].
  destruct s as [|c' s']; [discriminate|].
  destruct (is_space c'); [discriminate|]. now destruct (split (String c' s')).
Qed.

(** A query that is not blank is relevant to an entry with the same
    prompt. *)
Lemma relevant_same (query : string) (item : entry) :
  all_chars is_space (lower query) = false ->
  prompt item = query -> relevant query item = true.
Proof.
  intros Hq Hp. unfold relevant. rewrite Hp.
  destruct (split (lower query)) as [|w ws] eqn:Hs.
  { apply split_blank in Hs. congruence. }
  cbn [existsb].
  rewrite (proj1 (split_spec (lower query)) w); [reflexivity|].
  rewrite Hs. now left.
Qed.

Section WithRuntime.
Context `{PyRuntime}.

Lemma rev_embed_memory (now now' q r : string) (ok : bool) (a : agent) :
  exists older,
    rev (short_term_memory (embed_interaction now now' q r ok a)) =
      Entry now q r ok :: older.
Proof.
  unfold embed_interaction, add_history_item. cbn [short_term_memory].
  destruct (Nat.ltb_spec 10 (length (short_term_memory a ++ [Entry now q r ok])))
    as [Hlt|_].
  - destruct (short_term_memory a) as [|e m]; cbn [app tail].
    + cbn in Hlt. lia.
    + exists (rev m). now rewrite rev_app_distr.
  - exists (rev (short_term_memory a)). now rewrite rev_app_distr.
Qed.

(** X16.  [retrieve_context] returns at most three lines.  Right after an
    interaction is recorded, the same query retrieves it first, with its
    response and its result, when the query holds a character other than
    whitespace; a blank query retrieves nothing. *)
Theorem recall_of_repeat (now now' query response : string) (ok : bool) (a : agent) :
  (all_chars is_space (lower query) = false ->
   head (retrieve_context query (embed_interaction now now' query response ok a)) =
     Some ("Recent Action: " +:+ response +:+ " (Result: " +:+
           (if ok then "Success" else "Fail") +:+ ")")) /\
  (all_chars is_space (lower query) = true ->
   retrieve_context query (embed_interaction now now' query response ok a) = []) /\
  length (retrieve_context query a) <= 3.
Proof.
  split; [|split].
  - intros Hq. unfold retrieve_context.
    destruct (rev_embed_memory now now' query response ok a) as [older ->].
    cbn [List.filter].
    rewrite (relevant_same query (Entry now query response ok) Hq eq_refl). reflexivity.
  - intros Hq. unfold retrieve_context.
    assert (Hnone : forall l, List.filter (relevant query) l = []).
    { intros l. apply ListFacts.filter_none. intros item _. unfold relevant.
      apply split_blank in Hq. now rewrite Hq. }
    now rewrite Hnone.
  - unfold retrieve_context. rewrite length_take. lia.
Qed.

End WithRuntime.

Lemma recall_of_repeat_witness :
  head (retrieve_context "Open the LOGS"
          (embed_interaction (H := Example.runtime) "t1" "t2" "Open the LOGS"
             "Navigating to logs..." true initial_agent)) =
    Some "Recent Action: Navigating to logs... (Result: Success)".
Proof.
  apply (proj1 (recall_of_repeat (H := Example.runtime) "t1" "t2" "Open the LOGS"
                  "Navigating to logs..." true initial_agent)).
  reflexivity.
Defined.

End RecallProperties.

(** ** Feedback *)

Module TrainerProperties.
Import Text TextFacts AgentCore Samples.

Section WithRuntime.
Context `{PyRuntime}.

Lemma collect_step (a : agent) (f : feedback) :
  length (collection_buffer a) < 10 ->
  let a' := collect a f in
  let k := if positive f then 1 else 0 in
  length (collection_buffer a') < 10 /\
  length (dataset a') = length (dataset a) + k /\
  10 * length (printed a') + length (collection_buffer a') =
    10 * length (printed a) + length (collection_buffer a) + k /\
  short_term_memory a' = short_term_memory a /\ history a' = history a.
Proof.
  intros Hb. destruct f as [[p act] rating]. unfold positive, collect, collect_feedback.
  cbn [snd]. destruct (0 <? rating)%Z; [|cbn zeta; repeat split; lia].
  cbn [collection_buffer]. rewrite length_app. cbn [length].
  destruct (Nat.leb_spec 10 (length (collection_buffer a) + 1)) as [Hfull|Hless];
    unfold trigger_optimization_job; cbn; rewrite !length_app; cbn [length];
    repeat split; lia.
Qed.

(** X17.  Feedback is collected in batches of ten: after any session, from
    a buffer of fewer than ten examples, the buffer still holds fewer than
    ten, the dataset file has grown by one line for each rating above
    zero, every such example is either in the buffer or in one of the
    batches announced (ten for each line printed), and the memory and the
    history are untouched; a session without a rating above zero changes
    nothing. *)
Theorem feedback_batches (session : list feedback) (a : agent) :
  length (collection_buffer a) < 10 ->
  let a' := collect_all session a in
  length (collection_buffer a') < 10 /\
  length (dataset a') = length (dataset a) + length (List.filter positive session) /\
  10 * length (printed a') + length (collection_buffer a') =
    10 * length (printed a) + length (collection_buffer a) +
    length (List.filter positive session) /\
  short_term_memory a' = short_term_memory a /\ history a' = history a /\
  (List.filter positive session = [] -> a' = a).
Proof.
  unfold collect_all.
  revert a; induction session as [|f session IH]; intros a Hb; cbn [fold_left List.filter].
  { cbn. repeat split; lia. }
  destruct (collect_step a f Hb) as (Hb1 & Hd1 & Hp1 & Hm1 & Hh1).
  destruct (IH (collect a f) Hb1) as (Hb2 & Hd2 & Hp2 & Hm2 & Hh2 & Hsame).
  cbn zeta in *.
  assert (Hk : length (List.filter positive session) + (if positive f then 1 else 0) =
               length (if positive f then f :: List.filter positive session
                       else List.filter positive session)).
  { destruct (positive f); cbn [length]; lia. }
  repeat split; try congruence; try lia.
  destruct (positive f) eqn:Hf; [discriminate|].
  intros Hnone. rewrite (Hsame Hnone).
  destruct f as [[p act] rating]. unfold positive in Hf. cbn [snd] in Hf.
  unfold collect, collect_feedback. now rewrite Hf.
Qed.

End WithRuntime.

Lemma feedback_batches_witness :
  let a' := collect_all (H := Example.runtime) (praise 24) initial_agent in
  length (collection_buffer a') = 2 /\ length (dataset a') = 12 /\
  length (printed a') = 1.
Proof.
  destruct (feedback_batches (H := Example.runtime) (praise 24) initial_agent)
    as (Hb & Hd & Hp & _); [cbn; lia|].
  cbn zeta in *. cbn [initial_agent collection_buffer dataset printed length] in *.
  change (length (List.filter positive (praise 24))) with 12 in *.
  lia.
Defined.

End TrainerProperties.

(** ** The agent's reasoning *)

Module ReasonProperties.
Import Text TextFacts Server AgentCore Samples.

Section WithFormat.
Context `{PyRuntime} `{PyFormat}.

(** X18.  A query that holds "navigate" or "go to", in any case of the
    letters, is answered by a navigation, even when it also asks to start
    training: the action is [navigationTool], the route is chosen by
    precedence ("train" before "memory", "chat", "log" and "config", the
    dashboard otherwise), the response names it, and the interaction is
    recorded as a success. *)
Theorem navigation_first (now now' user_query : string) (app_state : gmap string json)
    (a : agent) :
  contains "navigate" (lower user_query) || contains "go to" (lower user_query) = true ->
  let target := target_by_precedence (lower user_query) in
  let response_text := "Navigating to " +:+ target +:+ "..." in
  exists thoughts,
    reason now now' user_query app_state a =
      (Ok (reply thoughts response_text (navigation target)),
       embed_interaction now now' user_query response_text true a).
Proof.
  intros Hnav target response_text. unfold reason. rewrite Hnav.
  assert (Ht : target_of (lower user_query) = target).
  { subst target. unfold target_of, target_by_precedence.
    generalize (lower user_query). intros lq.
    destruct (contains "train" lq), (contains "memory" lq), (contains "chat" lq),
      (contains "log" lq), (contains "config" lq); reflexivity. }
  rewrite Ht. eexists. reflexivity.
Qed.

(** X19.  [reason] raises only on a query routed to the analysis (it holds
    "analyze" or "think", and neither "navigate" nor "go to" nor both
    "train" and "start") when [activeConfig] is present in the state and is
    not a mapping; nothing is then recorded, and [agent_interact] logs the
    error and answers 500.  In every other case [reason] returns its reply
    and has recorded the interaction with that reply's response, and
    [agent_interact] answers the reply. *)
Theorem reason_failure (now now' user_query : string) (app_state : gmap string json)
    (a : agent) (s : server) :
  (forall msg a',
     reason now now' user_query app_state a = (AttributeError msg, a') ->
     a' = a /\
     contains "navigate" (lower user_query) || contains "go to" (lower user_query) = false /\
     contains "analyze" (lower user_query) || contains "think" (lower user_query) = true /\
     (exists v, app_state !! "activeConfig" = Some v /\ msg = no_get v /\
                forall o, v <> JObj o) /\
     snd (agent_interact now now' user_query app_state a) = a /\
     fst (agent_interact now now' user_query app_state a) s =
       (Raise (HTTPException 500 "The Agent Brain encountered an error."),
        set_logs (logs s ++ [ LogRecord "AgentEvolverServer" ERROR
                                ("Agent Logic Error: " +:+ msg) ]) s)) /\
  (forall response a',
     reason now now' user_query app_state a = (Ok response, a') ->
     (exists thoughts response_text action,
        response = reply thoughts response_text action /\
        a' = embed_interaction now now' user_query response_text true a) /\
     agent_interact now now' user_query app_state a = (ret response, a')).
Proof.
  unfold agent_interact. split.
  - intros msg a' Hr. rewrite Hr. cbn [fst snd]. revert Hr. unfold reason.
    destruct (contains "navigate" _ || contains "go to" _); [discriminate|].
    destruct (contains "train" _ && contains "start" _); [discriminate|].
    destruct (contains "analyze" _ || contains "think" _); [|discriminate].
    unfold active_model_name.
    destruct (app_state !! "activeConfig") as [v|] eqn:Hv; [|discriminate].
    destruct v; try discriminate; intros [= <- <-];
      (split; [reflexivity|]); (split; [reflexivity|]); (split; [reflexivity|]);
      (split; [eexists; split; [reflexivity|]; split; [reflexivity | discriminate]|]);
      (split; [reflexivity|]); reflexivity.
  - intros response a' Hr. rewrite Hr. split; [|reflexivity]. revert Hr. unfold reason.
    destruct (contains "navigate" _ || contains "go to" _);
      [intros [= <- <-]; eexists _, _, _; split; reflexivity|].
    destruct (contains "train" _ && contains "start" _);
      [intros [= <- <-]; eexists _, _, _; split; reflexivity|].
    destruct (contains "analyze" _ || contains "think" _);
      [|intros [= <- <-]; eexists _, _, _; split; reflexivity].
    destruct (active_model_name app_state); [|discriminate].
    intros [= <- <-]; eexists _, _, _; split; reflexivity.
Qed.

End WithFormat.

Lemma navigation_first_witness :
  exists thoughts,
    reason (H := Example.runtime) (H0 := Example.format) "t1" "t2"
      "Start training, then go to the logs" ∅ initial_agent =
      (Ok (reply thoughts "Navigating to autotrain..." (navigation "autotrain")),
       embed_interaction (H := Example.runtime) "t1" "t2"
         "Start training, then go to the logs" "Navigating to autotrain..." true
         initial_agent).
Proof.
  apply (navigation_first (H := Example.runtime) (H0 := Example.format) "t1" "t2"
           "Start training, then go to the logs" ∅ initial_agent).
  reflexivity.
Defined.

Lemma reason_failure_witness :
  fst (agent_interact (H := Example.runtime) (H0 := Example.format) "t1" "t2"
         "analyze my setup" (<["activeConfig" := JNull]> ∅) initial_agent) initial_server =
    (Raise (HTTPException 500 "The Agent Brain encountered an error."),
     set_logs [ LogRecord "AgentEvolverServer" ERROR
                  "Agent Logic Error: 'NoneType' object has no attribute 'get'" ]
       initial_server).
Proof.
  destruct (proj1 (reason_failure (H := Example.runtime) (H0 := Example.format)
                     "t1" "t2" "analyze my setup" (<["activeConfig" := JNull]> ∅)
                     initial_agent initial_server)
              "'NoneType' object has no attribute 'get'" initial_agent)
    as (_ & _ & _ & _ & _ & Hanswer); [reflexivity | exact Hanswer].
Defined.

End ReasonProperties.

(** ** A configuration that cannot be read *)

Module UnreadableConfig.
Import Text Re Metric TextFacts ReFacts MetricFacts DecimalFacts.
Import EvolutionService Server Trace Shim ConfigTranslator ShimMain Samples.
Import ShimProperties RunnerProperties RunProperties StripFacts SimulatedRun.

Lemma startswith_app_l (l a b : string) :
  startswith l a = true -> startswith l (a +:+ b) = true.
Proof.
  unfold startswith. destruct (drop_prefix l a) as [r|] eqn:Hd; [|discriminate].
  intros _. apply drop_prefix_inv in Hd as ->.
  now rewrite append_assoc, drop_prefix_app.
Qed.

Lemma contains_app_l (l a b : string) :
  contains l a = true -> contains l (a +:+ b) = true.
Proof.
  induction a as [|c a IH]; cbn [contains].
  - rewrite orb_false_r. intros Hs.
    apply contains_startswith, (startswith_app_l l "" b Hs).
  - intros Hc. apply orb_prop in Hc as [Hs|Hc].
    + apply contains_startswith. exact (startswith_app_l l (String c a) b Hs).
    + change (String c a +:+ b) with (String c (a +:+ b)). cbn [contains].
      rewrite (IH Hc). apply orb_true_r.
Qed.

Lemma rstrip_prefix (s : string) : exists w, s = rstrip s +:+ w.
Proof.
  induction s as [|c s [w IH]]; [now exists ""|].
  cbn [rstrip]. destruct (rstrip s) as [|d r].
  - destruct (is_space c); [now exists (String c s) | now exists s].
  - exists w. cbn [String.append]. f_equal. exact IH.
Qed.

(** What [strip] returns is a part of the text. *)
Lemma contains_strip (l s : string) :
  contains l s = false -> contains l (strip s) = false.
Proof.
  intros Hs. unfold strip.
  assert (Hl : contains l (lstrip s) = false).
  { induction s as [|c s IH]; cbn [lstrip]; [exact Hs|].
    destruct (is_space c); [|exact Hs]. apply IH. exact (contains_tail _ _ _ Hs). }
  destruct (rstrip_prefix (lstrip s)) as [w Hw].
  destruct (contains l (rstrip (lstrip s))) eqn:Hr; [|reflexivity].
  rewrite Hw, (contains_app_l _ _ w Hr) in Hl. discriminate.
Qed.

Lemma strip_newline (s : string) : strip (s +:+ nl) = strip s.
Proof.
  unfold strip. induction s as [|c s IH]; [reflexivity|].
  change (String c s +:+ nl) with (String c (s +:+ nl)). cbn [lstrip].
  destruct (is_space c); [exact IH|].
  exact (rstrip_newline (String c s)).
Qed.

Lemma split_lines_head (s : string) :
  exists l0 ls w, split_lines s = l0 :: ls /\ s = l0 +:+ w.
Proof.
  induction s as [|c s (l0 & ls & w & Hs & Hw)]; [now exists "", [], ""|].
  cbn [split_lines]. destruct (Ascii.eqb c "010").
  - exists "", (split_lines s), (String c s). auto.
  - rewrite Hs. exists (String c l0), ls, w. split; [reflexivity|].
    cbn [String.append]. f_equal. exact Hw.
Qed.

(** A line of a text holds nothing that the text does not hold. *)
Lemma split_lines_contains (l s line : string) :
  In line (split_lines s) -> contains l line = true -> contains l s = true.
Proof.
  revert line; induction s as [|c s IH]; intros line.
  { intros [<-|[]]. trivial. }
  cbn [split_lines]. destruct (Ascii.eqb c "010").
  - intros [<-|Hin] Hc.
    + cbn [contains] in Hc. rewrite orb_false_r in Hc.
      apply contains_startswith. exact (startswith_app_l l "" (String c s) Hc).
    + cbn [contains]. rewrite (IH _ Hin Hc). apply orb_true_r.
  - destruct (split_lines_head s) as (l0 & ls & w & Hs & Hw). rewrite Hs.
    intros [<-|Hin] Hc.
    + cbn [contains] in Hc. apply orb_prop in Hc as [Hc|Hc].
      * apply contains_startswith. rewrite Hw.
        exact (startswith_app_l l (String c l0) w Hc).
      * cbn [contains]. rewrite (IH l0); [apply orb_true_r | | exact Hc].
        rewrite Hs. now left.
    + cbn [contains]. rewrite (IH line); [apply orb_true_r | | exact Hc].
      rewrite Hs. now right.
Qed.

(** A literal that starts with [a] does not straddle the end of a text
    without [a]. *)
Lemma contains_after (a : ascii) (l p x : string) :
  all_chars (fun c => negb (Ascii.eqb a c)) p = true ->
  contains (String a l) (p +:+ x) = contains (String a l) x.
Proof.
  induction p as [|c p IH]; [reflexivity|].
  cbn [all_chars]. intros Hp. apply andb_prop in Hp as [Hc Hp].
  change (String c p +:+ x) with (String c (p +:+ x)). cbn [contains].
  rewrite (IH Hp). unfold startswith. cbn [drop_prefix].
  destruct (Ascii.eqb a c); [discriminate | reflexivity].
Qed.

Section WithRuntime.
Context `{PyRuntime}.

Lemma silent_line (x : string) :
  contains "Generation" x = false ->
  line_yields (x +:+ nl) = (["[STDOUT] " +:+ strip x], None).
Proof.
  intros Hx. unfold line_yields.
  assert (Hne : String.eqb (x +:+ nl) "" = false) by now destruct x.
  rewrite Hne, strip_newline.
  rewrite (metric_groups_without (strip x) "Generation"); [reflexivity | simpl; tauto|].
  now apply contains_strip.
Qed.

Lemma pumped_silent (text : string) (rest : list string) :
  contains "Generation" text = false ->
  pumped (lines_of [Print text] ++ rest) = pumped rest.
Proof.
  intros Ht. unfold lines_of, stdout_lines. cbn [flat_map]. rewrite app_nil_r.
  assert (Hlines : forall x, In x (split_lines text) -> contains "Generation" x = false).
  { intros x Hin. destruct (contains "Generation" x) eqn:Hx; [|reflexivity].
    rewrite (split_lines_contains _ _ _ Hin Hx) in Ht. discriminate. }
  induction (split_lines text) as [|x xs IH]; [reflexivity|].
  cbn [map app]. rewrite (pumped_raw _ _ _ (silent_line x (Hlines x (or_introl eq_refl)))).
  apply IH. intros y Hy. apply Hlines. now right.
Qed.

(** X20.  When the configuration file cannot be read, the shim prints its
    banner and the error, exits with code 1 and does nothing else: the
    library is not imported and the simulator does not run.  Under the
    runner, when neither the path nor the error text holds "Generation",
    the run ends failed with code 1, on the notice that cites that code,
    and no metric is published. *)
Theorem unreadable_config (net : nat -> net_outcome) (now : string)
    (config_data : option TrainingConfig) (config_path e : string)
    (lib : library_run) (rnd : nat -> float) (s : server) :
  contains "Generation" config_path = false ->
  contains "Generation" e = false ->
  let out := main config_path (inl e) lib rnd in
  fst out =
    [ Print ("[SHIM] Starting AgentEvolver Shim with config: " +:+ config_path);
      Print ("[ERROR] Failed to load YAML config: " +:+ e) ] /\
  exists child,
    child_of out = Some child /\
    exit_code child = 1%Z /\
    let s' := exec (process_runner net now config_data child) s in
    run_state s' = Failed 1 /\
    exists emitted,
      log_queue s' =
        log_queue s ++ emitted ++
        [ "[ERROR] Evolution process failed with exit code 1" ] /\
      List.filter (startswith "[METRIC_JSON]") emitted = [].
Proof.
  intros Hpath He out. split; [reflexivity|].
  set (effects := fst out).
  assert (Hpumped : pumped (lines_of effects) = Some []).
  { subst effects out. cbn [main fst].
    rewrite lines_of_cons, pumped_silent.
    2:{ rewrite (contains_after "G" "eneration"); [exact Hpath | reflexivity]. }
    rewrite <- (app_nil_r (lines_of _)), pumped_silent; [reflexivity|].
    rewrite (contains_after "G" "eneration"); [exact He | reflexivity]. }
  apply pumped_spec in Hpumped as [Hpump Hmetrics].
  exists (ChildRun (lines_of effects) 1). split; [reflexivity|]. split; [reflexivity|].
  intros s'. subst s'.
  destruct (process_runner_spec net now config_data
              (ChildRun (lines_of effects) 1) s) as [lg Hrun].
  unfold exec. rewrite Hrun. cbn [snd].
  rewrite (run_yields_complete (ChildRun (lines_of effects) 1) Hpump).
  cbn [fst snd runner_notice final_yields exit_code readlines Z.eqb].
  split; [reflexivity|].
  exists (fst (pump_yields (lines_of effects))). split; [|exact Hmetrics].
  unfold grow; simpl. now rewrite app_nil_r.
Qed.

End WithRuntime.

Lemma unreadable_config_witness :
  let out := main "workspace/config.yaml"
               (inl "[Errno 2] No such file or directory: 'workspace/config.yaml'")
               missing (fun _ => 0.5%float) in
  exists child,
    child_of out = Some child /\
    exit_code child = 1%Z /\
    let s' := exec (process_runner (H := Example.runtime)
                      (fun _ => Response 200 (Return "ok")) "2026-01-01T00:00:00"
                      None child) initial_server in
    run_state s' = Failed 1 /\
    exists emitted,
      log_queue s' =
        [] ++ emitted ++ [ "[ERROR] Evolution process failed with exit code 1" ] /\
      List.filter (startswith "[METRIC_JSON]") emitted = [].
Proof.
  apply (unreadable_config (H := Example.runtime)
           (fun _ => Response 200 (Return "ok")) "2026-01-01T00:00:00" None
           "workspace/config.yaml"
           "[Errno 2] No such file or directory: 'workspace/config.yaml'"
           missing (fun _ => 0.5%float) initial_server); reflexivity.
Defined.

End UnreadableConfig.
